(* ===== verification/_CoqProject ===== *)
-Q . S2P
Prelude.v
JsNumber.v
Json.v
Naming.v
Catalog.v
Storage.v
Settings.v
Alerts.v
NumberConv.v
NumberPrint.v
Server.v
System.v
Refinement.v
