(* ===== verification/Prelude.v ===== *)
(** * Smart Farm backend: a verification development

    The repository is a single Express application,
    [src/smart-farm-backend/index.js]: an HTTP backend for a farm-monitoring
    device.  It keeps three in-memory stores, module-level [const]s of the
    source, and exposes them through nine routes:

    - [sounds] (lines 27-29): sound records, the built-in entry at startup
      and one entry pushed per successful upload;
    - [settings] (lines 30-36): one mutable record whose [selectedSoundId]
      must name a sound of [sounds];
    - [alerts] (line 26): detection events, newest first ([unshift]).

    The handlers (lines 38-130) read or mutate the stores; the stores meet
    only in the existence check of a sound id (lines 69 and 123) and in the
    upload, which pushes a sound and selects it (lines 62-63).  At startup
    the [uploads] directory is created (lines 12-15); multer (lines 17-24,
    run by the upload route, line 50) writes each uploaded file there
    under [`${Date.now()}-${safeName}`] before the handler runs.

    ** Files, in dependency order

    - [Prelude] (this file): the [farm_scope], the [farm] and [farm_rw]
      hint databases, the tactics [invc] and [case_ifs], list lemmas.
    - [JsNumber]: JavaScript numbers ([NaN], the infinities, finite values
      as rationals), [IsLessThan], [Math.max]/[Math.min] from the ECMAScript
      algorithm, truthiness; [number_equiv] identifies rationals denoting
      the same double and every operation is [Proper] for it; the inline
      clamp [Math.min(hi, Math.max(lo, x))] is proved equivalent to the
      mathematical clamp ([clamp_reference]).
    - [Json]: request bodies as JSON values (objects as member lists, the
      last duplicate winning), [v?.k], [typeof], [||], [Number(v)] with
      [ToPrimitive] (which throws on an own [toString] member), the
      [JsCoercion] interface for the engine's [StringToNumber] and
      [Number::toString], and [JSON.stringify]'s rule for non-finite
      numbers ([serialize]).
    - [Naming]: [String(Date.now())] ([date_string]), the [/\s+/g]
      replacement as a one-pass scan ([safe_name]) and as the RegExp
      replace algorithm with fuel ([regex_replace_ws]), the multer file
      name.
    - [Catalog]: [sound], [sounds.some], [sounds.push], the uploaded record,
      and the [Catalog] class: the interface the settings component is
      proved against, implemented by [list sound].
    - [Storage]: the disk (a [gset] of directories and a [gmap] of files),
      the startup code of lines 12-15 ([ensure_uploads_dir], with
      [fs.existsSync] and the recursive [fs.mkdirSync]), the multer disk
      storage of lines 17-24 ([storage], [store_file]) and busboy's base
      name of the client's file name.
    - [Settings]: [settings], [POST /sounds/select] ([select_sound]) and the
      five guarded statements of [PUT /settings] ([update_settings]), with
      the well-formedness [settings_wf] they preserve.
    - [Alerts]: [alert] and the detection handler's body
      ([record_detection]), whose [Number(..)] may throw.
    - [NumberConv]: the engine's [StringToNumber] ([js_string_to_number]:
      the [StringNumericLiteral] grammar, whitespace, [Infinity], [0x],
      [0o], [0b], exponents) and the rounding of a rational to the nearest
      double, ties to even ([round_to_double]), with the floor
      logarithms it needs; [is_double] characterises the finite doubles.
    - [NumberPrint]: the engine's [Number::toString]
      ([js_number_to_string]: the shortest-digits search [digit_search]
      over the two candidates [candidate_digits] of each length, trailing
      zeros moved into the exponent, the five layouts of [format_digits]),
      and [engine_coercion], the two engine conversions as an instance of
      [JsCoercion].
    - [Server]: the state, the request as the middleware chain sees it, the
      chain itself ([step]: cors preflight, [express.json()], the route
      table with Express's matching, 404), every handler ([handle]) with its
      status and JSON body, [HEAD] answered without a body, reachability,
      request sequences ([run]) and the scenarios of the specification.
    - [System]: the server and its disk together: [upload.single("file")]
      ([multer_single]) composed with [step] on the upload route
      ([sys_step]), startup ([boot], the port [listen_port] and
      [app.listen] with its console line, [start]) and the reachable
      states ([sys_reachable]), with multer's clock increasing.
    - [Refinement]: the contract of section 4 of the specification as a
      relation over an abstract state ([Contract.contract_step]), the
      refinement theorem [step_refines] for the server, and
      [sys_step_refines] for the server with its disk, where the contract
      also sees the blob store ([blobs], [blob_step]); the contract's
      reachable states ([Contract.reachable]) and its invariant, carried
      to every reachable state of the system ([sys_reachable_contract]).

    ** What is proved (claims C1-C35 of the manifest)

    - Invariant: every reachable state keeps the selected id in the
      catalog, the two numbers in range and the catalog shape (C1); with a
      strictly increasing clock every id is unique (C9), and two uploads in
      one millisecond do share an id (C21); along any sequence of
      requests the alert log is exactly the detections answered 200,
      newest first, under the ids of their requests (C34).
    - Refinement: every step is a step of the specification's contract
      with the matching status, or a framework answer that changes nothing
      (C2); which stores each request may change (C8).  Every state the
      server with its disk reaches is a state the contract reaches by its
      own steps ([Contract.reachable]), so the contract's invariant,
      proved once on the contract, holds of the code (C35).
    - Behaviour of each handler on every branch: select (C3, C4), upload
      (C5, C6), detection (C7, C12-C16), settings update (C10, C11).
    - The regular-expression replacement and its termination (C17), the
      file-name round trip (C18).
    - The scenarios of section 8 of the specification (C19, C20).
    - Only [POST] and [PUT] requests change the state (C22); the route
      table is unambiguous: two routes matching one method and path lead
      to the same handler, proved from the decided separation of the table
      ([routes_separated_table]) (C23).
    - The disk: in every reachable state of the system every uploaded
      sound names a file on the disk (C24); an upload with one attached
      file part always succeeds (C25); two uploads in one millisecond with
      names that sanitise alike overwrite one file (C26); a second
      attached part gives 500 and removes the first file again (C27);
      parts whose base name is empty are never attached, and an upload of
      only such parts is a 400 that writes nothing (C28); multer writes
      only directly into [uploads], whatever name the client sends (C29).
    - Startup: the process listens on [PORT] or [5000] with the initial
      stores and the uploads directory, printing its one console line, or
      stops when [fs.mkdirSync] throws (C30); a file named [uploads] makes
      every upload fail (C31).
    - Composition: the whole system refines the contract together with
      its blob store (the files of [uploads], by name): only a successful
      upload writes a blob, with exactly the uploaded bytes, and a failure
      changes no store and removes at most the one blob multer wrote for
      it (C32).
    - Numbers: with the engine's conversions installed as the
      [JsCoercion] instance [engine_coercion], a confidence sent as [[x]]
      is recorded as [x] (C33).  Its proof carries the engine's theory:
      [Number::toString]'s digit search ends within 17 digits
      ([digit_search_some]) and what it writes reads back through
      [StringToNumber] as the same double
      ([js_number_to_string_read_nonzero]), from the lemma
      [round_to_double_near]: every rational within [x / 2^54] of a
      positive double [x] rounds to [x], also at the bottom of a binade.

    ** Modelling choices, bounds and fuel

    - One request is one atomic [step]: Node runs each handler to
      completion without yielding.  The environment supplies per request the
      value of [Date.now()] (an [N]) and of [toLocaleTimeString()]; multer
      reads its own [Date.now()] ([multer_now]) before the handler runs.
    - Finite doubles are exact rationals: the handlers only compare
      numbers, so the rounding of the JSON parser happens before the model
      starts; the literal [0.8] is the double [3602879701896397 * 2^-52].
      [-0] is not distinguished from [+0] ([Math.max(0, -0)] is [+0] and
      [JSON.stringify] prints both as [0]).
    - [Date.now()] stays below [8.64e15 < 1e21], so [String(..)] of it is
      the plain decimal rendering [date_string].
    - [regex_replace_ws] consumes one unit of fuel per emitted character or
      run; fuel [length s + 1] is enough (C17).
    - Strings are ASCII; [\s] is modelled on ASCII whitespace, and so is
      the [StrWhiteSpace] of [StringToNumber].
    - [StringToNumber] rounds the exact value of the literal (the first
      option of [RoundMVResult], as V8 does); [zlog] runs on fuel
      [log2 n + 1], enough since every step divides by the base.
    - [Number::toString] searches [k = 1 .. 17] digits: fuel 17 is enough
      because the nearer 17-digit candidate is within [x / (2 * 10^16)] of
      [x] and [2 * 10^16 > 2^54] ([digit_search_some]); [strip_zeros] has
      fuel 17 too, and
      stops early without harm, since any [(s, p)] of the same value lays
      out as a string that reads back alike.
    - Paths are absolute and normalised, as [__dirname] is, so
      [path.join(dir, name)] of one path component is [dir ++ "/" ++ name].
      The disk the server starts on has no file at [uploads] and no
      directory inside it ([boot_disk_ok]); a disk write does not fail for
      lack of space.  [sys_reachable] requires multer's clock to increase
      strictly from one request to the next, as a clock read once per
      millisecond-separated request does; C26 shows what happens when it
      does not.
    - Library behaviour the program relies on is modelled from the
      libraries' documentation and marked as such in the manifest: the
      Express router, Node's [HEAD] handling, [path.join], [fs.existsSync],
      [fs.mkdirSync], multer's [single] (with its skipping of parts whose
      name is empty) and disk storage, busboy's [basename].

    ** Not modelled

    - Module loading and [dotenv] (lines 1-6): they load code and copy
      [.env] into [process.env], which enters the model as the argument
      [env_port] of [start]; the [console.log] calls of two handlers
      (lines 80, 92) write the request body to the console, change no
      store and are not returned by the handler models.  What the network
      layer does with the port ([app.listen] binding a socket, a [PORT]
      that is not a number naming a pipe) is outside the program.
    - body-parser's size limit and multer's own limits: their outcome is an
      input ([MalformedJson], [MulterFailed]).
    - The theorems of the handlers are proved for any [JsCoercion];
      [engine_coercion] is the engine's, [integer_coercion] a partial one
      used to evaluate examples.  [-0] and its rendering ["0"] are not
      distinguished from [+0].
    - Unicode whitespace: [\s] and [StrWhiteSpace] are taken on ASCII
      whitespace, since strings are ASCII here.

    ** Left open

    - Minimality of the digit count of [Number::toString] (that no
      shorter string reads back): the development proves the round trip,
      which is what the program relies on, not that the engine's rendering
      is the shortest one.
    - Unicode whitespace for [\s], see above. *)

From stdpp Require Export base tactics list.
From Stdlib Require Import String.

Declare Scope farm_scope.
Delimit Scope farm_scope with farm.

Create HintDb farm discriminated.
Create Rewrite HintDb farm_rw.

(** [invc H]: invert a hypothesis and clean up. *)
Ltac invc H := inversion H; subst; clear H.

(** [case_ifs]: split every [if] of the goal, remembering the test. *)
Ltac case_ifs :=
  repeat match goal with
  | |- context [if ?b then _ else _] =>
      let E := fresh "E" in destruct b eqn:E
  end.

Section ListFacts.
Context {A : Type}.

Lemma existsb_snoc (f : A -> bool) (l : list A) (x : A) :
  existsb f (l ++ [x]) = existsb f l || f x.
Proof. rewrite existsb_app. simpl. by rewrite orb_false_r. Qed.

Lemma existsb_snoc_mono (f : A -> bool) (l : list A) (x : A) :
  existsb f l = true -> existsb f (l ++ [x]) = true.
Proof. intros H. by rewrite existsb_snoc, H. Qed.

Lemma existsb_snoc_new (f : A -> bool) (l : list A) (x : A) :
  f x = true -> existsb f (l ++ [x]) = true.
Proof. intros H. by rewrite existsb_snoc, H, orb_true_r. Qed.
End ListFacts.

#[export] Hint Resolve existsb_snoc_mono existsb_snoc_new : farm.

Section StringFacts.

Lemma string_app_assoc (a b c : string) :
  String.append (String.append a b) c = String.append a (String.append b c).
Proof. induction a as [|x a IH]; simpl; [done|]. by rewrite IH. Qed.

Lemma list_ascii_of_string_app (a b : string) :
  list_ascii_of_string (String.append a b) = list_ascii_of_string a ++ list_ascii_of_string b.
Proof. induction a as [|x a IH]; simpl; [done|]. by rewrite IH. Qed.

Lemma string_app_inv_r (a b c : string) :
  String.append a c = String.append b c -> a = b.
Proof.
  intros H. apply (f_equal list_ascii_of_string) in H.
  rewrite !list_ascii_of_string_app in H. apply app_inv_tail in H.
  rewrite <- (string_of_list_ascii_of_string a), <- (string_of_list_ascii_of_string b).
  by rewrite H.
Qed.

Lemma string_app_inv_l (a b c : string) :
  String.append a b = String.append a c -> b = c.
Proof. induction a as [|x a IH]; simpl; [done|]. intros [= H]. by apply IH. Qed.

Lemma string_app_nil_r (a : string) : String.append a EmptyString = a.
Proof. induction a as [|x a IH]; simpl; [done|]. by rewrite IH. Qed.

Lemma string_length_app (a b : string) :
  String.length (String.append a b) = String.length a + String.length b.
Proof. induction a as [|x a IH]; simpl; [done|]. by rewrite IH. Qed.
End StringFacts.

