(* ===== verification/JsNumber.v ===== *)
(** * JavaScript numbers as the handlers see them

    A JavaScript number is an IEEE double.  The handlers of
    [src/smart-farm-backend/index.js] only compare numbers (through
    [Math.min], [Math.max] and truthiness, lines 81, 104-107 and 119), so a
    finite double is represented exactly by the rational it denotes.  Two
    rationals such as [1#2] and [2#4] denote the same double: [number_equiv]
    is that equivalence, and every operation of this file respects it. *)

From stdpp Require Import base tactics.
From Stdlib Require Import QArith Qminmax Lqa.
From S2P Require Import Prelude.

Local Open Scope Q_scope.

Inductive number : Type :=
  | NaN
  | PosInf
  | NegInf
  | Fin (q : Q).

Definition is_nan (n : number) : bool :=
  match n with NaN => true | _ => false end.

Definition is_finite (n : number) : bool :=
  match n with Fin _ => true | _ => false end.

(** Strict order of rationals as a boolean. *)
Definition Qltb (x y : Q) : bool := negb (Qle_bool y x).

(** [IsLessThan(a, b)] of the ECMAScript specification on numbers: [false]
    when either side is [NaN]. *)
Definition number_ltb (a b : number) : bool :=
  match a, b with
  | NaN, _ | _, NaN => false
  | _, NegInf => false
  | NegInf, _ => true
  | PosInf, _ => false
  | Fin _, PosInf => true
  | Fin x, Fin y => Qltb x y
  end.

(** [Math.max(a, b)]: [NaN] if an argument is [NaN]; otherwise the running
    maximum starts at [a] and is replaced by [b] when [a < b]. *)
Definition math_max (a b : number) : number :=
  if is_nan a || is_nan b then NaN
  else if number_ltb a b then b else a.

(** [Math.min(a, b)]: symmetric, [b] replaces [a] when [b < a]. *)
Definition math_min (a b : number) : number :=
  if is_nan a || is_nan b then NaN
  else if number_ltb b a then b else a.

(** [ToBoolean] on a number: [NaN] and zero are falsy. *)
Definition number_truthy (n : number) : bool :=
  match n with
  | NaN => false
  | Fin q => negb (Qeq_bool q 0)
  | _ => true
  end.

(** Membership of a number in a closed interval of finite bounds. *)
Definition in_range (lo hi : Q) (n : number) : Prop :=
  match n with Fin q => lo <= q <= hi | _ => False end.

(** ** Equivalence of numbers *)

Definition number_equiv (a b : number) : Prop :=
  match a, b with
  | Fin x, Fin y => x == y
  | NaN, NaN | PosInf, PosInf | NegInf, NegInf => True
  | _, _ => False
  end.

#[export] Instance number_equiv_inst : Equiv number := number_equiv.

#[export] Instance number_equiv_equivalence : Equivalence (≡@{number}).
Proof.
  split.
  - intros [| | |x]; done.
  - intros [| | |x] [| | |y]; simpl; first [done | by symmetry].
  - intros [| | |x] [| | |y] [| | |z]; simpl; first [done | apply Qeq_trans].
Qed.

(** ** Lemmas *)

Lemma Qltb_iff x y : Qltb x y = true <-> x < y.
Proof.
  unfold Qltb. rewrite negb_true_iff.
  split; intros H.
  - apply Qnot_le_lt. intros Hle. apply Qle_bool_iff in Hle. congruence.
  - destruct (Qle_bool y x) eqn:E; [|done]. apply Qle_bool_iff in E. lra.
Qed.

Lemma Qltb_false x y : Qltb x y = false <-> y <= x.
Proof.
  unfold Qltb. rewrite negb_false_iff. apply Qle_bool_iff.
Qed.

#[export] Instance Qltb_proper : Proper (Qeq ==> Qeq ==> eq) Qltb.
Proof. intros x x' Hx y y' Hy. unfold Qltb. by rewrite Hx, Hy. Qed.

#[export] Instance number_ltb_proper :
  Proper ((≡) ==> (≡) ==> eq) number_ltb.
Proof.
  intros [| | |x] [| | |x'] Hx [| | |y] [| | |y'] Hy;
    simpl in *; try done. by apply Qltb_proper.
Qed.

#[export] Instance is_nan_proper : Proper ((≡) ==> eq) is_nan.
Proof. intros [| | |x] [| | |y] H; done. Qed.

#[export] Instance math_max_proper : Proper ((≡) ==> (≡) ==> (≡)) math_max.
Proof.
  intros a a' Ha b b' Hb. unfold math_max.
  rewrite Ha, Hb. destruct (_ || _); [done|].
  by rewrite Ha, Hb; destruct (number_ltb a' b').
Qed.

#[export] Instance math_min_proper : Proper ((≡) ==> (≡) ==> (≡)) math_min.
Proof.
  intros a a' Ha b b' Hb. unfold math_min.
  rewrite Ha, Hb. destruct (_ || _); [done|].
  by rewrite Ha, Hb; destruct (number_ltb b' a').
Qed.

#[export] Instance number_truthy_proper : Proper ((≡) ==> eq) number_truthy.
Proof.
  intros [| | |x] [| | |y] H; simpl in *; try done.
  by rewrite (Qeqb_comp x y H 0 0 (Qeq_refl 0)).
Qed.

#[export] Instance in_range_proper lo hi : Proper ((≡) ==> iff) (in_range lo hi).
Proof.
  intros [| | |x] [| | |y] H; cbv [equiv number_equiv_inst number_equiv] in H;
    cbv [in_range]; try done. by rewrite H.
Qed.

(** The inline clamp of the source, [Math.min(hi, Math.max(lo, x))], by
    cases on [x]; with [lo < hi] it is the usual clamp and keeps [NaN]. *)
Lemma clamp_cases (lo hi : Q) (x : number) :
  lo < hi ->
  math_min (Fin hi) (math_max (Fin lo) x) =
  match x with
  | NaN => NaN
  | NegInf => Fin lo
  | PosInf => Fin hi
  | Fin q => if Qltb lo q then (if Qltb q hi then Fin q else Fin hi) else Fin lo
  end.
Proof.
  intros Hlh. destruct x as [| | |q]; cbn; try done.
  - destruct (Qltb lo hi) eqn:E; [done|]. apply Qltb_false in E. lra.
  - destruct (Qltb lo q) eqn:E1; cbn.
    + destruct (Qltb q hi); done.
    + destruct (Qltb lo hi) eqn:E; [done|]. apply Qltb_false in E. lra.
Qed.

Lemma clamp_in_range (lo hi : Q) (x : number) :
  lo < hi -> is_nan x = false ->
  in_range lo hi (math_min (Fin hi) (math_max (Fin lo) x)).
Proof.
  intros Hlh Hx. rewrite clamp_cases by done.
  destruct x as [| | |q]; cbn; try done; try lra.
  destruct (Qltb lo q) eqn:E1; [destruct (Qltb q hi) eqn:E2|]; cbn;
    rewrite ?Qltb_iff, ?Qltb_false in *; lra.
Qed.

(** The inline clamp of the source, [Math.min(hi, Math.max(lo, x))] on a
    finite [x], denotes the same number as the mathematical clamp
    [min hi (max lo x)] of the rationals, whenever [lo < hi]. *)
Lemma clamp_reference (lo hi q : Q) :
  lo < hi -> math_min (Fin hi) (math_max (Fin lo) (Fin q)) ≡ Fin (Qmin hi (Qmax lo q)).
Proof.
  intros Hlh. rewrite clamp_cases by done.
  destruct (Qltb lo q) eqn:E1; [destruct (Qltb q hi) eqn:E2|];
    cbv [equiv number_equiv_inst number_equiv]; rewrite ?Qltb_iff, ?Qltb_false in *;
    destruct (Q.max_spec lo q) as [[? ?]|[? ?]];
    destruct (Q.min_spec hi (Qmax lo q)) as [[? ?]|[? ?]]; lra.
Qed.

Lemma number_truthy_not_nan n : number_truthy n = true -> is_nan n = false.
Proof. by destruct n. Qed.

#[export] Hint Resolve clamp_in_range number_truthy_not_nan : farm.
