(* ===== verification/Json.v ===== *)
(** * Parsed request bodies and the JavaScript operations applied to them

    [express.json()] (line 10 of [src/smart-farm-backend/index.js]) turns a
    request body into a JSON value, [req.body]; the handlers read it with
    [req.body?.x] and [next.x], test it with [typeof], coerce it with
    [Number(..)] and [||], and answer with [res.json(..)], which applies
    [JSON.stringify].  This file models each of those operations on [json]. *)

From stdpp Require Import base tactics list strings.
From Stdlib Require Import QArith String ZArith DecimalString DecimalN DecimalZ.
From S2P Require Import Prelude JsNumber.

Local Open Scope string_scope.
#[local] Set Warnings "-register-all".

(** A JSON value.  Objects keep their members in source order, duplicates
    included: [JSON.parse] lets the last duplicate win, which [assoc_last]
    implements. *)
Inductive json : Type :=
  | JNull
  | JBool (b : bool)
  | JNum (n : number)
  | JStr (s : string)
  | JArr (items : list json)
  | JObj (fields : list (string * json)).

(** The result of an operation that can throw a [TypeError]. *)
Inductive completion (A : Type) : Type :=
  | Normal (a : A)
  | ThrowTypeError.
Arguments Normal {A} a.
Arguments ThrowTypeError {A}.

(** Value of the last member named [k]. *)
Fixpoint assoc_last (k : string) (fields : list (string * json)) : option json :=
  match fields with
  | [] => None
  | (k', v) :: rest =>
      match assoc_last k rest with
      | Some w => Some w
      | None => if String.eqb k k' then Some v else None
      end
  end.

(** [v?.k] and [v.k] on a value that is not [undefined] or [null]: an own
    member of an object, and [undefined] ([None]) otherwise.  The handlers
    read only the names [soundId], [confidence], [time],
    [confidenceThreshold], [autoSound], [pushAlerts], [volume] and
    [selectedSoundId]: none is an array index or [length], and neither
    [Object.prototype] nor [Array.prototype] defines any of them. *)
Definition get_prop (v : option json) (k : string) : option json :=
  match v with
  | Some (JObj fields) => assoc_last k fields
  | _ => None
  end.

(** [ToBoolean]. *)
Definition json_truthy (v : json) : bool :=
  match v with
  | JNull => false
  | JBool b => b
  | JNum n => number_truthy n
  | JStr s => negb (String.eqb s "")
  | JArr _ | JObj _ => true
  end.

Definition value_truthy (v : option json) : bool :=
  match v with Some x => json_truthy x | None => false end.

(** [a || b] on values: [a] when truthy, [b] otherwise. *)
Definition js_or (a : option json) (b : json) : json :=
  match a with
  | Some x => if json_truthy x then x else b
  | None => b
  end.

(** [typeof v === "number"], ["boolean"], ["string"], returning the
    value on success. *)
Definition typeof_number (v : option json) : option number :=
  match v with Some (JNum n) => Some n | _ => None end.

Definition typeof_boolean (v : option json) : option bool :=
  match v with Some (JBool b) => Some b | _ => None end.

Definition typeof_string (v : option json) : option string :=
  match v with Some (JStr s) => Some s | _ => None end.

(** ** Coercions

    The two engine primitives a coercion of a JSON value needs and which
    this development does not model: [StringToNumber] (the numeric-literal
    grammar and the rounding to a double) and [Number::toString]. *)
Class JsCoercion := {
  string_to_number : string -> number;
  number_to_string : number -> string;
  (** [StringToNumber("")] is [+0] (ECMAScript, 7.1.4.1.1). *)
  string_to_number_empty : string_to_number "" = Fin 0
}.

(** An implementation of the interface for evaluation: it agrees with the
    engine on the empty string, on unsigned decimal integer literals, on
    [NaN], the infinities and the integer-valued numbers, and maps every
    other input to [NaN], respectively ["NaN"].  No theorem depends on
    those other values. *)
Definition integer_string_to_number (s : string) : number :=
  match s with
  | EmptyString => Fin 0
  | _ => match NilEmpty.uint_of_string s with
         | Some d => Fin (Z.of_N (N.of_uint d) # 1)
         | None => NaN
         end
  end.

Definition integer_number_to_string (n : number) : string :=
  match n with
  | NaN => "NaN"
  | PosInf => "Infinity"
  | NegInf => "-Infinity"
  | Fin q => if Pos.eqb (Qden q) 1 then NilEmpty.string_of_int (Z.to_int (Qnum q)) else "NaN"
  end.

#[export] Instance integer_coercion : JsCoercion := {
  string_to_number := integer_string_to_number;
  number_to_string := integer_number_to_string;
  string_to_number_empty := eq_refl
}.

Section Coercion.
Context `{JsCoercion}.

(** Members joined by [","], the first [TypeError] propagating. *)
Fixpoint join_comma (l : list (completion string)) : completion string :=
  match l with
  | [] => Normal ""
  | [c] => c
  | c :: rest =>
      match c, join_comma rest with
      | Normal s, Normal t => Normal (s ++ "," ++ t)
      | _, _ => ThrowTypeError
      end
  end.

(** [ToString] of a JSON value.  An object goes through
    [OrdinaryToPrimitive]: an own member named [toString] or [valueOf] is
    not callable and is skipped, and [Object.prototype.valueOf] returns
    the object itself, so the only primitive result is the inherited
    [Object.prototype.toString], and an own [toString] member makes the
    conversion throw.  An array uses [Array.prototype.join], where
    [null] members print as the empty string. *)
Fixpoint json_to_string (v : json) : completion string :=
  match v with
  | JNull => Normal "null"
  | JBool b => Normal (if b then "true" else "false")
  | JNum n => Normal (number_to_string n)
  | JStr s => Normal s
  | JArr items =>
      join_comma (map (fun x => match x with
                                | JNull => Normal ""
                                | _ => json_to_string x
                                end) items)
  | JObj fields =>
      match assoc_last "toString" fields with
      | Some _ => ThrowTypeError
      | None => Normal "[object Object]"
      end
  end.

(** [Number(v)] ([ToNumber] after [ToPrimitive] with hint number). *)
Definition to_number (v : option json) : completion number :=
  match v with
  | None => Normal NaN
  | Some JNull => Normal (Fin 0)
  | Some (JBool b) => Normal (if b then Fin 1 else Fin 0)
  | Some (JNum n) => Normal n
  | Some (JStr s) => Normal (string_to_number s)
  | Some x =>
      match json_to_string x with
      | Normal s => Normal (string_to_number s)
      | ThrowTypeError => ThrowTypeError
      end
  end.
End Coercion.

(** [JSON.stringify] as [res.json] applies it: a non-finite number is
    written [null]; every other value is written as it is. *)
Fixpoint serialize (v : json) : json :=
  match v with
  | JNum n => if is_finite n then JNum n else JNull
  | JArr items => JArr (map serialize items)
  | JObj fields => JObj (map (fun kv => (kv.1, serialize kv.2)) fields)
  | _ => v
  end.

(** Values [JSON.parse] produces carry no [NaN]: a numeric literal parses
    to a finite double or, beyond the range of doubles, to an infinity. *)
Fixpoint json_parsed (v : json) : bool :=
  match v with
  | JNum n => negb (is_nan n)
  | JArr items => forallb json_parsed items
  | JObj fields => forallb (fun kv => json_parsed kv.2) fields
  | _ => true
  end.

Definition body_parsed (b : option json) : bool :=
  match b with Some v => json_parsed v | None => true end.

(** [req.body || {}]. *)
Definition body_or_empty (b : option json) : json := js_or b (JObj []).

(** ** Lemmas *)

Lemma assoc_last_snoc k k' v fields :
  assoc_last k (fields ++ [(k', v)]) =
  if String.eqb k k' then Some v else assoc_last k fields.
Proof.
  induction fields as [|[k0 v0] rest IH]; simpl.
  - by destruct (String.eqb k k').
  - rewrite IH. by destruct (String.eqb k k').
Qed.

Lemma assoc_last_single k v : assoc_last k [(k, v)] = Some v.
Proof. simpl. by rewrite String.eqb_refl. Qed.

Lemma typeof_number_spec v n : typeof_number v = Some n <-> v = Some (JNum n).
Proof. destruct v as [[]|]; simpl; split; congruence. Qed.

Lemma typeof_string_spec v s : typeof_string v = Some s <-> v = Some (JStr s).
Proof. destruct v as [[]|]; simpl; split; congruence. Qed.

Lemma assoc_last_parsed k fields v :
  forallb (fun kv => json_parsed kv.2) fields = true ->
  assoc_last k fields = Some v -> json_parsed v = true.
Proof.
  induction fields as [|[k' w] rest IH]; simpl; [done|].
  intros [Hw Hrest]%andb_prop. destruct (assoc_last k rest) eqn:E.
  - intros [= <-]. by apply IH.
  - destruct (String.eqb k k'); [|done]. by intros [= <-].
Qed.

Lemma body_or_empty_parsed b : body_parsed b = true -> json_parsed (body_or_empty b) = true.
Proof.
  destruct b as [x|]; simpl; [|done]. intros Hx. by destruct (json_truthy x).
Qed.

(** A number read from a parsed value is never [NaN]. *)
Lemma get_prop_number_not_nan v k n :
  json_parsed v = true -> typeof_number (get_prop (Some v) k) = Some n -> is_nan n = false.
Proof.
  intros Hv Hn. apply typeof_number_spec in Hn.
  destruct v; try done. simpl in Hn.
  apply (assoc_last_parsed k) in Hn; [|done]. simpl in Hn. by apply negb_true_iff.
Qed.

#[export] Hint Rewrite assoc_last_snoc assoc_last_single : farm_rw.
