(* ===== verification/Naming.v ===== *)
(** * Identifiers and file names built from the clock

    Lines 19-22 and 56 of [src/smart-farm-backend/index.js]: a sound or an
    alert gets the id [String(Date.now())], and multer stores an upload
    under [`${Date.now()}-${safeName}`] where
    [safeName = file.originalname.replace(/\s+/g, "-")].

    [Date.now()] is a non-negative integer below [8.64e15], far below
    [1e21], so [Number::toString] writes it in plain decimal without an
    exponent: [date_string] is that decimal rendering.  The regular
    expression is modelled twice: [replace_ws] is the one-pass scan, and
    [regex_replace_ws] follows the [RegExp.prototype[Symbol.replace]]
    algorithm (find the leftmost match, extend it greedily, emit the
    replacement, resume after it), with fuel; they agree. *)

From stdpp Require Import base tactics list.
From Stdlib Require Import String Ascii DecimalString DecimalN NArith.
From S2P Require Import Prelude.

Local Open Scope string_scope.

(** ** [String(Date.now())] *)

Definition date_string (t : N) : string :=
  NilEmpty.string_of_uint (N.to_uint t).

(** Reading a decimal timestamp back. *)
Definition parse_date_string (s : string) : option N :=
  option_map N.of_uint (NilEmpty.uint_of_string s).

Definition is_digit (c : ascii) : bool :=
  (("0" <=? c)%char && (c <=? "9")%char).

Fixpoint all_chars (p : ascii -> bool) (s : string) : bool :=
  match s with
  | EmptyString => true
  | String c r => p c && all_chars p r
  end.

(** ** [originalname.replace(/\s+/g, "-")] *)

(** [\s] restricted to ASCII: tab, line feed, vertical tab, form feed,
    carriage return and space. *)
Definition is_space (c : ascii) : bool :=
  match nat_of_ascii c with
  | 9 | 10 | 11 | 12 | 13 | 32 => true
  | _ => false
  end.

(** One pass: [in_run] says the previous character was whitespace, whose
    run has already been replaced by its ["-"]. *)
Fixpoint replace_ws (in_run : bool) (s : string) : string :=
  match s with
  | EmptyString => EmptyString
  | String c rest =>
      if is_space c then
        if in_run then replace_ws true rest
        else String "-" (replace_ws true rest)
      else String c (replace_ws false rest)
  end.

Definition safe_name (originalname : string) : string :=
  replace_ws false originalname.

(** The multer [filename] callback (lines 19-22). *)
Definition multer_filename (t : N) (originalname : string) : string :=
  date_string t ++ "-" ++ safe_name originalname.

(** The greedy extension of a match of [\s+]: what is left after it. *)
Fixpoint skip_ws (s : string) : string :=
  match s with
  | String c rest => if is_space c then skip_ws rest else s
  | EmptyString => EmptyString
  end.

(** The replace algorithm with global flag: at each position either a
    match of [\s+] starts (then it is extended greedily and replaced) or
    the character is copied.  [None] when the fuel runs out. *)
Fixpoint regex_replace_ws (fuel : nat) (s : string) : option string :=
  match fuel with
  | O => None
  | S fuel' =>
      match s with
      | EmptyString => Some EmptyString
      | String c rest =>
          if is_space c then option_map (String "-") (regex_replace_ws fuel' (skip_ws rest))
          else option_map (String c) (regex_replace_ws fuel' rest)
      end
  end.

(** Splitting a stored file name at its first ["-"]. *)
Fixpoint split_at_dash (s : string) : option (string * string) :=
  match s with
  | EmptyString => None
  | String c rest =>
      if Ascii.eqb c "-" then Some (EmptyString, rest)
      else option_map (fun p => (String c p.1, p.2)) (split_at_dash rest)
  end.

Definition parse_filename (f : string) : option (N * string) :=
  match split_at_dash f with
  | Some (d, rest) => option_map (fun t => (t, rest)) (parse_date_string d)
  | None => None
  end.

(** ** Lemmas *)

Lemma date_string_roundtrip t : parse_date_string (date_string t) = Some t.
Proof.
  unfold parse_date_string, date_string.
  rewrite NilEmpty.usu. simpl. by rewrite DecimalN.Unsigned.of_to.
Qed.

Lemma date_string_inj t1 t2 : date_string t1 = date_string t2 -> t1 = t2.
Proof.
  intros H. apply (f_equal parse_date_string) in H.
  rewrite !date_string_roundtrip in H. congruence.
Qed.

Lemma string_of_uint_digits d : all_chars is_digit (NilEmpty.string_of_uint d) = true.
Proof. induction d; simpl; rewrite ?IHd; done. Qed.

Lemma date_string_digits t : all_chars is_digit (date_string t) = true.
Proof. apply string_of_uint_digits. Qed.

Lemma split_at_dash_digits d rest :
  all_chars is_digit d = true -> split_at_dash (d ++ String "-" rest) = Some (d, rest).
Proof.
  induction d as [|c d IH]; simpl; [done|].
  intros [Hc Hd]%andb_prop. rewrite IH by done.
  destruct (Ascii.eqb c "-") eqn:E; [|done].
  apply Ascii.eqb_eq in E. subst. discriminate.
Qed.

Lemma replace_ws_no_space b s : all_chars (fun c => negb (is_space c)) (replace_ws b s) = true.
Proof.
  revert b. induction s as [|c s IH]; intros b; simpl; [done|].
  destruct (is_space c) eqn:E; [destruct b|]; simpl; rewrite ?E, ?IH; done.
Qed.

Lemma replace_ws_skip s : replace_ws true s = replace_ws true (skip_ws s).
Proof.
  induction s as [|c s IH]; simpl; [done|].
  destruct (is_space c) eqn:E; simpl; rewrite ?E; done.
Qed.

Lemma replace_ws_after_run s : replace_ws true (skip_ws s) = replace_ws false (skip_ws s).
Proof.
  induction s as [|c s IH]; simpl; [done|].
  destruct (is_space c) eqn:E; simpl; rewrite ?E; done.
Qed.

Lemma all_chars_app p s1 s2 : all_chars p (s1 ++ s2) = all_chars p s1 && all_chars p s2.
Proof. induction s1 as [|c s1 IH]; simpl; [done|]. by rewrite IH, andb_assoc. Qed.

Lemma all_chars_impl (p q : ascii -> bool) s :
  (forall c, p c = true -> q c = true) -> all_chars p s = true -> all_chars q s = true.
Proof.
  intros Hpq. induction s as [|c s IH]; simpl; [done|].
  intros [Hc Hs]%andb_prop. by rewrite Hpq, IH.
Qed.

Lemma digit_not_space c : is_digit c = true -> negb (is_space c) = true.
Proof. destruct c as [[] [] [] [] [] [] [] []]; vm_compute; congruence. Qed.

Lemma skip_ws_length s : String.length (skip_ws s) <= String.length s.
Proof. induction s as [|c s IH]; simpl; [lia|]. destruct (is_space c); simpl; lia. Qed.

(** The replacement keeps every property of the characters that the dash
    also has. *)
Lemma replace_ws_all_chars (p : ascii -> bool) b s :
  p "-"%char = true -> all_chars p s = true -> all_chars p (replace_ws b s) = true.
Proof.
  intros Hd. revert b. induction s as [|c s IH]; intros b; simpl; [done|].
  intros [Hc Hs]%andb_prop. destruct (is_space c); [destruct b|]; simpl; rewrite ?Hd, ?Hc, IH; done.
Qed.

Lemma parse_multer_filename t n : parse_filename (multer_filename t n) = Some (t, safe_name n).
Proof.
  unfold parse_filename, multer_filename. change ("-" ++ ?x) with (String "-" x).
  rewrite split_at_dash_digits by apply date_string_digits.
  simpl. by rewrite date_string_roundtrip.
Qed.

(** Two stored names are equal only for one time and one sanitised name. *)
Lemma multer_filename_inj t1 n1 t2 n2 :
  multer_filename t1 n1 = multer_filename t2 n2 -> t1 = t2 /\ safe_name n1 = safe_name n2.
Proof.
  intros H. apply (f_equal parse_filename) in H. rewrite !parse_multer_filename in H.
  by simplify_eq.
Qed.

#[export] Hint Resolve date_string_digits string_of_uint_digits : farm.

(** ** Properties *)

(** C17: the one-pass scan [safe_name] computes what the regular
    expression replacement [originalname.replace(/\s+/g, "-")] computes,
    and the replacement algorithm terminates: fuel one more than the length
    of the name is enough. *)
Theorem regex_replace_ws_safe_name (fuel : nat) (s : string) :
  String.length s < fuel -> regex_replace_ws fuel s = Some (safe_name s).
Proof.
  revert s. induction fuel as [|fuel IH]; intros s Hlen; [lia|].
  destruct s as [|c rest]; simpl in *; [done|].
  unfold safe_name; simpl.
  destruct (is_space c).
  - pose proof (skip_ws_length rest).
    rewrite IH by lia. unfold safe_name. simpl.
    by rewrite replace_ws_skip, replace_ws_after_run.
  - rewrite IH by lia. done.
Qed.

(** C18: the file name multer stores an upload under contains no
    whitespace, and it determines both the upload time and the sanitised
    original name: splitting it at its first ["-"] gives them back. *)
Theorem multer_filename_roundtrip (t : N) (originalname : string) :
  all_chars (fun c => negb (is_space c)) (multer_filename t originalname) = true /\
  parse_filename (multer_filename t originalname) = Some (t, safe_name originalname).
Proof.
  unfold multer_filename. split.
  - rewrite all_chars_app. apply andb_true_intro; split.
    + eapply all_chars_impl; [|apply date_string_digits]. apply digit_not_space.
    + apply replace_ws_no_space.
  - apply parse_multer_filename.
Qed.

(** ** Witnesses *)

Lemma regex_replace_ws_safe_name_witness :
  regex_replace_ws 20 "my  song .mp3" = Some (safe_name "my  song .mp3").
Proof. apply regex_replace_ws_safe_name. simpl. lia. Defined.
