(* ===== verification/Catalog.v ===== *)
(** * The sound catalog

    [const sounds] (lines 27-29 of [src/smart-farm-backend/index.js]) is an
    array of sound records; [sounds.push(sound)] (line 62) appends an
    uploaded sound and [sounds.some((sound) => sound.id === x)] (lines 69
    and 123) is the only lookup.  The settings component relies on the
    catalog through the [Catalog] class: a membership test and an append,
    with the law that an append adds exactly one id and removes none. *)

From stdpp Require Import base tactics list strings.
From Stdlib Require Import String NArith.
From S2P Require Import Prelude Json Naming.

Local Open Scope string_scope.

Inductive source_kind : Type :=
  | BuiltIn    (* "built-in" *)
  | Uploaded.  (* "uploaded" *)

(** [{ id, name, filename?, source }]; [filename] is present exactly on
    uploaded sounds. *)
Record sound : Type := mk_sound {
  sound_id : string;
  sound_name : string;
  sound_filename : option string;
  sound_source : source_kind
}.

(** The file multer handed to the handler ([req.file]): the name the
    client gave and the name it was stored under. *)
Record uploaded_file : Type := mk_uploaded_file {
  originalname : string;
  filename : string
}.

Definition default_sound : sound :=
  mk_sound "default" "Default Deterrent" None BuiltIn.

Definition initial_sounds : list sound := [default_sound].

(** [sound.id === v] for a value [v] of any type: strict equality holds
    only for a string with the same characters. *)
Definition id_strict_eq (id : string) (v : option json) : bool :=
  match v with
  | Some (JStr s) => String.eqb id s
  | _ => false
  end.

(** [sounds.some((sound) => sound.id === v)]. *)
Definition sounds_some (sounds : list sound) (v : option json) : bool :=
  existsb (fun snd => id_strict_eq (sound_id snd) v) sounds.

(** [sounds.push(sound)]. *)
Definition sounds_push (sounds : list sound) (snd : sound) : list sound :=
  sounds ++ [snd].

(** The record built by the upload handler (lines 55-60). *)
Definition uploaded_sound (now : N) (file : uploaded_file) : sound :=
  mk_sound (date_string now) (originalname file) (Some (filename file)) Uploaded.

Definition sound_ids (sounds : list sound) : list string := map sound_id sounds.

(** ** The interface the settings component uses *)

Class Catalog (C : Type) := {
  (** [sounds.some((sound) => sound.id === v)] *)
  catalog_some : C -> option json -> bool;
  (** [sounds.push(sound)] *)
  catalog_push : C -> sound -> C;
  (** only a string can be strictly equal to an id *)
  catalog_some_string c v : catalog_some c v = true -> exists i, v = Some (JStr i);
  (** a push adds the new sound's id and keeps the others *)
  catalog_some_push c snd v :
    catalog_some (catalog_push c snd) v = catalog_some c v || id_strict_eq (sound_id snd) v
}.

Lemma sounds_some_push sounds snd v :
  sounds_some (sounds_push sounds snd) v = sounds_some sounds v || id_strict_eq (sound_id snd) v.
Proof. unfold sounds_some, sounds_push. by rewrite existsb_snoc. Qed.

Lemma sounds_some_string sounds v : sounds_some sounds v = true -> exists i, v = Some (JStr i).
Proof.
  unfold sounds_some. rewrite existsb_exists. intros (snd & _ & Heq).
  destruct v as [[| ? | ? | s | ? | ?]|]; try discriminate. eauto.
Qed.

#[export] Instance list_catalog : Catalog (list sound) := {
  catalog_some := sounds_some;
  catalog_push := sounds_push;
  catalog_some_string := sounds_some_string;
  catalog_some_push := sounds_some_push
}.

Lemma id_strict_eq_refl i : id_strict_eq i (Some (JStr i)) = true.
Proof. apply String.eqb_refl. Qed.

Section CatalogFacts.
Context `{Catalog C}.

Lemma catalog_push_mono c snd v :
  catalog_some c v = true -> catalog_some (catalog_push c snd) v = true.
Proof. intros Hv. by rewrite catalog_some_push, Hv. Qed.

Lemma catalog_push_new c snd :
  catalog_some (catalog_push c snd) (Some (JStr (sound_id snd))) = true.
Proof. by rewrite catalog_some_push, id_strict_eq_refl, orb_true_r. Qed.
End CatalogFacts.

#[export] Hint Resolve catalog_push_mono catalog_push_new id_strict_eq_refl : farm.

(** [sounds_some] holds exactly for a string naming a sound of the list. *)
Lemma sounds_some_spec sounds v :
  sounds_some sounds v = true <-> exists i, v = Some (JStr i) /\ i ∈ sound_ids sounds.
Proof.
  unfold sounds_some, sound_ids. rewrite existsb_exists. split.
  - intros (snd & Hin & Heq). unfold id_strict_eq in Heq.
    destruct v as [[| ? | ? | s | ? | ?]|]; try discriminate.
    apply String.eqb_eq in Heq as <-. exists (sound_id snd). split; [done|].
    apply list_elem_of_In, in_map_iff. eauto.
  - intros (i & -> & Hi). apply list_elem_of_In, in_map_iff in Hi as (snd & <- & Hin).
    exists snd. split; [done|]. apply String.eqb_refl.
Qed.

