(* ===== verification/Storage.v ===== *)
(** * The disk: the uploads directory and multer's disk storage

    Lines 12-24 of [src/smart-farm-backend/index.js].  At startup the
    directory [uploads] beside the source file is created, with its
    missing parents, unless something already exists at that path
    ([fs.existsSync], [fs.mkdirSync(.., { recursive: true })]).  The
    multer storage of lines 17-24 puts every accepted file in that
    directory ([destination]) under [`${Date.now()}-${safeName}`]
    ([filename]); multer's disk storage then opens
    [path.join(destination, filename)] for writing, which replaces a file
    already there.

    The disk is a set of directories and a finite map from file paths to
    their contents ([gmap]).  Paths are absolute and normalised, as
    [__dirname] is; [path_join] is [path.join] on such a directory and a
    name without separators.  The file name a client sends reaches the
    filename callback through busboy, which keeps only its last path
    component ([busboy_basename], busboy's [preservePath: false]). *)

From stdpp Require Import base tactics list strings gmap.
From Stdlib Require Import String Ascii NArith.
From S2P Require Import Prelude Naming.

Local Open Scope string_scope.

Record disk : Type := mk_disk {
  dirs : gset string;
  files : gmap string (list Byte.byte)
}.

(** [path.join(dir, name)] for a normalised absolute [dir] and a name
    that is one path component. *)
Definition path_join (dir name : string) : string :=
  if String.eqb dir "/" then "/" ++ name else dir ++ "/" ++ name.

(** [const uploadsDir = path.join(__dirname, "uploads")] (line 12). *)
Definition uploads_dir (dirname : string) : string := path_join dirname "uploads".

(** [fs.existsSync(p)]: a directory or a file is there. *)
Definition exists_sync (p : string) (d : disk) : bool :=
  bool_decide (p ∈ dirs d) || bool_decide (is_Some (files d !! p)).

(** The proper ancestors of an absolute path, from the root down:
    [acc] is the prefix read so far. *)
Fixpoint ancestors_from (acc : string) (s : string) : list string :=
  match s with
  | EmptyString => []
  | String c rest =>
      if Ascii.eqb c "/" then (if String.eqb acc "" then "/" else acc) :: ancestors_from (acc ++ "/") rest
      else ancestors_from (acc ++ String c "") rest
  end.

Definition ancestors (p : string) : list string := ancestors_from "" p.

(** [fs.mkdirSync(p, { recursive: true })]: creates [p] and its missing
    ancestors; it throws ([None], [ENOTDIR] or [EEXIST]) when one of them
    is a file. *)
Definition mkdir_sync_recursive (p : string) (d : disk) : option disk :=
  if existsb (fun q => bool_decide (is_Some (files d !! q))) (p :: ancestors p) then None
  else Some (mk_disk (list_to_set (p :: ancestors p) ∪ dirs d) (files d)).

(** Lines 13-15: [None] is the exception that stops the process at
    startup. *)
Definition ensure_uploads_dir (dirname : string) (d : disk) : option disk :=
  let p := uploads_dir dirname in
  if negb (exists_sync p d) then mkdir_sync_recursive p d else Some d.

(** [multer.diskStorage({ destination, filename })] (lines 17-23): the
    two callbacks, [filename] reading [Date.now()] when multer calls it. *)
Record disk_storage : Type := mk_disk_storage {
  destination : string;
  storage_filename : N -> string -> string
}.

Definition storage (dirname : string) : disk_storage :=
  mk_disk_storage (uploads_dir dirname) multer_filename.

(** The disk storage's [_handleFile]: [finalPath = path.join(destination,
    filename)] and [fs.createWriteStream(finalPath)], which fails when the
    destination is not a directory or [finalPath] is one, and otherwise
    truncates and writes the file.  The stored name is returned. *)
Definition store_file (ds : disk_storage) (t : N) (originalname : string) (data : list Byte.byte)
    (d : disk) : option (disk * string) :=
  let fname := storage_filename ds t originalname in
  let p := path_join (destination ds) fname in
  if bool_decide (destination ds ∈ dirs d) && negb (bool_decide (p ∈ dirs d)) then
    Some (mk_disk (dirs d) (<[p := data]> (files d)), fname)
  else None.

(** busboy's [basename]: the text after the last ['/'] or ['\'], with
    ["."] and [".."] turned into the empty name. *)
Definition is_path_sep (c : ascii) : bool := Ascii.eqb c "/" || Ascii.eqb c "\".

Fixpoint last_component (acc : string) (s : string) : string :=
  match s with
  | EmptyString => acc
  | String c rest =>
      if is_path_sep c then last_component "" rest else last_component (acc ++ String c "") rest
  end.

Definition busboy_basename (s : string) : string :=
  let b := last_component "" s in
  if String.eqb b "." || String.eqb b ".." then "" else b.

(** A name that is one path component: no separator, not empty, not a
    dot segment, so that [path_join dir name] lies directly in [dir]. *)
Definition path_component (f : string) : bool :=
  all_chars (fun c => negb (is_path_sep c)) f &&
  negb (String.eqb f "") && negb (String.eqb f ".") && negb (String.eqb f "..").

(** ** Lemmas *)

Lemma exists_sync_dir p d : p ∈ dirs d -> exists_sync p d = true.
Proof. intros Hp. unfold exists_sync. by rewrite bool_decide_eq_true_2. Qed.

Lemma exists_sync_absent p d : p ∉ dirs d -> files d !! p = None -> exists_sync p d = false.
Proof.
  intros Hp Hf. unfold exists_sync. rewrite !bool_decide_eq_false_2; [done| |done].
  rewrite Hf. by intros [].
Qed.

Lemma exists_sync_file p d : is_Some (files d !! p) -> exists_sync p d = true.
Proof. intros Hf. unfold exists_sync. by rewrite (bool_decide_eq_true_2 (is_Some _)), orb_true_r. Qed.

(** The startup code leaves a directory at [uploads] when no file was
    there, and creates nothing else but the missing ancestors. *)
Lemma ensure_uploads_dir_dir dirname d d' :
  files d !! uploads_dir dirname = None -> ensure_uploads_dir dirname d = Some d' ->
  uploads_dir dirname ∈ dirs d' /\ files d' = files d /\ dirs d ⊆ dirs d'.
Proof.
  intros Hf. unfold ensure_uploads_dir; cbv zeta.
  destruct (decide (uploads_dir dirname ∈ dirs d)) as [Hin|Hout].
  - rewrite exists_sync_dir by done. by intros [= <-].
  - rewrite exists_sync_absent by done. unfold mkdir_sync_recursive. simpl.
    case_match; [done|]. intros [= <-]. simpl. split_and!; [set_solver|done|set_solver].
Qed.

Lemma ensure_uploads_dir_present dirname d :
  exists_sync (uploads_dir dirname) d = true -> ensure_uploads_dir dirname d = Some d.
Proof. intros He. unfold ensure_uploads_dir; cbv zeta. by rewrite He. Qed.

(** The two outcomes of the startup code: a disk on which [uploads]
    exists, with the same files and at least the same directories, or
    the exception of [fs.mkdirSync], raised when [uploads] is missing and
    it or one of its ancestors is a file. *)
Lemma ensure_uploads_dir_cases dirname d :
  let p := uploads_dir dirname in
  match ensure_uploads_dir dirname d with
  | Some d' => exists_sync p d' = true /\ files d' = files d /\ dirs d ⊆ dirs d'
  | None => exists_sync p d = false /\ List.Exists (fun q => is_Some (files d !! q)) (p :: ancestors p)
  end.
Proof.
  cbv zeta. unfold ensure_uploads_dir; cbv zeta.
  destruct (exists_sync (uploads_dir dirname) d) eqn:E; [done|]. simpl.
  unfold mkdir_sync_recursive. destruct (existsb _ _) eqn:X.
  - split; [done|]. apply existsb_exists in X as (q & Hq & Hb). apply bool_decide_eq_true in Hb.
    apply List.Exists_exists. eauto.
  - split_and!; [apply exists_sync_dir; simpl; set_solver|done|simpl; set_solver].
Qed.

(** The store writes one file when the destination is a directory and the
    final path is not one. *)
Lemma store_file_spec ds t n data d :
  store_file ds t n data d =
    if bool_decide (destination ds ∈ dirs d) &&
       negb (bool_decide (path_join (destination ds) (storage_filename ds t n) ∈ dirs d))
    then Some (mk_disk (dirs d)
                 (<[path_join (destination ds) (storage_filename ds t n) := data]> (files d)),
               storage_filename ds t n)
    else None.
Proof. reflexivity. Qed.

Lemma last_component_no_sep acc s :
  all_chars (fun c => negb (is_path_sep c)) acc = true ->
  all_chars (fun c => negb (is_path_sep c)) (last_component acc s) = true.
Proof.
  revert acc. induction s as [|c s IH]; intros acc Hacc; simpl; [done|].
  destruct (is_path_sep c) eqn:E; apply IH; [done|].
  rewrite all_chars_app, Hacc. simpl. by rewrite E.
Qed.

Lemma busboy_basename_no_sep s :
  all_chars (fun c => negb (is_path_sep c)) (busboy_basename s) = true.
Proof. unfold busboy_basename. case_match; [done|]. by apply last_component_no_sep. Qed.

Lemma digit_not_sep_dot c : is_digit c = true -> is_path_sep c = false /\ Ascii.eqb c "." = false.
Proof. destruct c as [[] [] [] [] [] [] [] []]; vm_compute; try discriminate; done. Qed.

(** The stored name [`${Date.now()}-${safeName}`] of a name without
    separators is one path component: it starts with a digit or with the
    dash. *)
Lemma multer_filename_component t n :
  all_chars (fun c => negb (is_path_sep c)) n = true -> path_component (multer_filename t n) = true.
Proof.
  intros Hn. pose proof (date_string_digits t) as Hd.
  assert (Hs : all_chars (fun c => negb (is_path_sep c)) ("-" ++ safe_name n) = true).
  { simpl. by apply replace_ws_all_chars. }
  unfold path_component, multer_filename.
  rewrite all_chars_app, Hs, andb_true_r.
  destruct (date_string t) as [|c r]; [done|].
  apply andb_prop in Hd as [Hc Hr]. destruct (digit_not_sep_dot c Hc) as [Hsep Hdot].
  simpl. rewrite Hsep, Hdot. simpl.
  rewrite (all_chars_impl is_digit) by (done || (intros c' Hc'; by rewrite (proj1 (digit_not_sep_dot c' Hc')))).
  by destruct r.
Qed.

Lemma ancestors_from_length acc s q :
  q ∈ ancestors_from acc s -> String.length q <= String.length acc + String.length s.
Proof.
  revert acc. induction s as [|c s IH]; intros acc; simpl; [by intros ?%elem_of_nil|].
  destruct (Ascii.eqb c "/").
  - intros [->|Hq]%elem_of_cons.
    + destruct (String.eqb acc ""); simpl; lia.
    + apply IH in Hq. rewrite string_length_app in Hq. simpl in Hq. lia.
  - intros Hq. apply IH in Hq. rewrite string_length_app in Hq. simpl in Hq. lia.
Qed.

Lemma path_join_longer dir f :
  f <> "" -> String.length dir < String.length (path_join dir f).
Proof.
  intros Hf. unfold path_join. destruct (String.eqb dir "") eqn:E0.
  - apply String.eqb_eq in E0 as ->. destruct f; [done|]. simpl. lia.
  - destruct (String.eqb dir "/") eqn:E; simpl.
    + apply String.eqb_eq in E as ->. destruct f; [done|]. simpl. lia.
    + rewrite string_length_app. simpl. lia.
Qed.

Lemma path_component_nonempty f : path_component f = true -> f <> "".
Proof. intros Hf ->. discriminate. Qed.

(** The startup code creates no directory inside [uploads]. *)
Lemma ensure_uploads_dir_inside dirname d d' :
  ensure_uploads_dir dirname d = Some d' ->
  (forall f, path_component f = true -> path_join (uploads_dir dirname) f ∉ dirs d) ->
  forall f, path_component f = true -> path_join (uploads_dir dirname) f ∉ dirs d'.
Proof.
  intros He Hin f Hf. pose proof (path_join_longer (uploads_dir dirname) f
    (path_component_nonempty f Hf)) as Hlen.
  revert He. unfold ensure_uploads_dir; cbv zeta. case_match; [|intros [= <-]; auto].
  unfold mkdir_sync_recursive. case_match; [done|]. intros [= <-]. simpl.
  intros [Ha|Hd]%elem_of_union; [|by apply (Hin f)].
  apply elem_of_union in Ha as [Heq%elem_of_singleton|Ha%elem_of_list_to_set];
    [rewrite Heq in Hlen; lia|].
  apply ancestors_from_length in Ha. simpl in Ha. lia.
Qed.

(** ** Properties *)

(** C29: whatever file name a client sends, multer writes the upload
    directly into the uploads directory: the stored name is
    [`${Date.now()}-${safeName}`] of busboy's base name, a single path
    component, and the write adds or replaces that one file and creates
    no directory. *)
Theorem store_file_in_uploads dirname t raw data d d' fname :
  store_file (storage dirname) t (busboy_basename raw) data d = Some (d', fname) ->
  fname = multer_filename t (busboy_basename raw) /\ path_component fname = true /\
  dirs d' = dirs d /\ files d' = <[path_join (uploads_dir dirname) fname := data]> (files d).
Proof.
  rewrite store_file_spec. simpl. case_match; [|done]. intros [= <- <-].
  split_and!; try done. apply multer_filename_component, busboy_basename_no_sep.
Qed.

(** The startup code of lines 12-15 leaves a directory at [uploads]
    when no file is in the way, keeps every file and directory of the
    disk, and running it again changes nothing. *)
Theorem ensure_uploads_dir_ready dirname d d' :
  files d !! uploads_dir dirname = None -> ensure_uploads_dir dirname d = Some d' ->
  uploads_dir dirname ∈ dirs d' /\ files d' = files d /\ dirs d ⊆ dirs d' /\
  ensure_uploads_dir dirname d' = Some d'.
Proof.
  intros Hf He. destruct (ensure_uploads_dir_dir dirname d d' Hf He) as (Hin & Hfs & Hsub).
  split_and!; try done. by apply ensure_uploads_dir_present, exists_sync_dir.
Qed.

(** C31: a file named [uploads] in place of the directory passes the
    [fs.existsSync] test, so the server starts without creating the
    directory, and then every upload fails. *)
Theorem uploads_file_in_the_way dirname d :
  is_Some (files d !! uploads_dir dirname) -> uploads_dir dirname ∉ dirs d ->
  ensure_uploads_dir dirname d = Some d /\
  forall t n data, store_file (storage dirname) t n data d = None.
Proof.
  intros Hf Hd. split; [by apply ensure_uploads_dir_present, exists_sync_file|].
  intros t n data. rewrite store_file_spec. simpl. by rewrite bool_decide_eq_false_2.
Qed.

(** ** Witnesses *)

Definition app_disk : disk := mk_disk {[ "/"; "/app" ]} {[ "/app/index.js" := [] ]}.

Lemma store_file_in_uploads_witness :
  let d := mk_disk {[ "/"; "/app"; "/app/uploads" ]} ∅ in
  let raw := "../../index.js" in
  let fname := multer_filename 1700000000000 (busboy_basename raw) in
  let d' := mk_disk (dirs d) (<[path_join (uploads_dir "/app") fname := [Byte.x41]]> (files d)) in
  store_file (storage "/app") 1700000000000 (busboy_basename raw) [Byte.x41] d = Some (d', fname) /\
  (fname = multer_filename 1700000000000 (busboy_basename raw) /\ path_component fname = true /\
   dirs d' = dirs d /\ files d' = <[path_join (uploads_dir "/app") fname := [Byte.x41]]> (files d)).
Proof.
  cbv zeta. split; [vm_compute; reflexivity|].
  apply (store_file_in_uploads "/app" 1700000000000 "../../index.js" [Byte.x41]); vm_compute; reflexivity.
Defined.

Lemma uploads_file_in_the_way_witness :
  let d := mk_disk {[ "/"; "/app" ]} {[ "/app/uploads" := [] ]} in
  ensure_uploads_dir "/app" d = Some d /\
  forall t n data, store_file (storage "/app") t n data d = None.
Proof.
  apply uploads_file_in_the_way; [vm_compute; by eexists|].
  apply (bool_decide_unpack _). vm_compute. reflexivity.
Defined.
