(* ===== verification/Settings.v ===== *)
(** * The settings store

    [const settings] (lines 30-36 of [src/smart-farm-backend/index.js]) and
    the two handlers that change it besides the upload:
    [POST /sounds/select] (lines 67-77), which fails with 404 on an unknown
    id, and [PUT /settings] (lines 100-130), a permissive merge: each field
    is taken only when it has the right [typeof], the two numbers are
    clamped with [Math.min]/[Math.max], and an unknown [selectedSoundId] is
    ignored.  The handlers are proved against the [Catalog] interface; the
    well-formedness of the store is [settings_wf]. *)

From stdpp Require Import base tactics list strings.
From Stdlib Require Import QArith Qminmax Lqa String.
From S2P Require Import Prelude JsNumber Json Catalog.

Local Open Scope string_scope.

Record settings : Type := mk_settings {
  confidenceThreshold : number;
  autoSound : bool;
  pushAlerts : bool;
  volume : number;
  selectedSoundId : string
}.

Definition initial_settings : settings :=
  mk_settings (Fin (1#2)) true true (Fin 70) "default".

(** The five assignments [settings.f = v]. *)
Definition set_confidenceThreshold (x : number) (st : settings) : settings :=
  mk_settings x (autoSound st) (pushAlerts st) (volume st) (selectedSoundId st).
Definition set_autoSound (b : bool) (st : settings) : settings :=
  mk_settings (confidenceThreshold st) b (pushAlerts st) (volume st) (selectedSoundId st).
Definition set_pushAlerts (b : bool) (st : settings) : settings :=
  mk_settings (confidenceThreshold st) (autoSound st) b (volume st) (selectedSoundId st).
Definition set_volume (x : number) (st : settings) : settings :=
  mk_settings (confidenceThreshold st) (autoSound st) (pushAlerts st) x (selectedSoundId st).
Definition set_selectedSoundId (i : string) (st : settings) : settings :=
  mk_settings (confidenceThreshold st) (autoSound st) (pushAlerts st) (volume st) i.

(** The outcome of [POST /sounds/select]. *)
Inductive select_result : Type :=
  | Selected (soundId : string)   (* 200 { status: "selected", selectedSoundId } *)
  | SoundNotFound.                (* 404 { error: "Sound not found" } *)

Section WithCatalog.
Context `{Catalog C}.

(** [POST /sounds/select].  [const { soundId } = req.body || {}], then the
    existence check.  A value that passes it is a string
    ([catalog_some_string]), so the last branch is never taken. *)
Definition select_sound (sounds : C) (body : option json) (st : settings)
    : settings * select_result :=
  let soundId := get_prop (Some (body_or_empty body)) "soundId" in
  if negb (catalog_some sounds soundId) then (st, SoundNotFound)
  else match soundId with
       | Some (JStr i) => (set_selectedSoundId i st, Selected i)
       | _ => (st, SoundNotFound)
       end.

(** The five guarded statements of [PUT /settings], in source order. *)
Definition put_confidenceThreshold (next : json) (st : settings) : settings :=
  match typeof_number (get_prop (Some next) "confidenceThreshold") with
  | Some x => set_confidenceThreshold (math_min (Fin 1) (math_max (Fin 0) x)) st
  | None => st
  end.

Definition put_autoSound (next : json) (st : settings) : settings :=
  match typeof_boolean (get_prop (Some next) "autoSound") with
  | Some b => set_autoSound b st
  | None => st
  end.

Definition put_pushAlerts (next : json) (st : settings) : settings :=
  match typeof_boolean (get_prop (Some next) "pushAlerts") with
  | Some b => set_pushAlerts b st
  | None => st
  end.

Definition put_volume (next : json) (st : settings) : settings :=
  match typeof_number (get_prop (Some next) "volume") with
  | Some x => set_volume (math_min (Fin 100) (math_max (Fin 0) x)) st
  | None => st
  end.

Definition put_selectedSoundId (sounds : C) (next : json) (st : settings) : settings :=
  match typeof_string (get_prop (Some next) "selectedSoundId") with
  | Some i => if catalog_some sounds (Some (JStr i)) then set_selectedSoundId i st else st
  | None => st
  end.

(** [PUT /settings]: [const next = req.body || {}] and the five
    statements. *)
Definition update_settings (sounds : C) (body : option json) (st : settings) : settings :=
  let next := body_or_empty body in
  put_selectedSoundId sounds next
    (put_volume next (put_pushAlerts next (put_autoSound next
      (put_confidenceThreshold next st)))).

(** The store is well formed: both numbers in range and the selected id
    naming a sound of the catalog. *)
Definition settings_wf (sounds : C) (st : settings) : Prop :=
  in_range 0 1 (confidenceThreshold st) /\
  in_range 0 100 (volume st) /\
  catalog_some sounds (Some (JStr (selectedSoundId st))) = true.
End WithCatalog.

(** ** Lemmas *)

Section SettingsProofs.
Context `{Catalog C}.
Implicit Types (sounds : C) (st : settings) (next : json).

(** What [PUT /settings] leaves in each field: a field depends only on
    its own member of the body and on its previous value. *)
Lemma update_settings_fields sounds body st :
  let next := body_or_empty body in
  let st' := update_settings sounds body st in
  confidenceThreshold st' =
    from_option (fun x => math_min (Fin 1) (math_max (Fin 0) x)) (confidenceThreshold st)
      (typeof_number (get_prop (Some next) "confidenceThreshold")) /\
  autoSound st' = default (autoSound st) (typeof_boolean (get_prop (Some next) "autoSound")) /\
  pushAlerts st' = default (pushAlerts st) (typeof_boolean (get_prop (Some next) "pushAlerts")) /\
  volume st' =
    from_option (fun x => math_min (Fin 100) (math_max (Fin 0) x)) (volume st)
      (typeof_number (get_prop (Some next) "volume")) /\
  selectedSoundId st' =
    match typeof_string (get_prop (Some next) "selectedSoundId") with
    | Some i => if catalog_some sounds (Some (JStr i)) then i else selectedSoundId st
    | None => selectedSoundId st
    end.
Proof.
  unfold update_settings, put_selectedSoundId, put_volume, put_pushAlerts,
    put_autoSound, put_confidenceThreshold.
  by repeat case_match.
Qed.

Lemma put_confidenceThreshold_wf sounds next st :
  json_parsed next = true -> settings_wf sounds st ->
  settings_wf sounds (put_confidenceThreshold next st).
Proof.
  intros Hp (Hc & Hv & Hs). unfold put_confidenceThreshold.
  destruct (typeof_number _) eqn:E; [|done].
  split; [|done]. apply clamp_in_range; [lra|]. by eapply get_prop_number_not_nan.
Qed.

Lemma put_volume_wf sounds next st :
  json_parsed next = true -> settings_wf sounds st -> settings_wf sounds (put_volume next st).
Proof.
  intros Hp (Hc & Hv & Hs). unfold put_volume.
  destruct (typeof_number _) eqn:E; [|done].
  split; [done|split; [|done]]. apply clamp_in_range; [lra|].
  by eapply get_prop_number_not_nan.
Qed.

Lemma put_flags_wf sounds next st :
  settings_wf sounds st -> settings_wf sounds (put_pushAlerts next (put_autoSound next st)).
Proof.
  unfold put_pushAlerts, put_autoSound. by repeat case_match.
Qed.

Lemma put_selectedSoundId_wf sounds next st :
  settings_wf sounds st -> settings_wf sounds (put_selectedSoundId sounds next st).
Proof.
  intros (Hc & Hv & Hs). unfold put_selectedSoundId.
  repeat case_match; by repeat split.
Qed.

Lemma settings_wf_push sounds snd st :
  settings_wf sounds st -> settings_wf (catalog_push sounds snd) st.
Proof. intros (Hc & Hv & Hs). repeat split; eauto with farm. Qed.

Lemma select_sound_wf sounds body st :
  settings_wf sounds st -> settings_wf sounds (select_sound sounds body st).1.
Proof.
  intros (Hc & Hv & Hs). unfold select_sound.
  generalize (get_prop (Some (body_or_empty body)) "soundId"). intros v.
  destruct (catalog_some sounds v) eqn:E; simpl; [|by repeat split].
  destruct v as [[]|]; simpl; by repeat split.
Qed.
End SettingsProofs.

#[export] Hint Resolve settings_wf_push select_sound_wf : farm.

Section SettingsBehaviour.
Context `{Catalog C}.
Implicit Types (sounds : C) (st : settings).

Lemma select_sound_found sounds body st i :
  get_prop (Some (body_or_empty body)) "soundId" = Some (JStr i) ->
  catalog_some sounds (Some (JStr i)) = true ->
  select_sound sounds body st = (set_selectedSoundId i st, Selected i).
Proof. intros Hg Hi. unfold select_sound. by rewrite Hg, Hi. Qed.

Lemma select_sound_unknown sounds body st :
  catalog_some sounds (get_prop (Some (body_or_empty body)) "soundId") = false ->
  select_sound sounds body st = (st, SoundNotFound).
Proof. intros Hn. unfold select_sound. by rewrite Hn. Qed.

(** [PUT /settings] keeps the settings store well formed: whatever parsed
    body it receives, the confidence threshold stays in [[0,1]], the
    volume in [[0,100]] and the selected id names a sound of the
    catalog. *)
Lemma update_settings_wf sounds body st :
  body_parsed body = true -> settings_wf sounds st ->
  settings_wf sounds (update_settings sounds body st).
Proof.
  intros Hp Hwf. pose proof (body_or_empty_parsed body Hp) as Hn.
  unfold update_settings. apply put_selectedSoundId_wf.
  apply put_volume_wf; [done|]. apply put_flags_wf.
  by apply put_confidenceThreshold_wf.
Qed.

(** C10: a finite numeric [volume] or [confidenceThreshold] member is
    stored clamped: the stored value denotes [min 100 (max 0 q)],
    respectively [min 1 (max 0 q)]. *)
Theorem update_settings_clamps sounds body st q :
  let next := body_or_empty body in
  let st' := update_settings sounds body st in
  (get_prop (Some next) "volume" = Some (JNum (Fin q)) ->
   volume st' ≡ Fin (Qmin 100 (Qmax 0 q))) /\
  (get_prop (Some next) "confidenceThreshold" = Some (JNum (Fin q)) ->
   confidenceThreshold st' ≡ Fin (Qmin 1 (Qmax 0 q))).
Proof.
  destruct (update_settings_fields sounds body st) as (Hc & _ & _ & Hv & _).
  split; intros Hg.
  - rewrite Hv, Hg. apply clamp_reference. lra.
  - rewrite Hc, Hg. apply clamp_reference. lra.
Qed.

(** C11: a member of the wrong type is silently ignored: each field keeps
    its value unless the body carries that member with the type the
    handler tests, and the selected id changes only to a string naming a
    sound of the catalog. *)
Theorem update_settings_ignores sounds body st :
  let next := body_or_empty body in
  let st' := update_settings sounds body st in
  (typeof_number (get_prop (Some next) "confidenceThreshold") = None ->
   confidenceThreshold st' = confidenceThreshold st) /\
  (typeof_boolean (get_prop (Some next) "autoSound") = None -> autoSound st' = autoSound st) /\
  (typeof_boolean (get_prop (Some next) "pushAlerts") = None -> pushAlerts st' = pushAlerts st) /\
  (typeof_number (get_prop (Some next) "volume") = None -> volume st' = volume st) /\
  (selectedSoundId st' <> selectedSoundId st ->
   get_prop (Some next) "selectedSoundId" = Some (JStr (selectedSoundId st')) /\
   catalog_some sounds (Some (JStr (selectedSoundId st'))) = true).
Proof.
  destruct (update_settings_fields sounds body st) as (Hc & Ha & Hp & Hv & Hs).
  cbv zeta in *. rewrite Hc, Ha, Hp, Hv, Hs.
  split; [intros ->; done|]. split; [intros ->; done|].
  split; [intros ->; done|]. split; [intros ->; done|].
  destruct (typeof_string _) as [i|] eqn:E; [|done].
  destruct (catalog_some sounds (Some (JStr i))) eqn:Ei; [|done].
  split; [|done]. by apply typeof_string_spec.
Qed.
End SettingsBehaviour.
