(* ===== verification/Alerts.v ===== *)
(** * The alert log

    [const alerts = []] (line 26 of [src/smart-farm-backend/index.js]) and
    [POST /device/detection] (lines 79-89): the confidence is
    [Number(req.body?.confidence) || 0.8], the time is
    [req.body?.time || new Date().toLocaleTimeString()], the id is
    [String(Date.now())], and the alert is [unshift]ed, so the log is
    newest first.  [Number(..)] can throw (an object with an own
    [toString] member): then nothing is recorded. *)

From stdpp Require Import base tactics list strings.
From Stdlib Require Import QArith String NArith.
From S2P Require Import Prelude JsNumber Json Naming.

Local Open Scope string_scope.

Record alert : Type := mk_alert {
  alert_id : string;
  alert_time : json;
  alert_confidence : number
}.

(** The literal [0.8]: the double nearest to 4/5, [3602879701896397 * 2^-52]. *)
Definition default_confidence : number :=
  Fin (3602879701896397 # 4503599627370496).

Section Detection.
Context `{JsCoercion}.

(** The handler body from [Number(..)] to [alerts.unshift(..)];
    [locale_time] is the value [new Date().toLocaleTimeString()] has when
    it is evaluated, [now] the value of [Date.now()]. *)
Definition record_detection (now : N) (locale_time : string) (body : option json)
    (alerts : list alert) : completion (list alert) :=
  match to_number (get_prop body "confidence") with
  | ThrowTypeError => ThrowTypeError
  | Normal n =>
      let confidence := if number_truthy n then n else default_confidence in
      let time := js_or (get_prop body "time") (JStr locale_time) in
      Normal (mk_alert (date_string now) time confidence :: alerts)
  end.
End Detection.

(** ** Lemmas *)

Lemma default_confidence_truthy : number_truthy default_confidence = true.
Proof. reflexivity. Qed.

Section DetectionProofs.
Context `{JsCoercion}.

(** The shape of a recorded log, shared by the server's proofs. *)
Lemma record_detection_cons now lt body alerts l :
  record_detection now lt body alerts = Normal l ->
  exists a, l = a :: alerts /\ alert_id a = date_string now /\
            number_truthy (alert_confidence a) = true.
Proof.
  unfold record_detection. destruct (to_number _) as [n|]; [|done].
  intros [= <-]. eexists; split_and!; try done. simpl.
  destruct (number_truthy n) eqn:E; [done|]. apply default_confidence_truthy.
Qed.

Lemma record_detection_throw now lt body alerts :
  to_number (get_prop body "confidence") = ThrowTypeError ->
  record_detection now lt body alerts = ThrowTypeError.
Proof. intros Hn. unfold record_detection. by rewrite Hn. Qed.
End DetectionProofs.

Section DetectionProperties.
Context `{JsCoercion}.

(** C12: a recorded detection is put in front of the log, which grows by
    exactly one; its id is [String(Date.now())] and its confidence is a
    truthy number: never [NaN] and never zero. *)
Theorem record_detection_prepends now lt body alerts l :
  record_detection now lt body alerts = Normal l ->
  exists a, l = a :: alerts /\ alert_id a = date_string now /\
            number_truthy (alert_confidence a) = true /\ length l = S (length alerts).
Proof.
  intros Hr. destruct (record_detection_cons _ _ _ _ _ Hr) as (a & -> & Hid & Ht).
  by exists a.
Qed.

(** C13: a detection without [confidence] and [time] members is recorded
    with the confidence [0.8] and the server's locale time, which is a
    truthy (non-empty) string when the clock renders one. *)
Theorem record_detection_defaults now lt body alerts :
  get_prop body "confidence" = None -> get_prop body "time" = None ->
  record_detection now lt body alerts =
    Normal (mk_alert (date_string now) (JStr lt) default_confidence :: alerts) /\
  (lt <> "" -> json_truthy (JStr lt) = true).
Proof.
  intros Hc Ht. split.
  - unfold record_detection. by rewrite Hc, Ht.
  - intros Hlt. simpl. apply negb_true_iff, String.eqb_neq. done.
Qed.

(** C14: a non-zero numeric confidence is stored as sent. *)
Theorem record_detection_keeps_confidence now lt body alerts q :
  get_prop body "confidence" = Some (JNum (Fin q)) -> ~ q == 0 ->
  exists a, record_detection now lt body alerts = Normal (a :: alerts) /\
            alert_confidence a = Fin q.
Proof.
  intros Hc Hq. unfold record_detection. rewrite Hc. simpl.
  destruct (Qeq_bool q 0) eqn:E.
  - apply Qeq_bool_iff in E. contradiction.
  - by eexists.
Qed.

(** C16: a confidence of [0] is replaced by [0.8]: [Number(0) || 0.8]
    treats the valid number zero as missing. *)
Theorem record_detection_zero_confidence now lt body alerts :
  get_prop body "confidence" = Some (JNum (Fin 0)) ->
  exists a, record_detection now lt body alerts = Normal (a :: alerts) /\
            alert_confidence a = default_confidence.
Proof. intros Hc. unfold record_detection. rewrite Hc. by eexists. Qed.

(** C15: a [confidence] object with its own [toString] member makes
    [Number(..)] throw a [TypeError]; the handler then records nothing. *)
Theorem record_detection_type_error now lt body alerts fields v :
  get_prop body "confidence" = Some (JObj fields) ->
  assoc_last "toString" fields = Some v ->
  record_detection now lt body alerts = ThrowTypeError.
Proof.
  intros Hc Ht. apply record_detection_throw. rewrite Hc. simpl. by rewrite Ht.
Qed.
End DetectionProperties.

(** ** Witnesses *)

Lemma record_detection_prepends_witness :
  exists a, [mk_alert (date_string 1700000000000) (JStr "10:00:00 AM") default_confidence] = [a] /\
    alert_id a = date_string 1700000000000 /\ number_truthy (alert_confidence a) = true /\
    length [mk_alert (date_string 1700000000000) (JStr "10:00:00 AM") default_confidence] =
      S (length (@nil alert)).
Proof. apply (record_detection_prepends 1700000000000 "10:00:00 AM" None []). reflexivity. Defined.

Lemma record_detection_defaults_witness :
  record_detection 1700000000000 "10:00:00 AM" (Some (JObj [])) [] =
    Normal [mk_alert (date_string 1700000000000) (JStr "10:00:00 AM") default_confidence] /\
  ("10:00:00 AM" <> "" -> json_truthy (JStr "10:00:00 AM") = true).
Proof.
  apply (record_detection_defaults 1700000000000 "10:00:00 AM" (Some (JObj [])) []);
    reflexivity.
Defined.

Lemma record_detection_keeps_confidence_witness :
  exists a, record_detection 1700000000000 "10:00:00 AM"
              (Some (JObj [("confidence", JNum (Fin (93#100)))])) [] = Normal [a] /\
            alert_confidence a = Fin (93#100).
Proof.
  apply (record_detection_keeps_confidence _ _ (Some (JObj [("confidence", JNum (Fin (93#100)))])));
    [reflexivity|]. intros Hq. vm_compute in Hq. discriminate.
Defined.

Lemma record_detection_type_error_witness :
  record_detection 1700000000000 "10:00:00 AM"
    (Some (JObj [("confidence", JObj [("toString", JNum (Fin 1))])])) [] = ThrowTypeError.
Proof.
  apply (record_detection_type_error _ _ _ _ [("toString", JNum (Fin 1))] (JNum (Fin 1)));
    reflexivity.
Defined.

Lemma record_detection_zero_confidence_witness :
  exists a, record_detection 1700000000000 "10:00:00 AM"
              (Some (JObj [("confidence", JNum (Fin 0))])) [] = Normal [a] /\
            alert_confidence a = default_confidence.
Proof. apply record_detection_zero_confidence. reflexivity. Defined.
