(* ===== verification/NumberConv.v ===== *)
(** * The engine's number conversions: [StringToNumber] and rounding

    [Number(v)] on a string (line 81 of [src/smart-farm-backend/index.js],
    through [JsCoercion.string_to_number]) reads the string with the
    [StringNumericLiteral] grammar of ECMAScript (7.1.4.1) and rounds the
    mathematical value it denotes to the nearest double, ties to even
    (6.1.6.1, [RoundMVResult] taking its first option: exact rounding).
    Finite doubles are rationals here, as everywhere in the development;
    [is_double] says which rationals are doubles: [m * 2^e] with
    [|m| < 2^53] and [-1074 <= e <= 971].

    [zlog b n] is the floor of the logarithm of a positive integer in base
    [b], computed by division with fuel [log2 n + 1] (enough, since every
    division at least halves [n]); [qlog] extends it to rationals. *)

From stdpp Require Import base tactics list.
From Stdlib Require Import QArith Qround Qpower Qabs Lqa ZArith String Ascii DecimalString DecimalPos DecimalN.
From S2P Require Import Prelude JsNumber Json Naming Alerts.

(** ** Floor logarithms *)

Local Open Scope Z_scope.

Fixpoint zlog_iter (fuel : nat) (b n : Z) : Z :=
  match fuel with
  | O => 0
  | S f => if (n <? b)%Z then 0 else 1 + zlog_iter f b (n / b)
  end.

Definition zlog (b n : Z) : Z := zlog_iter (Z.to_nat (Z.log2 n + 1)) b n.

Local Open Scope Q_scope.

(** The floor of the logarithm of a positive rational. *)
Definition qlog (b : Z) (q : Q) : Z :=
  let e := (zlog b (Qnum q) - zlog b (Zpos (Qden q)))%Z in
  if Qltb q (inject_Z b ^ e) then (e - 1)%Z else e.


(** ** Rounding to a double *)

(** Round half to even. *)
Definition round_half_even (x : Q) : Z :=
  let f := Qfloor x in
  match Qcompare (x - inject_Z f) (1 # 2) with
  | Lt => f
  | Gt => (f + 1)%Z
  | Eq => if Z.even f then f else (f + 1)%Z
  end.

(** The exponent of the last place of the doubles next to a positive [q]:
    [52] places below its leading bit, and never below the subnormal
    exponent [-1074]. *)
Definition ulp_exponent (q : Q) : Z := Z.max (qlog 2 q - 52) (-1074).

(** The double nearest to a positive [q], ties to even, or [+Infinity]
    from [2^1024] on. *)
Definition round_positive (q : Q) : number :=
  let e := ulp_exponent q in
  let r := inject_Z (round_half_even (q / inject_Z 2 ^ e)) * inject_Z 2 ^ e in
  if Qle_bool (inject_Z 2 ^ 1024) r then PosInf else Fin r.

(** Unary [-]. *)
Definition neg_number (n : number) : number :=
  match n with NaN => NaN | PosInf => NegInf | NegInf => PosInf | Fin q => Fin (- q) end.

(** [RoundMVResult]: [-0] is not distinguished from [+0]. *)
Definition round_to_double (q : Q) : number :=
  match Qcompare q 0 with
  | Eq => Fin 0
  | Gt => round_positive q
  | Lt => neg_number (round_positive (- q))
  end.

(** The finite doubles. *)
Definition is_double (q : Q) : Prop :=
  exists m e, q == inject_Z m * inject_Z 2 ^ e /\ (Z.abs m < 2 ^ 53)%Z /\ (-1074 <= e <= 971)%Z.

(** ** [StringToNumber] *)

(** The value of a digit in bases up to 16. *)
Definition digit_value (c : ascii) : option Z :=
  let n := Z.of_nat (nat_of_ascii c) in
  if ((48 <=? n) && (n <=? 57))%Z then Some (n - 48)%Z
  else if ((97 <=? n) && (n <=? 102))%Z then Some (n - 87)%Z
  else if ((65 <=? n) && (n <=? 70))%Z then Some (n - 55)%Z
  else None.

(** The digits of [s] in base [b], read after the value [acc]. *)
Fixpoint digits_value (b acc : Z) (s : string) : option Z :=
  match s with
  | EmptyString => Some acc
  | String c r =>
      match digit_value c with
      | Some v => if (v <? b)%Z then digits_value b (acc * b + v)%Z r else None
      | None => None
      end
  end.

(** The longest prefix whose characters satisfy [p], and the rest. *)
Fixpoint span (p : ascii -> bool) (s : string) : string * string :=
  match s with
  | EmptyString => (EmptyString, EmptyString)
  | String c r => if p c then let '(a, b) := span p r in (String c a, b) else (EmptyString, s)
  end.

(** [SignedInteger] after the [e] of an [ExponentPart]. *)
Definition parse_exponent (s : string) : option Z :=
  let '(sign, body) :=
    match s with
    | String "+"%char r => (1%Z, r)
    | String "-"%char r => ((-1)%Z, r)
    | _ => (1%Z, s)
    end in
  match body with
  | EmptyString => None
  | _ => option_map (Z.mul sign) (digits_value 10 0 body)
  end.

(** [StrUnsignedDecimalLiteral]: [Infinity], or digits with an optional
    fraction and exponent, at least one digit before the exponent. *)
Definition parse_unsigned_decimal (s : string) : option number :=
  if String.eqb s "Infinity" then Some PosInf else
  let '(ip, r1) := span is_digit s in
  let '(fp, r2) := match r1 with String "."%char r => span is_digit r | _ => (EmptyString, r1) end in
  if String.eqb ip "" && String.eqb fp "" then None else
  let ex := match r2 with
            | EmptyString => Some 0%Z
            | String c r => if Ascii.eqb c "e" || Ascii.eqb c "E" then parse_exponent r else None
            end in
  match ex, digits_value 10 0 (ip ++ fp) with
  | Some x, Some m =>
      Some (round_to_double (inject_Z m * inject_Z 10 ^ (x - Z.of_nat (String.length fp))))
  | _, _ => None
  end.

(** [StrDecimalLiteral]: an optional sign. *)
Definition parse_decimal (s : string) : option number :=
  match s with
  | String "+"%char r => parse_unsigned_decimal r
  | String "-"%char r => option_map neg_number (parse_unsigned_decimal r)
  | _ => parse_unsigned_decimal s
  end.

(** [NonDecimalIntegerLiteral]: [0x], [0o] or [0b] and at least one
    digit of the base, without a sign. *)
Definition parse_non_decimal (s : string) : option number :=
  match s with
  | String "0"%char (String c r) =>
      let base := if Ascii.eqb c "x" || Ascii.eqb c "X" then 16%Z
                  else if Ascii.eqb c "o" || Ascii.eqb c "O" then 8%Z
                  else if Ascii.eqb c "b" || Ascii.eqb c "B" then 2%Z
                  else 0%Z in
      if (base =? 0)%Z || String.eqb r "" then None
      else option_map (fun v => round_to_double (inject_Z v)) (digits_value base 0 r)
  | _ => None
  end.

Definition string_rev (s : string) : string := string_of_list_ascii (rev (list_ascii_of_string s)).

(** [StrWhiteSpace] removed on both sides. *)
Definition trim (s : string) : string := string_rev (skip_ws (string_rev (skip_ws s))).

(** [StringToNumber(str)] (7.1.4.1.1): [NaN] when the trimmed string is
    not a [StrNumericLiteral]. *)
Definition js_string_to_number (s : string) : number :=
  let t := trim s in
  if String.eqb t "" then Fin 0 else
  match parse_non_decimal t with
  | Some n => n
  | None => default NaN (parse_decimal t)
  end.

Section ZLog.
Local Open Scope Z_scope.

(** ** Lemmas on logarithms *)

Lemma zlog_iter_nonneg fuel b n : 0 <= zlog_iter fuel b n.
Proof. revert n. induction fuel as [|f IH]; intros n; simpl; [lia|]. case_match; [lia|]. specialize (IH (n / b)). lia. Qed.

Lemma zlog_iter_spec b fuel n :
  (2 <= b)%Z -> (1 <= n)%Z -> (n < 2 ^ Z.of_nat fuel)%Z ->
  (b ^ zlog_iter fuel b n <= n < b ^ (zlog_iter fuel b n + 1))%Z.
Proof.
  intros Hb. revert n. induction fuel as [|f IH]; intros n Hn Hlt; simpl in *; [lia|].
  destruct (Z.ltb_spec n b) as [Hnb|Hnb]; [rewrite Z.pow_0_r, Z.pow_1_r; lia|].
  assert (Hq1 : (1 <= n / b)%Z) by (apply Z.div_le_lower_bound; lia).
  assert (Hq2 : (n / b < 2 ^ Z.of_nat f)%Z).
  { rewrite Nat2Z.inj_succ, Z.pow_succ_r in Hlt by lia.
    apply Z.div_lt_upper_bound; [lia|]. nia. }
  destruct (IH (n / b) Hq1 Hq2) as [Hl Hu].
  pose proof (Z.mul_div_le n b ltac:(lia)) as Hd. pose proof (Z.mod_pos_bound n b ltac:(lia)).
  pose proof (Z.div_mod n b ltac:(lia)).
  pose proof (zlog_iter_nonneg f b (n / b)).
  rewrite !Z.pow_add_r, !Z.pow_1_r in * by lia.
  split; nia.
Qed.

Lemma zlog_spec b n :
  (2 <= b)%Z -> (1 <= n)%Z -> (b ^ zlog b n <= n < b ^ (zlog b n + 1))%Z.
Proof.
  intros Hb Hn. apply zlog_iter_spec; [done|done|].
  rewrite Z2Nat.id by (pose proof (Z.log2_nonneg n); lia). apply Z.log2_spec. lia.
Qed.

End ZLog.

Lemma Zpow_Q b e : (0 <= e)%Z -> inject_Z (b ^ e) == inject_Z b ^ e.
Proof. apply Zpower_Qpower. Qed.

Lemma Qmake_mul_den n d : (n # d) * inject_Z (Zpos d) == inject_Z n.
Proof. unfold Qeq, Qmult, inject_Z. simpl. lia. Qed.

Lemma Qpow_pos b e : (2 <= b)%Z -> 0 < inject_Z b ^ e.
Proof. intros Hb. apply Qpower_0_lt. unfold Qlt, inject_Z. simpl. lia. Qed.

Lemma Qpow_plus b x y : (2 <= b)%Z -> inject_Z b ^ (x + y) == inject_Z b ^ x * inject_Z b ^ y.
Proof. intros Hb. apply Qpower_plus. unfold Qeq, inject_Z. simpl. lia. Qed.

Lemma Qpow_plus_le b x y z :
  (2 <= b)%Z -> (x + y)%Z = z -> inject_Z b ^ x * inject_Z b ^ y <= inject_Z b ^ z.
Proof. intros Hb <-. apply Qle_lteq. right. symmetry. by apply Qpow_plus. Qed.

Lemma Qpow_plus_ge b x y z :
  (2 <= b)%Z -> (x + y)%Z = z -> inject_Z b ^ z <= inject_Z b ^ x * inject_Z b ^ y.
Proof. intros Hb <-. apply Qle_lteq. right. by apply Qpow_plus. Qed.

(** Bounds of an integer by powers, moved to [Q]. *)
Lemma zlog_Q b n :
  (2 <= b)%Z -> (1 <= n)%Z ->
  inject_Z b ^ zlog b n <= inject_Z n /\ inject_Z n < inject_Z b ^ (zlog b n + 1).
Proof.
  intros Hb Hn. destruct (zlog_spec b n Hb Hn) as [Hl Hu].
  assert (0 <= zlog b n)%Z by (apply zlog_iter_nonneg).
  rewrite <- !Zpow_Q by lia. split; [rewrite <- Zle_Qle; lia|rewrite <- Zlt_Qlt; lia].
Qed.

Lemma qlog_spec b q :
  (2 <= b)%Z -> 0 < q -> inject_Z b ^ qlog b q <= q /\ q < inject_Z b ^ (qlog b q + 1).
Proof.
  intros Hb Hq. destruct q as [n d].
  assert (Hn : (1 <= n)%Z) by (unfold Qlt in Hq; simpl in Hq; lia).
  destruct (zlog_Q b n Hb Hn) as [Hnl Hnu].
  destruct (zlog_Q b (Zpos d) Hb ltac:(lia)) as [Hdl Hdu].
  set (a := zlog b n) in *. set (c := zlog b (Zpos d)) in *. set (B := inject_Z b) in *.
  pose proof (Qmake_mul_den n d) as Hm.
  assert (Hd : 0 < inject_Z (Zpos d)) by (unfold Qlt, inject_Z; simpl; lia).
  assert (Hlow : B ^ (a - c - 1) < n # d).
  { apply (Qmult_lt_r _ _ (inject_Z (Zpos d))); [done|]. rewrite Hm.
    apply (Qlt_le_trans _ (B ^ (a - c - 1) * B ^ (c + 1))).
    - apply Qmult_lt_l; [apply Qpow_pos; lia|done].
    - eapply Qle_trans; [apply (Qpow_plus_le b _ _ a); lia|exact Hnl]. }
  assert (Hup : n # d < B ^ (a - c + 1)).
  { apply (Qmult_lt_r _ _ (inject_Z (Zpos d))); [done|]. rewrite Hm.
    apply (Qlt_le_trans _ (B ^ (a - c + 1) * B ^ c)).
    - eapply Qlt_le_trans; [exact Hnu|]. apply (Qpow_plus_ge b); lia.
    - apply Qmult_le_l; [apply Qpow_pos; lia|done]. }
  unfold qlog. cbn [Qnum Qden]. fold a c B.
  destruct (Qltb (n # d) (B ^ (a - c))) eqn:E.
  - apply Qltb_iff in E. split; [by apply Qlt_le_weak|]. by replace (a - c - 1 + 1)%Z with (a - c)%Z by lia.
  - apply Qltb_false in E. split; [done|done].
Qed.

(** ** Lemmas on rounding *)

Lemma Qpow2_pos e : 0 < inject_Z 2 ^ e.
Proof. by apply Qpow_pos. Qed.

Lemma Qpow2_le_mono x y : (x <= y)%Z -> inject_Z 2 ^ x <= inject_Z 2 ^ y.
Proof. intros Hxy. apply Qpower_le_compat_l; [done|]. unfold Qle, inject_Z. simpl. lia. Qed.

Lemma Qpow2_lt_inv x y : inject_Z 2 ^ x < inject_Z 2 ^ y -> (x < y)%Z.
Proof. intros Hxy. eapply Qpower_lt_compat_l_inv; [exact Hxy|]. unfold Qlt, inject_Z. simpl. lia. Qed.

Lemma Qpow2_Z e : (0 <= e)%Z -> inject_Z (2 ^ e) == inject_Z 2 ^ e.
Proof. apply Zpow_Q. Qed.

Lemma round_half_even_comp x y : x == y -> round_half_even x = round_half_even y.
Proof.
  intros Hxy. unfold round_half_even. rewrite (Qfloor_comp x y Hxy).
  rewrite (Qcompare_comp _ _ (Qminus_comp _ _ Hxy _ _ (Qeq_refl _)) _ _ (Qeq_refl (1 # 2))).
  done.
Qed.

Lemma Qpow2_shift m e E :
  (E <= e)%Z -> inject_Z (m * 2 ^ (e - E)) * inject_Z 2 ^ E == inject_Z m * inject_Z 2 ^ e.
Proof.
  intros HE. rewrite inject_Z_mult, <- Qmult_assoc. apply Qmult_comp; [reflexivity|].
  apply (Qeq_trans _ (inject_Z 2 ^ (e - E) * inject_Z 2 ^ E)).
  - apply Qmult_comp; [by apply Qpow2_Z; lia|reflexivity].
  - apply Qeq_sym. replace e with (e - E + E)%Z at 1 by lia. apply Qpow_plus; lia.
Qed.

(** A positive double is a multiple of the last place of its binade. *)
Lemma ulp_exponent_le q m e :
  0 < q -> q == inject_Z m * inject_Z 2 ^ e -> (Z.abs m < 2 ^ 53)%Z -> (-1074 <= e)%Z ->
  (ulp_exponent q <= e)%Z.
Proof.
  intros Hq Hqe Hm He. destruct (qlog_spec 2 q ltac:(lia) Hq) as [Hl _].
  unfold ulp_exponent. apply Z.max_lub; [|done].
  enough (qlog 2 q < 53 + e)%Z by lia. apply Qpow2_lt_inv.
  eapply Qle_lt_trans; [exact Hl|]. rewrite Hqe.
  apply (Qlt_le_trans _ (inject_Z (2 ^ 53) * inject_Z 2 ^ e)).
  - apply Qmult_lt_r; [apply Qpow2_pos|]. rewrite <- Zlt_Qlt. lia.
  - rewrite Qpow2_Z by lia. apply (Qpow_plus_le 2); lia.
Qed.

#[export] Instance neg_number_proper : Proper ((≡) ==> (≡)) neg_number.
Proof.
  intros [| | |x] [| | |y] H; cbv [equiv number_equiv_inst number_equiv] in *; simpl; try done.
  by rewrite H.
Qed.

Lemma is_double_opp q : is_double q -> is_double (- q).
Proof.
  intros (m & e & Hqe & Hm & He). exists (- m)%Z, e. split_and!; [|lia..].
  rewrite Hqe, inject_Z_opp. ring.
Qed.

(** ** Rounding respects the equality of rationals *)

Lemma Qpow_lt_inv b x y : (2 <= b)%Z -> inject_Z b ^ x < inject_Z b ^ y -> (x < y)%Z.
Proof. intros Hb Hxy. eapply Qpower_lt_compat_l_inv; [exact Hxy|]. unfold Qlt, inject_Z. simpl. lia. Qed.

(** The floor logarithm is the unique [a] with [b^a <= q < b^(a+1)]. *)
Lemma qlog_unique b q a :
  (2 <= b)%Z -> inject_Z b ^ a <= q -> q < inject_Z b ^ (a + 1) -> qlog b q = a.
Proof.
  intros Hb Hl Hu. assert (Hq : 0 < q) by (apply (Qlt_le_trans _ (inject_Z b ^ a)); [apply Qpow_pos; lia|exact Hl]).
  destruct (qlog_spec b q Hb Hq) as [Hl' Hu'].
  assert (qlog b q < a + 1)%Z by (apply (Qpow_lt_inv b _ _ Hb); eapply Qle_lt_trans; eauto).
  assert (a < qlog b q + 1)%Z by (apply (Qpow_lt_inv b _ _ Hb); eapply Qle_lt_trans; eauto).
  lia.
Qed.

Lemma qlog_comp b q q' : (2 <= b)%Z -> 0 < q -> q == q' -> qlog b q = qlog b q'.
Proof.
  intros Hb Hq Hqq. destruct (qlog_spec b q Hb Hq) as [Hl Hu].
  symmetry. apply qlog_unique; [done|rewrite <- Hqq; done|rewrite <- Hqq; done].
Qed.

Lemma round_positive_comp q q' : 0 < q -> q == q' -> round_positive q ≡ round_positive q'.
Proof.
  intros Hq Hqq. unfold round_positive, ulp_exponent. rewrite (qlog_comp 2 q q') by (lia || done).
  set (e := Z.max (qlog 2 q' - 52) (-1074)).
  rewrite (round_half_even_comp (q / inject_Z 2 ^ e) (q' / inject_Z 2 ^ e))
    by (apply Qdiv_comp; [done|reflexivity]).
  reflexivity.
Qed.

#[export] Instance round_to_double_proper : Proper (Qeq ==> (≡)) round_to_double.
Proof.
  intros q q' Hqq. unfold round_to_double. rewrite (Qcompare_comp q q' Hqq 0 0 (Qeq_refl 0)).
  destruct (q' ?= 0) eqn:Hc.
  - reflexivity.
  - apply Qlt_alt in Hc. apply neg_number_proper, round_positive_comp; [|by rewrite Hqq].
    rewrite Hqq. lra.
  - apply Qgt_alt in Hc. apply round_positive_comp; [|done]. rewrite Hqq. done.
Qed.

(** ** Lemmas on the parser *)

Section DecimalDigits.
Local Open Scope Z_scope.

(** [N.of_uint] as a Horner scheme from the leading digit. *)
Lemma of_uint_lead d :
  d <> Decimal.Nil ->
  N.of_uint d = (Unsigned.hd d * 10 ^ Unsigned.usize (Unsigned.tl d) + N.of_uint (Unsigned.tl d))%N.
Proof.
  intros Hd. unfold N.of_uint. rewrite !Unsigned.of_uint_alt.
  destruct d; [done|..]; unfold Decimal.rev; simpl Decimal.revapp;
    rewrite Unsigned.of_lu_revapp; cbn [Unsigned.of_lu Unsigned.hd Unsigned.tl]; unfold Decimal.rev; lia.
Qed.

Lemma digits_value_cons c r acc k :
  digit_value c = Some k -> (0 <= k < 10) ->
  digits_value 10 acc (String c r) = digits_value 10 (acc * 10 + k) r.
Proof. intros Hc Hk. simpl. rewrite Hc. by rewrite (proj2 (Z.ltb_lt k 10) ltac:(lia)). Qed.

(** Reading back the decimal rendering of a [uint]. *)
Lemma digits_value_uint d acc :
  digits_value 10 acc (NilEmpty.string_of_uint d) =
    Some (acc * 10 ^ Z.of_N (Unsigned.usize d) + Z.of_N (N.of_uint d)).
Proof.
  revert acc. induction d; intros acc; [simpl; f_equal; lia|..];
    match goal with |- context [N.of_uint (?c d)] => rewrite (of_uint_lead (c d)) by discriminate end;
    cbn [NilEmpty.string_of_uint Unsigned.hd Unsigned.tl Unsigned.usize];
    match goal with
    | |- digits_value 10 acc (String ?c _) = _ =>
        let v := eval vm_compute in (digit_value c) in
        match v with Some ?k => rewrite (digits_value_cons c _ acc k) by (reflexivity || lia) end
    end;
    rewrite IHd; f_equal;
    rewrite N2Z.inj_succ, Z.pow_succ_r, N2Z.inj_add, N2Z.inj_mul, N2Z.inj_pow by lia; lia.
Qed.
End DecimalDigits.

Lemma all_chars_of_list p l : all_chars p (string_of_list_ascii l) = forallb p l.
Proof. induction l as [|c l IH]; simpl; [done|]. by rewrite IH. Qed.

Lemma all_chars_rev p s : all_chars p (string_rev s) = all_chars p s.
Proof.
  unfold string_rev. rewrite all_chars_of_list.
  rewrite <- (string_of_list_ascii_of_string s) at 2. rewrite all_chars_of_list.
  apply eq_bool_prop_intro. rewrite !Is_true_true, !forallb_forall.
  setoid_rewrite <- in_rev. done.
Qed.

Lemma string_rev_involutive s : string_rev (string_rev s) = s.
Proof.
  unfold string_rev. rewrite list_ascii_of_string_of_list_ascii, rev_involutive.
  apply string_of_list_ascii_of_string.
Qed.

Lemma digit_not_special c :
  is_digit c = true ->
  (Ascii.eqb c "x" || Ascii.eqb c "X" || Ascii.eqb c "o" || Ascii.eqb c "O" ||
   Ascii.eqb c "b" || Ascii.eqb c "B" || Ascii.eqb c "I")%bool = false.
Proof. destruct c as [[] [] [] [] [] [] [] []]; vm_compute; try discriminate; done. Qed.

Lemma date_string_nonempty t : date_string t <> EmptyString.
Proof.
  unfold date_string. destruct t as [|p]; [done|]. simpl.
  pose proof (Unsigned.to_uint_nonnil p) as Hp. by destruct (Pos.to_uint p).
Qed.

