(* ===== verification/NumberPrint.v ===== *)
(** * The engine's [Number::toString]

    [Number::toString(x)] (ECMAScript 6.1.6.1.20) writes a finite [x] with
    the fewest significant digits [k] that read back as [x]: integers
    [s], [n], [k] with [10^(k-1) <= s < 10^k], [s * 10^(n-k)] rounding to
    [x] and [k] as small as possible; among several such [s] the one
    closest to [x], the even one on a tie.  The digits are then laid out
    in one of five forms depending on [n] and [k].  It is what [Number(v)]
    needs when [v] is an array (line 81 of
    [src/smart-farm-backend/index.js], through [Array.prototype.join]).

    [digit_search] tries [k = 1, 2, ...] with fuel 17; the two candidates
    for [k] digits are the decimals with [k] digits just below and just
    above [x].  The fuel is enough: 17 digits always read back
    ([digit_search_some]).  The result is a pair [(s, p)] with value
    [s * 10^p]; trailing zeros of [s] are moved into [p].

    The file proves, in order: the string lemmas of the layouts; that
    [StringToNumber] reads each layout back as [s * 10^p] rounded
    ([format_digits_spec]); that a rational within [x / 2^54] of a
    positive double [x] rounds to [x] (Section [Near],
    [round_to_double_near]); the correctness and termination of the
    digit search; the round trip on non-zero doubles; and the engine
    instance [engine_coercion] of [JsCoercion] with its consequence for
    the detection handler (C33). *)

From stdpp Require Import base tactics list.
From Stdlib Require Import QArith Qround Qpower Qabs Lqa ZArith String Ascii DecimalString DecimalPos DecimalN.
From S2P Require Import Prelude JsNumber Json Naming Alerts NumberConv.

Local Open Scope Q_scope.

(** [round_to_double y] is the double [x]. *)
Definition rounds_to (y x : Q) : bool :=
  match round_to_double y with Fin r => Qeq_bool r x | _ => false end.

(** [n] with [10^(n-1) <= x < 10^n]. *)
Definition dec_exponent (x : Q) : Z := (qlog 10 x + 1)%Z.

(** A [k]-digit [s] whose [s * 10^(n-k)] reads back as [x], if one of
    the two next to [x] does: the closer one, the even one on a tie. *)
Definition candidate_digits (x : Q) (k : Z) : option Z :=
  let u := inject_Z 10 ^ (dec_exponent x - k) in
  let lo := Qfloor (x / u) in
  let hi := (lo + 1)%Z in
  let vlo := rounds_to (inject_Z lo * u) x in
  let vhi := rounds_to (inject_Z hi * u) x in
  if vlo && vhi then
    match Qcompare (x - inject_Z lo * u) (inject_Z hi * u - x) with
    | Lt => Some lo
    | Gt => Some hi
    | Eq => if Z.even lo then Some lo else Some hi
    end
  else if vlo then Some lo
  else if vhi then Some hi
  else None.

(** The smallest [k] from [k0] on with a candidate, with its [s], as
    [(s, n - k)]. *)
Fixpoint digit_search (fuel : nat) (k : Z) (x : Q) : option (Z * Z) :=
  match fuel with
  | O => None
  | S f =>
      match candidate_digits x k with
      | Some s => Some (s, (dec_exponent x - k)%Z)
      | None => digit_search f (k + 1) x
      end
  end.

(** Trailing zeros of [s] moved into the exponent. *)
Fixpoint strip_zeros (fuel : nat) (s p : Z) : Z * Z :=
  match fuel with
  | O => (s, p)
  | S f => if ((s mod 10 =? 0) && (0 <? s))%Z then strip_zeros f (s / 10) (p + 1) else (s, p)
  end.

Definition digits_of (s : Z) : string := date_string (Z.to_N s).

Fixpoint zeros (n : nat) : string :=
  match n with O => EmptyString | S m => String "0" (zeros m) end.

Fixpoint str_take (n : nat) (s : string) : string :=
  match n, s with
  | S m, String c r => String c (str_take m r)
  | _, _ => EmptyString
  end.

Fixpoint str_drop (n : nat) (s : string) : string :=
  match n, s with
  | S m, String _ r => str_drop m r
  | _, _ => s
  end.

(** The exponent part [e+d] or [e-d]. *)
Definition exponent_part (e : Z) : string :=
  String "e" (String (if (0 <=? e)%Z then "+"%char else "-"%char) (digits_of (Z.abs e))).

(** Steps 7 to 10 for the digits of [s] with value [s * 10^p]. *)
Definition format_digits (s p : Z) : string :=
  let ds := digits_of s in
  let k := Z.of_nat (String.length ds) in
  let n := (p + k)%Z in
  if ((k <=? n) && (n <=? 21))%Z then String.append ds (zeros (Z.to_nat (n - k)))
  else if ((0 <? n) && (n <=? 21))%Z then
    String.append (str_take (Z.to_nat n) ds) (String "." (str_drop (Z.to_nat n) ds))
  else if ((-6 <? n) && (n <=? 0))%Z then
    String "0" (String "." (String.append (zeros (Z.to_nat (- n))) ds))
  else if (k =? 1)%Z then String.append ds (exponent_part (n - 1))
  else String.append (str_take 1 ds) (String "." (String.append (str_drop 1 ds) (exponent_part (n - 1)))).

(** A positive finite value. *)
Definition positive_to_string (x : Q) : string :=
  match digit_search 17 1 x with
  | Some (s, p) => let '(s', p') := strip_zeros 17 s p in format_digits s' p'
  | None => "NaN"
  end.

Definition js_number_to_string (n : number) : string :=
  match n with
  | NaN => "NaN"
  | PosInf => "Infinity"
  | NegInf => "-Infinity"
  | Fin q =>
      match Qcompare q 0 with
      | Eq => "0"
      | Gt => positive_to_string q
      | Lt => String "-" (positive_to_string (- q))
      end
  end.

(** The engine's conversions as an implementation of [JsCoercion]. *)
#[local] Instance engine_coercion : JsCoercion := {
  string_to_number := js_string_to_number;
  number_to_string := js_number_to_string;
  string_to_number_empty := eq_refl
}.

(** The characters a rendering of a positive number is made of. *)
Definition fmt_char (c : ascii) : bool :=
  is_digit c || Ascii.eqb c "." || Ascii.eqb c "e" || Ascii.eqb c "+" || Ascii.eqb c "-".

(** ** Lemmas on the printed strings *)

Section Strings.
Local Open Scope Z_scope.

Lemma digits_value_app b acc x y :
  digits_value b acc (String.append x y) =
    match digits_value b acc x with Some v => digits_value b v y | None => None end.
Proof.
  revert acc. induction x as [|c x IH]; intros acc; simpl; [done|].
  destruct (digit_value c); [|done]. destruct (_ <? b); [apply IH|done].
Qed.

Lemma digits_value_zeros acc n : digits_value 10 acc (zeros n) = Some (acc * 10 ^ Z.of_nat n).
Proof.
  revert acc. induction n as [|n IH]; intros acc; [simpl; f_equal; lia|].
  cbn [zeros]. rewrite (digits_value_cons _ _ _ 0) by (reflexivity || lia).
  rewrite IH. f_equal. rewrite Nat2Z.inj_succ, Z.pow_succ_r by lia. lia.
Qed.

Lemma zeros_digits n : all_chars is_digit (zeros n) = true.
Proof. induction n; simpl; [done|]. by rewrite IHn. Qed.

Lemma zeros_length n : String.length (zeros n) = n.
Proof. induction n; simpl; [done|]. by rewrite IHn. Qed.

Lemma digits_of_value s : 0 <= s -> digits_value 10 0 (digits_of s) = Some s.
Proof.
  intros Hs. unfold digits_of, date_string. rewrite digits_value_uint, DecimalN.Unsigned.of_to.
  f_equal. lia.
Qed.

Lemma digits_of_digits s : all_chars is_digit (digits_of s) = true.
Proof. apply date_string_digits. Qed.

Lemma digits_of_nonempty s : digits_of s <> EmptyString.
Proof. apply date_string_nonempty. Qed.

Lemma str_take_drop n x : String.append (str_take n x) (str_drop n x) = x.
Proof. revert x. induction n as [|n IH]; intros [|c x]; try done. exact (f_equal (String c) (IH x)). Qed.

Lemma str_take_all_chars p n x : all_chars p x = true -> all_chars p (str_take n x) = true.
Proof.
  revert x. induction n as [|n IH]; intros [|c x]; simpl; try done.
  intros [Hc Hx]%andb_prop. by rewrite Hc, IH.
Qed.

Lemma str_drop_all_chars p n x : all_chars p x = true -> all_chars p (str_drop n x) = true.
Proof.
  revert x. induction n as [|n IH]; intros [|c x]; simpl; try done.
  intros [_ Hx]%andb_prop. by apply IH.
Qed.

Lemma str_drop_length n x : String.length (str_drop n x) = (String.length x - n)%nat.
Proof. revert x. induction n as [|n IH]; intros [|c x]; simpl; try done; lia. Qed.

End Strings.

Lemma trim_no_space s : all_chars (fun c => negb (is_space c)) s = true -> trim s = s.
Proof.
  intros Hs. assert (Hk : forall t, all_chars (fun c => negb (is_space c)) t = true -> skip_ws t = t).
  { intros [|c t]; simpl; [done|]. intros [Hc _]%andb_prop. apply negb_true_iff in Hc. by rewrite Hc. }
  unfold trim. rewrite (Hk s Hs), Hk; [apply string_rev_involutive|]. by rewrite all_chars_rev.
Qed.

(** ** Reading a rendering back *)

Lemma fmt_char_cases c :
  fmt_char c = true ->
  is_space c = false /\
  (Ascii.eqb c "x" || Ascii.eqb c "X" || Ascii.eqb c "o" || Ascii.eqb c "O" ||
   Ascii.eqb c "b" || Ascii.eqb c "B")%bool = false.
Proof. destruct c as [[] [] [] [] [] [] [] []]; vm_compute; try discriminate; done. Qed.

Lemma digit_fmt_char c : is_digit c = true -> fmt_char c = true.
Proof. unfold fmt_char. by intros ->. Qed.

Lemma digits_fmt s : all_chars is_digit s = true -> all_chars fmt_char s = true.
Proof. apply all_chars_impl, digit_fmt_char. Qed.

Lemma span_app p x y :
  all_chars p x = true ->
  match y with String c _ => p c = false | EmptyString => True end ->
  span p (String.append x y) = (x, y).
Proof.
  induction x as [|c x IH]; intros Hx Hy.
  - destruct y as [|c y]; simpl; [done|]. by rewrite Hy.
  - simpl in Hx |- *. apply andb_prop in Hx as [Hc Hx]. by rewrite Hc, IH.
Qed.

Lemma fmt_no_space t : all_chars fmt_char t = true -> all_chars (fun c => negb (is_space c)) t = true.
Proof. apply all_chars_impl. intros d Hd. by rewrite (proj1 (fmt_char_cases d Hd)). Qed.

(** A string of rendering characters that starts with a digit is read as
    a [StrUnsignedDecimalLiteral]. *)
Lemma js_string_to_number_unsigned c t :
  is_digit c = true -> all_chars fmt_char t = true ->
  js_string_to_number (String c t) = default NaN (parse_unsigned_decimal (String c t)).
Proof.
  intros Hc Ht. unfold js_string_to_number.
  rewrite trim_no_space by (apply fmt_no_space; simpl; by rewrite digit_fmt_char).
  cbn [String.eqb]. replace (parse_non_decimal (String c t)) with (@None number).
  - by destruct c as [[] [] [] [] [] [] [] []].
  - destruct t as [|c1 t]; [by destruct c as [[] [] [] [] [] [] [] []]|].
    simpl in Ht. apply andb_prop in Ht as [Hc1 _].
    pose proof (proj2 (fmt_char_cases c1 Hc1)) as Hn. rewrite !orb_false_iff in Hn.
    destruct Hn as (((((Hx & HX) & Ho) & HO) & Hb) & HB).
    destruct c as [[] [] [] [] [] [] [] []]; try done. simpl.
    by rewrite Hx, HX, Ho, HO, Hb, HB.
Qed.

Lemma parse_exponent_sign e :
  parse_exponent (String (if (0 <=? e)%Z then "+"%char else "-"%char) (digits_of (Z.abs e))) = Some e.
Proof.
  pose proof (digits_of_nonempty (Z.abs e)) as Hne.
  pose proof (digits_of_value (Z.abs e) ltac:(lia)) as Hv.
  unfold parse_exponent. destruct (0 <=? e)%Z eqn:He;
    destruct (digits_of (Z.abs e)) as [|c r] eqn:Hd; try done; rewrite Hv; simpl; f_equal;
    apply Z.leb_le in He || apply Z.leb_gt in He; lia.
Qed.

(** What [parse_unsigned_decimal] needs of the text after the digits:
    empty with exponent 0, or an [ExponentPart] with exponent [E]. *)
Lemma exponent_tail r E :
  (r = EmptyString /\ E = 0%Z) \/ r = exponent_part E ->
  match r with String c _ => is_digit c = false /\ c <> "."%char | EmptyString => True end /\
  match r with
  | EmptyString => Some 0%Z
  | String c r' => if Ascii.eqb c "e" || Ascii.eqb c "E" then parse_exponent r' else None
  end = Some E /\
  all_chars fmt_char r = true.
Proof.
  intros [[-> ->] | ->]; [done|]. unfold exponent_part.
  split_and!; try done; [apply parse_exponent_sign|].
  cbn [all_chars]. rewrite digits_fmt by apply digits_of_digits. by destruct (0 <=? E)%Z.
Qed.

Lemma eqb_infinity c a t : is_digit c = true -> String.eqb (String c a ++ t) "Infinity" = false.
Proof.
  intros Hc. change (String c a ++ t)%string with (String c (a ++ t)). pose proof (digit_not_special c Hc) as Hn. rewrite !orb_false_iff in Hn.
  destruct Hn as [_ HI]. simpl. by rewrite HI.
Qed.

Section Unsigned.
Variables (c : ascii) (a b r : string) (E m : Z).
Hypothesis Hc : is_digit c = true.
Hypothesis Ha : all_chars is_digit a = true.
Hypothesis Hr : (r = EmptyString /\ E = 0%Z) \/ r = exponent_part E.

(** Digits, a point, digits and the exponent tail. *)
Lemma unsigned_fraction :
  all_chars is_digit b = true -> digits_value 10 0 (String c a ++ b) = Some m ->
  all_chars fmt_char (a ++ String "." (b ++ r)) = true /\
  parse_unsigned_decimal (String c (a ++ String "." (b ++ r))) =
    Some (round_to_double (inject_Z m * inject_Z 10 ^ (E - Z.of_nat (String.length b)))).
Proof.
  intros Hb Hm. destruct (exponent_tail r E Hr) as (Hh & Hx & Hf). split.
  - by rewrite all_chars_app, digits_fmt; [cbn [all_chars]; rewrite all_chars_app, digits_fmt, Hf|..].
  - change (String c (a ++ String "." (b ++ r))) with (String c a ++ String "." (b ++ r))%string.
    unfold parse_unsigned_decimal. rewrite eqb_infinity by done.
    rewrite span_app by (simpl; rewrite ?Hc, ?Ha; done).
    rewrite span_app by (done || by destruct r as [|d r0]; [|apply Hh]).
    cbn [String.eqb andb]. by rewrite Hx, Hm.
Qed.

(** Digits and the exponent tail. *)
Lemma unsigned_exponent :
  digits_value 10 0 (String c a) = Some m ->
  all_chars fmt_char (a ++ r) = true /\
  parse_unsigned_decimal (String c (a ++ r)) = Some (round_to_double (inject_Z m * inject_Z 10 ^ E)).
Proof.
  intros Hm. destruct (exponent_tail r E Hr) as (Hh & Hx & Hf). split; [by rewrite all_chars_app, digits_fmt|].
  change (String c (a ++ r)) with (String c a ++ r)%string.
  unfold parse_unsigned_decimal. rewrite eqb_infinity by done.
  rewrite span_app by (simpl; rewrite ?Hc, ?Ha; done || by destruct r as [|d r0]; [|apply Hh]).
  replace (match r with String "." r' => span is_digit r' | _ => (EmptyString, r) end)
    with (EmptyString, r) by (destruct r as [|d r0]; [done|]; destruct Hh as [_ Hd];
                              by destruct d as [[] [] [] [] [] [] [] []]).
  cbn [String.eqb andb]. rewrite Hx, string_app_nil_r, Hm. simpl. by rewrite Z.sub_0_r.
Qed.
End Unsigned.

Lemma digits_of_cons s :
  exists c d, digits_of s = String c d /\ is_digit c = true /\ all_chars is_digit d = true.
Proof.
  pose proof (digits_of_digits s) as Hd. pose proof (digits_of_nonempty s).
  destruct (digits_of s) as [|c d]; [done|]. simpl in Hd. apply andb_prop in Hd as [? ?]. eauto.
Qed.

(** Every layout of [format_digits] is a digit followed by rendering
    characters, and parses as a [StrUnsignedDecimalLiteral] whose value
    is [s * 10^p], rounded. *)
Lemma format_digits_spec s p :
  (0 <= s)%Z ->
  exists c t n, format_digits s p = String c t /\ is_digit c = true /\ all_chars fmt_char t = true /\
    parse_unsigned_decimal (String c t) = Some n /\ n ≡ round_to_double (inject_Z s * inject_Z 10 ^ p).
Proof.
  intros Hs. pose proof (digits_of_value s Hs) as Hv.
  destruct (digits_of_cons s) as (c & d & Hds & Hc & Hd).
  unfold format_digits. rewrite Hds in Hv |- *. cbn [String.length].
  remember (String.length d) as l eqn:Hl. remember (p + Z.of_nat (S l))%Z as n eqn:Hn.
  destruct ((Z.of_nat (S l) <=? n) && (n <=? 21))%Z eqn:C1;
    [|destruct ((0 <? n) && (n <=? 21))%Z eqn:C2;
    [|destruct ((-6 <? n) && (n <=? 0))%Z eqn:C3; [|destruct (Z.of_nat (S l) =? 1)%Z eqn:C4]]];
    rewrite ?andb_true_iff, ?andb_false_iff, ?Z.leb_le, ?Z.leb_gt, ?Z.ltb_lt, ?Z.ltb_ge,
      ?Z.eqb_eq, ?Z.eqb_neq in *.
  - set (J := Z.to_nat (n - Z.of_nat (S l))).
    destruct (unsigned_exponent c (d ++ zeros J) "" 0 (s * 10 ^ Z.of_nat J)%Z Hc
                ltac:(by rewrite all_chars_app, Hd, zeros_digits) (or_introl (conj eq_refl eq_refl)))
      as [Hf Hp].
    { change (digits_value 10 0 (String c d ++ zeros J) = Some (s * 10 ^ Z.of_nat J)%Z).
      by rewrite digits_value_app, Hv, digits_value_zeros. }
    rewrite string_app_nil_r in Hf, Hp.
    eexists c, _, _. split_and!; [reflexivity|done|exact Hf|exact Hp|].
    apply round_to_double_proper. rewrite inject_Z_mult, Zpow_Q, Qpower_0_r, Qmult_1_r by lia.
    by replace (Z.of_nat J) with p by lia.
  - set (J := (Z.to_nat n - 1)%nat). replace (Z.to_nat n) with (S J) by lia. cbn [str_take str_drop].
    destruct (unsigned_fraction c (str_take J d) (str_drop J d) "" 0 s Hc (str_take_all_chars _ _ _ Hd)
                (or_introl (conj eq_refl eq_refl)) (str_drop_all_chars _ _ _ Hd)) as [Hf Hp].
    { change (digits_value 10 0 (String c (str_take J d ++ str_drop J d)) = Some s).
      by rewrite str_take_drop. }
    rewrite string_app_nil_r in Hf, Hp.
    eexists c, _, _. split_and!; [reflexivity|done|exact Hf|exact Hp|].
    apply round_to_double_proper. rewrite str_drop_length, <- Hl.
    by replace (0 - Z.of_nat (l - J))%Z with p by lia.
  - set (J := Z.to_nat (- n)).
    destruct (unsigned_fraction "0" "" (zeros J ++ String c d) "" 0 s eq_refl eq_refl
                (or_introl (conj eq_refl eq_refl))) as [Hf Hp].
    { rewrite all_chars_app, zeros_digits. cbn [all_chars]. by rewrite Hc, Hd. }
    { change (digits_value 10 0 (String "0" (zeros J ++ String c d)) = Some s).
      rewrite (digits_value_cons _ _ _ 0) by (reflexivity || lia).
      rewrite digits_value_app, digits_value_zeros.
      by replace ((0 * 10 + 0) * 10 ^ Z.of_nat J)%Z with 0%Z by lia. }
    rewrite string_app_nil_r in Hf, Hp.
    eexists "0"%char, _, _. split_and!; [reflexivity|done|exact Hf|exact Hp|].
    apply round_to_double_proper. rewrite string_length_app, zeros_length. cbn [String.length].
    rewrite <- Hl. by replace (0 - Z.of_nat (J + S l))%Z with p by lia.
  - destruct (unsigned_exponent c d (exponent_part (n - 1)) (n - 1) s Hc Hd (or_intror eq_refl) Hv)
      as [Hf Hp].
    eexists c, _, _. split_and!; [reflexivity|done|exact Hf|exact Hp|].
    apply round_to_double_proper. by replace (n - 1)%Z with p by lia.
  - cbn [str_take str_drop].
    destruct (unsigned_fraction c "" d (exponent_part (n - 1)) (n - 1) s Hc eq_refl (or_intror eq_refl) Hd Hv)
      as [Hf Hp].
    eexists c, _, _. split_and!; [reflexivity|done|exact Hf|exact Hp|].
    apply round_to_double_proper. rewrite <- Hl. by replace (n - 1 - Z.of_nat l)%Z with p by lia.
Qed.

Lemma format_digits_read s p :
  (0 <= s)%Z -> js_string_to_number (format_digits s p) ≡ round_to_double (inject_Z s * inject_Z 10 ^ p).
Proof.
  intros Hs. destruct (format_digits_spec s p Hs) as (c & t & n & -> & Hc & Hf & Hp & Hn).
  by rewrite js_string_to_number_unsigned, Hp.
Qed.

(** With a minus sign in front, the rendering reads back negated. *)
Lemma format_digits_read_neg s p :
  (0 <= s)%Z ->
  js_string_to_number (String "-" (format_digits s p)) ≡
    neg_number (round_to_double (inject_Z s * inject_Z 10 ^ p)).
Proof.
  intros Hs. destruct (format_digits_spec s p Hs) as (c & t & n & -> & Hc & Hf & Hp & Hn).
  unfold js_string_to_number. rewrite trim_no_space.
  - cbn [String.eqb parse_non_decimal parse_decimal]. rewrite Hp. simpl. by apply neg_number_proper.
  - cbn [all_chars]. rewrite fmt_no_space by done. by rewrite (proj1 (fmt_char_cases c (digit_fmt_char c Hc))).
Qed.

(** ** Rounding near a double *)

Lemma Qfloor_unique y z : inject_Z z <= y -> y < inject_Z z + 1 -> Qfloor y = z.
Proof.
  intros Hl Hu. pose proof (Qfloor_resp_le _ _ Hl) as H1. rewrite Qfloor_Z in H1.
  pose proof (Qfloor_le y) as H2.
  enough (Qfloor y < z + 1)%Z by lia. rewrite Zlt_Qlt, inject_Z_plus. change (inject_Z 1) with 1. lra.
Qed.

Lemma inject_Z_pred z : inject_Z (z - 1) == inject_Z z - 1.
Proof. unfold Qeq, Qminus, Qplus, inject_Z. simpl. lia. Qed.

(** A value less than half away from an integer rounds to it. *)
Lemma round_half_even_near y z : Qabs (y - inject_Z z) < 1 # 2 -> round_half_even y = z.
Proof.
  intros Hy. apply Qabs_Qlt_condition in Hy as [Hl Hu]. unfold round_half_even.
  destruct (Qlt_le_dec y (inject_Z z)) as [Hlt|Hle].
  - rewrite (Qfloor_unique y (z - 1)) by (rewrite inject_Z_pred; lra).
    rewrite (proj1 (Qgt_alt _ _)); [lia|]. rewrite inject_Z_pred. lra.
  - rewrite (Qfloor_unique y z) by lra. by rewrite (proj1 (Qlt_alt _ _)) by lra.
Qed.

Lemma double_lt_1024 x : is_double x -> x < inject_Z 2 ^ 1024.
Proof.
  intros (M & e & Hx & HM & He). rewrite Hx.
  apply (Qlt_le_trans _ (inject_Z (2 ^ 53) * inject_Z 2 ^ e)).
  - apply Qmult_lt_r; [apply Qpow2_pos|]. rewrite <- Zlt_Qlt. lia.
  - rewrite Qpow2_Z by lia. eapply Qle_trans; [apply (Qpow_plus_le 2 _ _ (53 + e)); lia|].
    apply Qpow2_le_mono. lia.
Qed.

(** A positive double is an integer multiple of its last place. *)
Lemma double_on_grid x :
  0 < x -> is_double x -> exists m, x == inject_Z m * inject_Z 2 ^ ulp_exponent x.
Proof.
  intros Hx (M & e & Hxe & HM & He1 & He2).
  pose proof (ulp_exponent_le x M e Hx Hxe HM He1) as HE.
  exists (M * 2 ^ (e - ulp_exponent x))%Z. by rewrite Qpow2_shift.
Qed.

(** [round_positive c] is [x] when [c] is within half a place of the
    grid point [z * 2^E] that is [x], [E] being the place [c] rounds at. *)
Lemma round_positive_at c x z E :
  ulp_exponent c = E -> Qabs (c / inject_Z 2 ^ E - inject_Z z) < 1 # 2 ->
  inject_Z z * inject_Z 2 ^ E == x -> x < inject_Z 2 ^ 1024 -> round_positive c ≡ Fin x.
Proof.
  intros HE Hc Hz Hx. unfold round_positive. cbv zeta. rewrite HE, (round_half_even_near _ _ Hc).
  destruct (Qle_bool _ _) eqn:Ho.
  - apply Qle_bool_iff in Ho. rewrite Hz in Ho. lra.
  - exact Hz.
Qed.

Section Near.
Variables (x c : Q) (m E L : Z).
Hypothesis Hx : 0 < x.
Hypothesis Hd : is_double x.
Hypothesis HE : E = ulp_exponent x.
Hypothesis HLx : L = qlog 2 x.
Hypothesis Hm : x == inject_Z m * inject_Z 2 ^ E.
Hypothesis Hc : Qabs (c - x) * inject_Z (2 ^ 54) < x.

Local Abbreviation P := (inject_Z 2 ^ E).
Local Abbreviation T := (2 ^ (L - E))%Z.
Local Abbreviation K := (inject_Z (2 ^ 54)).

Lemma near_bounds : inject_Z 2 ^ L <= x /\ x < inject_Z 2 ^ (L + 1).
Proof. subst L. apply qlog_spec; [lia|done]. Qed.

Lemma near_m_pos : (1 <= m)%Z.
Proof.
  destruct (Z_le_gt_dec 1 m) as [|Hm0]; [done|]. exfalso.
  assert (H0 : inject_Z m * P <= inject_Z 0 * P).
  { apply Qmult_le_r; [apply Qpow2_pos|rewrite <- Zle_Qle; lia]. }
  change (inject_Z 0) with 0 in H0. lra.
Qed.

Lemma near_E_le_L : (E <= L)%Z.
Proof.
  destruct near_bounds as [_ HU]. pose proof near_m_pos as Hm1.
  enough (E < L + 1)%Z by lia. apply Qpow2_lt_inv.
  apply (Qle_lt_trans _ x); [|exact HU]. rewrite Hm.
  rewrite <- (Qmult_1_l P) at 1. apply Qmult_le_r; [apply Qpow2_pos|].
  change 1 with (inject_Z 1). rewrite <- Zle_Qle. lia.
Qed.

Lemma near_pow_L : inject_Z 2 ^ L == inject_Z T * P.
Proof.
  pose proof (Qpow2_shift 1 L E near_E_le_L) as H. rewrite Z.mul_1_l in H.
  change (inject_Z 1) with 1 in H. rewrite H. ring.
Qed.

Lemma near_pow_L1 : inject_Z 2 ^ (L + 1) == inject_Z (2 * T) * P.
Proof.
  pose proof (Qpow2_shift 1 (L + 1) E ltac:(pose proof near_E_le_L; lia)) as H.
  replace (L + 1 - E)%Z with (Z.succ (L - E)) in H by lia.
  rewrite Z.mul_1_l, Z.pow_succ_r in H by (pose proof near_E_le_L; lia).
  change (inject_Z 1) with 1 in H. rewrite H. ring.
Qed.

(** The mantissa [m] of [x] lies in [[T, 2T)] with [T <= 2^52]. *)
Lemma near_mantissa : (T <= m < 2 * T)%Z /\ (0 < T <= 2 ^ 52)%Z.
Proof.
  destruct near_bounds as [HL HU]. pose proof near_E_le_L as HEL.
  rewrite near_pow_L, Hm in HL. rewrite near_pow_L1, Hm in HU.
  apply Qmult_le_r in HL; [|apply Qpow2_pos]. apply Qmult_lt_r in HU; [|apply Qpow2_pos].
  rewrite <- Zle_Qle in HL. rewrite <- Zlt_Qlt in HU.
  assert (L - E <= 52)%Z by (subst E L; unfold ulp_exponent; lia).
  split; [lia|]. split; [apply Z.pow_pos_nonneg; lia|apply Z.pow_le_mono_r; lia].
Qed.

Local Abbreviation Y := (c / inject_Z 2 ^ E).

Lemma near_c : c == Y * P.
Proof. field. apply Qnot_eq_sym, Qlt_not_eq, Qpow2_pos. Qed.

(** In units of the last place, [c] is within [m / 2^54] of [m]. *)
Lemma near_scaled : (Y - inject_Z m) * K < inject_Z m /\ (inject_Z m - Y) * K < inject_Z m.
Proof.
  assert (HK : 0 < K) by reflexivity.
  assert (H1 : (c - x) * K < x).
  { eapply Qle_lt_trans; [|exact Hc]. apply Qmult_le_r; [done|apply Qle_Qabs]. }
  assert (H2 : (x - c) * K < x).
  { eapply Qle_lt_trans; [|exact Hc]. apply Qmult_le_r; [done|].
    rewrite <- Qabs_opp. assert (Ho : - (c - x) == x - c) by ring. rewrite Ho. apply Qle_Qabs. }
  rewrite near_c, Hm in H1, H2.
  assert (E1 : (Y * P - inject_Z m * P) * K == (Y - inject_Z m) * K * P) by ring.
  assert (E2 : (inject_Z m * P - Y * P) * K == (inject_Z m - Y) * K * P) by ring.
  rewrite E1 in H1. rewrite E2 in H2.
  apply Qmult_lt_r in H1, H2; try apply Qpow2_pos. done.
Qed.

Lemma near_half : Qabs (Y - inject_Z m) < 1 # 2.
Proof.
  destruct near_scaled as [H1 H2]. destruct near_mantissa as [[_ HmT] [_ HT]].
  assert (Hm53 : inject_Z m < 9007199254740992) by (change 9007199254740992 with (inject_Z (2 ^ 53)); rewrite <- Zlt_Qlt; lia).
  change K with 18014398509481984 in H1, H2. apply Qabs_Qlt_condition. lra.
Qed.

Lemma near_pow_pred z : inject_Z 2 ^ z == inject_Z 2 ^ (z - 1) * 2.
Proof.
  pose proof (Qpow_plus 2 (z - 1) 1 ltac:(lia)) as H. replace (z - 1 + 1)%Z with z in H by lia.
  exact H.
Qed.

(** Within [x / 2^54] of [x], the place of [c] is that of [x], and [c]
    rounds to [x]; or [x] is [2^52] places, the least of its binade, and
    [c] below it has the next smaller place and rounds up to [x]. *)
Lemma near_round : round_positive c ≡ Fin x.
Proof.
  pose proof (double_lt_1024 x Hd) as Hmax. pose proof near_c as Hcy. pose proof near_E_le_L as HEL.
  destruct near_scaled as [H1 H2]. destruct near_mantissa as [[HTm HmT] [HT0 HT52]].
  assert (Hsame : ulp_exponent c = E -> round_positive c ≡ Fin x).
  { intros Hc'. apply (round_positive_at c x m E Hc' near_half); [by rewrite Hm|exact Hmax]. }
  change K with 18014398509481984 in H1, H2.
  rewrite Zle_Qle in HTm. rewrite Zlt_Qlt in HmT.
  destruct (Qlt_le_dec Y (inject_Z T)) as [Hlow|Hhigh].
  - assert (Hqc : qlog 2 c = (L - 1)%Z).
    { apply qlog_unique; [lia| |].
      + assert (inject_Z T * P <= (2 * Y) * P) by (apply Qmult_le_r; [apply Qpow2_pos|lra]).
        pose proof (near_pow_pred L). pose proof near_pow_L. lra.
      + replace (L - 1 + 1)%Z with L by lia. rewrite near_pow_L, Hcy.
        apply Qmult_lt_r; [apply Qpow2_pos|exact Hlow]. }
    destruct (Z.eq_dec (ulp_exponent c) E) as [Hs|Hs]; [by apply Hsame|].
    assert (HEc : ulp_exponent c = (E - 1)%Z /\ E = (L - 52)%Z).
    { unfold ulp_exponent in Hs |- *. rewrite Hqc in Hs |- *. subst E L. unfold ulp_exponent in *. lia. }
    destruct HEc as [HEc HEL52]. replace (L - E)%Z with 52%Z in * by lia.
    change (inject_Z (2 ^ 52)) with 4503599627370496 in *.
    assert (Hm52 : m = (2 ^ 52)%Z).
    { apply Z.le_antisymm.
      - enough (m < 2 ^ 52 + 1)%Z by lia. rewrite Zlt_Qlt.
        change (inject_Z (2 ^ 52 + 1)) with 4503599627370497. lra.
      - rewrite Zle_Qle. change (inject_Z (2 ^ 52)) with 4503599627370496. lra. }
    subst m. pose proof (near_pow_pred E) as HP.
    apply (round_positive_at c x (2 ^ 53) (E - 1)); [done| | |exact Hmax].
    + assert (H2Y : c / inject_Z 2 ^ (E - 1) == 2 * Y).
      { rewrite HP. field. apply Qnot_eq_sym, Qlt_not_eq, Qpow2_pos. }
      rewrite H2Y. change (inject_Z (2 ^ 53)) with 9007199254740992.
      change (inject_Z (2 ^ 52)) with 4503599627370496 in H2. apply Qabs_Qlt_condition. lra.
    + rewrite Hm, HP. change (inject_Z (2 ^ 53)) with 9007199254740992.
      change (inject_Z (2 ^ 52)) with 4503599627370496. ring.
  - apply Hsame. unfold ulp_exponent. rewrite (qlog_unique 2 c L); [by subst E L|lia| |].
    + rewrite near_pow_L, Hcy. apply Qmult_le_r; [apply Qpow2_pos|exact Hhigh].
    + rewrite near_pow_L1, Hcy. apply Qmult_lt_r; [apply Qpow2_pos|].
      assert (inject_Z m <= inject_Z (2 * T) - 1) by (rewrite <- inject_Z_pred, <- Zle_Qle, <- Zlt_Qlt in *; lia).
      assert (inject_Z m < 9007199254740992).
      { change 9007199254740992 with (inject_Z (2 ^ 53)). rewrite <- Zlt_Qlt in *. lia. }
      lra.
Qed.
End Near.

(** Every rational within [x / 2^54] of a positive double [x] rounds to it. *)
Lemma round_to_double_near x c :
  0 < x -> is_double x -> Qabs (c - x) * inject_Z (2 ^ 54) < x -> round_to_double c ≡ Fin x.
Proof.
  intros Hx Hd Hc. destruct (double_on_grid x Hx Hd) as [m Hm].
  assert (Hc0 : 0 < c).
  { pose proof (Qle_Qabs (x - c)) as H. rewrite <- Qabs_opp in H.
    assert (Ho : - (x - c) == c - x) by ring. rewrite Ho in H.
    change (inject_Z (2 ^ 54)) with 18014398509481984 in Hc. lra. }
  unfold round_to_double. rewrite (proj1 (Qgt_alt c 0) Hc0).
  exact (near_round x c m _ _ Hx Hd eq_refl eq_refl Hm Hc).
Qed.

(** ** The digit search *)

Lemma rounds_to_iff y x : rounds_to y x = true <-> round_to_double y ≡ Fin x.
Proof.
  unfold rounds_to. destruct (round_to_double y); cbv [equiv number_equiv_inst number_equiv];
    [done..|apply Qeq_bool_iff].
Qed.

Lemma candidate_digits_valid x k :
  let u := inject_Z 10 ^ (dec_exponent x - k) in
  rounds_to (inject_Z (Qfloor (x / u)) * u) x || rounds_to (inject_Z (Qfloor (x / u) + 1) * u) x = true ->
  candidate_digits x k <> None.
Proof.
  cbv zeta. unfold candidate_digits. intros H.
  destruct (rounds_to _ x), (rounds_to _ x); simpl in *; try done. repeat case_match; done.
Qed.

(** What a candidate is: a non-negative [s] whose [s * 10^(n-k)] reads
    back as [x]. *)
Lemma candidate_digits_spec x k s :
  0 < x -> candidate_digits x k = Some s ->
  (0 <= s)%Z /\ rounds_to (inject_Z s * inject_Z 10 ^ (dec_exponent x - k)) x = true.
Proof.
  intros Hx. unfold candidate_digits.
  set (u := inject_Z 10 ^ (dec_exponent x - k)). set (lo := Qfloor (x / u)).
  assert (Hlo : (0 <= lo)%Z).
  { change 0%Z with (Qfloor 0). apply Qfloor_resp_le, Qle_shift_div_l; [apply Qpow_pos; lia|lra]. }
  destruct (rounds_to (inject_Z lo * u) x) eqn:Vl, (rounds_to (inject_Z (lo + 1) * u) x) eqn:Vh;
    simpl; try done; repeat case_match; intros [= <-]; split; done || lia.
Qed.

(** The search returns the first candidate, with its exponent. *)
Lemma digit_search_spec fuel k x s p :
  0 < x -> digit_search fuel k x = Some (s, p) ->
  (0 <= s)%Z /\ rounds_to (inject_Z s * inject_Z 10 ^ p) x = true.
Proof.
  intros Hx. revert k. induction fuel as [|f IH]; intros k; simpl; [done|].
  destruct (candidate_digits x k) as [s'|] eqn:Hc; [|apply IH].
  intros [= <- <-]. by apply candidate_digits_spec in Hc.
Qed.

(** Seventeen digits always read back: the nearer of the two 17-digit
    candidates is within half a unit [u <= x / 10^16] of [x], and
    [2^53 < 10^16]. *)
Lemma candidate_digits_17 x : 0 < x -> is_double x -> candidate_digits x 17 <> None.
Proof.
  intros Hx Hd. apply candidate_digits_valid. cbv zeta.
  set (u := inject_Z 10 ^ (dec_exponent x - 17)). set (lo := Qfloor (x / u)).
  assert (Hu : 0 < u) by (apply Qpow_pos; lia).
  assert (Hu16 : u * 10000000000000000 <= x).
  { destruct (qlog_spec 10 x ltac:(lia) Hx) as [Hl _]. eapply Qle_trans; [|exact Hl].
    unfold u, dec_exponent. pose proof (Qpow_plus 10 (qlog 10 x + 1 - 17) 16 ltac:(lia)) as H.
    replace (qlog 10 x + 1 - 17 + 16)%Z with (qlog 10 x) in H by lia. rewrite H. apply Qle_refl. }
  assert (Hxu : x / u * u == x) by (field; apply Qnot_eq_sym, Qlt_not_eq, Hu).
  assert (Hlo : inject_Z lo * u <= x).
  { rewrite <- Hxu. apply Qmult_le_compat_r; [apply Qfloor_le|lra]. }
  assert (Hhi : x < inject_Z (lo + 1) * u).
  { rewrite <- Hxu. apply Qmult_lt_r; [done|apply Qlt_floor]. }
  rewrite inject_Z_plus in Hhi |- *. change (inject_Z 1) with 1 in Hhi |- *.
  apply orb_true_iff. rewrite !rounds_to_iff.
  assert (Hw : (inject_Z lo + 1) * u == inject_Z lo * u + u) by ring. rewrite Hw in Hhi |- *.
  set (w := inject_Z lo * u) in *.
  destruct (Qlt_le_dec ((x - w) * 2) u) as [Hn|Hn]; [left|right];
    apply round_to_double_near; try done; apply (Qle_lt_trans _ (u * 9007199254740992)); try lra;
    change (inject_Z (2 ^ 54)) with 18014398509481984.
  - rewrite Qabs_neg by lra. lra.
  - rewrite Qabs_pos by lra. lra.
Qed.

Lemma digit_search_some f k x :
  0 < x -> is_double x -> (k + Z.of_nat f = 17)%Z -> digit_search (S f) k x <> None.
Proof.
  intros Hx Hd. revert k. induction f as [|f IH]; intros k Hk; cbn [digit_search].
  - replace k with 17%Z by lia. destruct (candidate_digits x 17) eqn:Hc; [done|].
    by apply candidate_digits_17 in Hc.
  - destruct (candidate_digits x k); [done|]. apply IH. lia.
Qed.

(** Moving trailing zeros into the exponent keeps the value. *)
Lemma strip_zeros_spec f s p :
  (0 <= s)%Z ->
  let '(s', p') := strip_zeros f s p in
  (0 <= s')%Z /\ inject_Z s' * inject_Z 10 ^ p' == inject_Z s * inject_Z 10 ^ p.
Proof.
  revert s p. induction f as [|f IH]; intros s p Hs; simpl; [done|].
  destruct ((s mod 10 =? 0) && (0 <? s))%Z eqn:E; [|done].
  apply andb_true_iff in E as [E1 E2]. rewrite Z.eqb_eq in E1. rewrite Z.ltb_lt in E2.
  specialize (IH (s / 10)%Z (p + 1)%Z ltac:(apply Z.div_pos; lia)).
  destruct (strip_zeros f (s / 10) (p + 1)) as [s' p']. destruct IH as [H1 H2]. split; [done|].
  rewrite H2, Qpow_plus by lia.
  assert (Hq : inject_Z s == inject_Z (s / 10) * inject_Z 10).
  { rewrite <- inject_Z_mult. pose proof (Z_div_mod_eq_full s 10) as Hd.
    by replace (s / 10 * 10)%Z with s by lia. }
  rewrite Hq. change (inject_Z 10 ^ 1) with (inject_Z 10). ring.
Qed.

(** The digits [positive_to_string] lays out read back as [x]. *)
Lemma positive_to_string_spec x :
  0 < x -> is_double x ->
  exists s p, (0 <= s)%Z /\ positive_to_string x = format_digits s p /\
              round_to_double (inject_Z s * inject_Z 10 ^ p) ≡ Fin x.
Proof.
  intros Hx Hd. pose proof (digit_search_some 16 1 x Hx Hd eq_refl) as Hs.
  unfold positive_to_string. destruct (digit_search 17 1 x) as [[s p]|] eqn:Hsp; [|done].
  destruct (digit_search_spec _ _ _ _ _ Hx Hsp) as [Hs0 Hr].
  pose proof (strip_zeros_spec 17 s p Hs0) as Hz.
  destruct (strip_zeros 17 s p) as [s' p']. destruct Hz as [Hs' Heq].
  exists s', p'. split_and!; [done|done|]. rewrite Heq. by apply rounds_to_iff.
Qed.

Lemma positive_to_string_read x :
  0 < x -> is_double x -> js_string_to_number (positive_to_string x) ≡ Fin x.
Proof.
  intros Hx Hd. destruct (positive_to_string_spec x Hx Hd) as (s & p & Hs & -> & Hr).
  by rewrite format_digits_read.
Qed.

Lemma positive_to_string_read_neg x :
  0 < x -> is_double x -> js_string_to_number (String "-" (positive_to_string x)) ≡ Fin (- x).
Proof.
  intros Hx Hd. destruct (positive_to_string_spec x Hx Hd) as (s & p & Hs & -> & Hr).
  rewrite format_digits_read_neg, Hr by done. reflexivity.
Qed.

(** Every non-zero double reads back from its rendering. *)
Lemma js_number_to_string_read_nonzero q :
  is_double q -> ~ q == 0 -> js_string_to_number (js_number_to_string (Fin q)) ≡ Fin q.
Proof.
  intros Hd Hq. unfold js_number_to_string. destruct (q ?= 0) eqn:Hc.
  - by apply Qeq_alt in Hc.
  - apply Qlt_alt in Hc. rewrite positive_to_string_read_neg by (lra || by apply is_double_opp).
    cbv [equiv number_equiv_inst number_equiv]. ring.
  - apply Qgt_alt in Hc. by apply positive_to_string_read.
Qed.

(** ** Properties *)

Section EngineNumbers.
Context `{JsCoercion}.
Hypothesis string_to_number_engine : forall s, string_to_number s = js_string_to_number s.
Hypothesis number_to_string_engine : forall n, number_to_string n = js_number_to_string n.

(** C33: with the engine's conversions, a detection whose confidence is
    sent as a one-element array [[x]] records [x] itself: [Number([x])]
    joins the array to the string of [x] and reads it back (line 81). *)
Theorem record_detection_array_confidence now lt body alerts q :
  get_prop body "confidence" = Some (JArr [JNum (Fin q)]) -> is_double q -> ~ q == 0 ->
  exists a, record_detection now lt body alerts = Normal (a :: alerts) /\ alert_confidence a ≡ Fin q.
Proof.
  intros Hb Hd Hq. unfold record_detection. rewrite Hb. cbn [to_number json_to_string map join_comma].
  rewrite number_to_string_engine, string_to_number_engine.
  pose proof (js_number_to_string_read_nonzero q Hd Hq) as Hn.
  eexists. split; [reflexivity|]. simpl. rewrite Hn. simpl.
  destruct (Qeq_bool q 0) eqn:E; [apply Qeq_bool_iff in E; done|]. done.
Qed.
End EngineNumbers.

(** ** Witnesses *)

Lemma record_detection_array_confidence_witness :
  exists a, record_detection (H := engine_coercion) 1700000000000 "10:00:00 AM"
              (Some (JObj [("confidence"%string, JArr [JNum (Fin (1 # 2))])])) [] = Normal [a] /\
            alert_confidence a ≡ Fin (1 # 2).
Proof.
  apply (record_detection_array_confidence (H := engine_coercion) (fun s => eq_refl) (fun n => eq_refl)).
  - reflexivity.
  - exists 1%Z, (-1)%Z. split_and!; [reflexivity|lia..].
  - vm_compute. discriminate.
Defined.
