(* ===== verification/Server.v ===== *)
(** * The server: state, middleware chain, handlers and steps

    The three stores of [src/smart-farm-backend/index.js] (lines 26-36) form
    [state].  A request goes through [cors()] (line 9, which answers every
    [OPTIONS] preflight with 204), [express.json()] (line 10, which answers
    400 to a body it cannot parse), the router (the nine [app.get],
    [app.post] and [app.put] of lines 38-130, first match wins, [HEAD]
    served by the [GET] routes) and the final 404 handler.  A handler that
    throws is answered 500 by Express's default error handler, and so is a
    multer failure on the upload route.  [step] is one request, run to
    completion: the process is single threaded and no handler yields;
    [run] is a sequence of requests, each with its clock, and the
    theorems on sequences ([run_ids_unique], [run_alert_log]) are proved
    by induction on it. *)

From stdpp Require Import base tactics list strings.
From Stdlib Require Import QArith Lqa String Ascii NArith.
From S2P Require Import Prelude JsNumber Json Naming Catalog Settings Alerts.

Local Open Scope string_scope.

Record state : Type := mk_state {
  alerts : list alert;
  sounds : list sound;
  settings : settings
}.

Definition initial_state : state := mk_state [] initial_sounds initial_settings.

Inductive http_method : Type := GET | HEAD | POST | PUT | DELETE | PATCH | OPTIONS.

(** What [express.json()] made of the body: no JSON body ([req.body] is
    [undefined], or [{}] with Express 4: the handlers treat both alike),
    a parsed value, or a body it rejects. *)
Inductive body_input : Type :=
  | NoJsonBody
  | JsonBody (v : json)
  | MalformedJson.

(** What [upload.single("file")] did on the upload route: no file part,
    a file stored at multer's [Date.now()] = [t], or a failure (an
    unexpected field, a disk error). *)
Inductive multer_outcome : Type :=
  | NoFile
  | FileStored (t : N) (originalname : string)
  | MulterFailed.

Record request : Type := mk_request {
  req_method : http_method;
  req_path : string;
  req_body : body_input;
  req_upload : multer_outcome
}.

(** Per request, the clock: [Date.now()] and
    [new Date().toLocaleTimeString()] as the handler reads them. *)
Record env : Type := mk_env {
  date_now : N;
  locale_time : string
}.

Inductive response_body : Type :=
  | RText (s : string)     (* res.send(string) *)
  | RJson (v : json)       (* res.json(value), after JSON.stringify *)
  | RErrorPage             (* an error page of Express *)
  | REmpty.                (* no body *)

Record response : Type := mk_response {
  res_status : N;
  res_body : response_body
}.

Definition json_response (status : N) (v : json) : response :=
  mk_response status (RJson (serialize v)).

(** ** Rendering of the stores *)

Definition source_to_json (k : source_kind) : json :=
  match k with BuiltIn => JStr "built-in" | Uploaded => JStr "uploaded" end.

Definition sound_to_json (snd : sound) : json :=
  JObj ([("id", JStr (sound_id snd)); ("name", JStr (sound_name snd))] ++
        match sound_filename snd with Some f => [("filename", JStr f)] | None => [] end ++
        [("source", source_to_json (sound_source snd))]).

Definition alert_to_json (a : alert) : json :=
  JObj [("id", JStr (alert_id a)); ("time", alert_time a);
        ("confidence", JNum (alert_confidence a))].

Definition settings_to_json (st : Settings.settings) : json :=
  JObj [("confidenceThreshold", JNum (confidenceThreshold st));
        ("autoSound", JBool (autoSound st)); ("pushAlerts", JBool (pushAlerts st));
        ("volume", JNum (volume st)); ("selectedSoundId", JStr (selectedSoundId st))].

(** ** Routing *)

Inductive endpoint : Type :=
  | EpRoot | EpAlerts | EpSounds | EpUpload | EpSelect
  | EpDetection | EpCommand | EpGetSettings | EpPutSettings.

(** The routes in registration order. *)
Definition routes : list (http_method * string * endpoint) :=
  [(GET, "/", EpRoot); (GET, "/alerts", EpAlerts); (GET, "/sounds", EpSounds);
   (POST, "/sounds/upload", EpUpload); (POST, "/sounds/select", EpSelect);
   (POST, "/device/detection", EpDetection); (POST, "/device/command", EpCommand);
   (GET, "/settings", EpGetSettings); (PUT, "/settings", EpPutSettings)].

Definition lower_ascii (c : ascii) : ascii :=
  if (("A" <=? c)%char && (c <=? "Z")%char) then ascii_of_nat (nat_of_ascii c + 32) else c.

Fixpoint lower (s : string) : string :=
  match s with
  | EmptyString => EmptyString
  | String c r => String (lower_ascii c) (lower r)
  end.

(** The path pattern Express compiles for a route ([path-to-regexp],
    options [sensitive: false] and [strict: false]): case-insensitive, with
    an optional trailing slash. *)
Definition path_matches (route_path p : string) : bool :=
  String.eqb (lower p) route_path || String.eqb (lower p) (route_path ++ "/") ||
  String.eqb (lower p ++ "/") route_path.

Definition method_matches (route_m m : http_method) : bool :=
  match route_m, m with
  | GET, (GET | HEAD) | POST, POST | PUT, PUT => true
  | _, _ => false
  end.

Fixpoint find_route (rs : list (http_method * string * endpoint)) (m : http_method) (p : string)
    : option endpoint :=
  match rs with
  | [] => None
  | (rm, rp, ep) :: rest =>
      if method_matches rm m && path_matches rp p then Some ep else find_route rest m p
  end.

Definition route (m : http_method) (p : string) : option endpoint := find_route routes m p.

Section Handlers.
Context `{JsCoercion}.

Definition req_json (req : request) : option json :=
  match req_body req with JsonBody v => Some v | _ => None end.

Definition with_sounds_settings (s : state) (snds : list sound) (st : Settings.settings) : state :=
  mk_state (alerts s) snds st.

(** [POST /sounds/upload], after multer (lines 50-65). *)
Definition upload_handler (e : env) (file : option uploaded_file) (s : state)
    : state * response :=
  match file with
  | None => (s, json_response 400 (JObj [("error", JStr "No file uploaded")]))
  | Some f =>
      let snd := uploaded_sound (date_now e) f in
      (with_sounds_settings s (sounds_push (sounds s) snd)
         (set_selectedSoundId (sound_id snd) (settings s)),
       json_response 200 (JObj [("status", JStr "uploaded"); ("sound", sound_to_json snd);
                                ("selectedSoundId", JStr (sound_id snd))]))
  end.

(** [POST /sounds/select] (lines 67-77). *)
Definition select_handler (body : option json) (s : state) : state * response :=
  match select_sound (sounds s) body (settings s) with
  | (st', Selected i) =>
      (with_sounds_settings s (sounds s) st',
       json_response 200 (JObj [("status", JStr "selected"); ("selectedSoundId", JStr i)]))
  | (_, SoundNotFound) =>
      (s, json_response 404 (JObj [("error", JStr "Sound not found")]))
  end.

(** [POST /device/detection] (lines 79-89). *)
Definition detection_handler (e : env) (body : option json) (s : state) : state * response :=
  match record_detection (date_now e) (locale_time e) body (alerts s) with
  | Normal al =>
      (mk_state al (sounds s) (settings s),
       json_response 200 (JObj [("status", JStr "received")]))
  | ThrowTypeError => (s, mk_response 500 RErrorPage)
  end.

(** [PUT /settings] (lines 100-130). *)
Definition put_settings_handler (body : option json) (s : state) : state * response :=
  let st' := update_settings (sounds s) body (settings s) in
  (with_sounds_settings s (sounds s) st',
   json_response 200 (JObj [("status", JStr "updated"); ("settings", settings_to_json st')])).

Definition handle (e : env) (ep : endpoint) (req : request) (s : state) : state * response :=
  match ep with
  | EpRoot => (s, mk_response 200 (RText "Smart Farm Cloud API is running"))
  | EpAlerts => (s, json_response 200 (JObj [("alerts", JArr (map alert_to_json (alerts s)))]))
  | EpSounds =>
      (s, json_response 200 (JObj [("sounds", JArr (map sound_to_json (sounds s)));
                                   ("selectedSoundId", JStr (selectedSoundId (settings s)))]))
  | EpUpload =>
      match req_upload req with
      | MulterFailed => (s, mk_response 500 RErrorPage)
      | NoFile => upload_handler e None s
      | FileStored t name =>
          upload_handler e (Some (mk_uploaded_file name (multer_filename t name))) s
      end
  | EpSelect => select_handler (req_json req) s
  | EpDetection => detection_handler e (req_json req) s
  | EpCommand => (s, json_response 200 (JObj [("status", JStr "command sent")]))
  | EpGetSettings => (s, json_response 200 (JObj [("settings", settings_to_json (settings s))]))
  | EpPutSettings => put_settings_handler (req_json req) s
  end.

(** Node sends no body in answer to [HEAD]; the [GET] routes serve it. *)
Definition strip_head (m : http_method) (r : state * response) : state * response :=
  match m with
  | HEAD => (r.1, mk_response (res_status r.2) REmpty)
  | _ => r
  end.

(** One request through the middleware chain and the router. *)
Definition step (e : env) (req : request) (s : state) : state * response :=
  match req_method req with
  | OPTIONS => (s, mk_response 204 REmpty)
  | m =>
      strip_head m
        match req_body req with
        | MalformedJson => (s, mk_response 400 RErrorPage)
        | _ =>
            match route m (req_path req) with
            | None => (s, mk_response 404 RErrorPage)
            | Some ep => handle e ep req s
            end
        end
  end.
End Handlers.

(** ** Invariant of the stores *)

(** An entry added by an upload: source ["uploaded"], a file name, and
    an id that is a rendered timestamp. *)
Definition uploaded_entry (snd : sound) : Prop :=
  sound_source snd = Uploaded /\ is_Some (sound_filename snd) /\
  exists t, sound_id snd = date_string t.

(** The catalog starts with the built-in sound and every other entry is
    an uploaded one; the settings are well formed against the catalog. *)
Definition state_wf (s : state) : Prop :=
  settings_wf (sounds s) (settings s) /\
  exists rest, sounds s = default_sound :: rest /\ Forall uploaded_entry rest.

(** Requests as [express.json()] delivers them: a parsed body carries no
    [NaN]. *)
Definition request_wf (req : request) : Prop :=
  match req_body req with JsonBody v => json_parsed v = true | _ => True end.

Section Reachability.
Context `{JsCoercion}.

Inductive reachable : state -> Prop :=
  | reachable_init : reachable initial_state
  | reachable_step e req s :
      request_wf req -> reachable s -> reachable (step e req s).1.

Lemma request_wf_body req : request_wf req -> body_parsed (req_json req) = true.
Proof. unfold request_wf, req_json. by destruct (req_body req). Qed.

Lemma initial_state_wf : state_wf initial_state.
Proof.
  split.
  - split_and!; simpl; try lra; done.
  - exists []. split; [done|]. constructor.
Qed.

Lemma upload_handler_wf e file s : state_wf s -> state_wf (upload_handler e file s).1.
Proof.
  intros [(Hc & Hv & Hs) (rest & Hsnd & Hall)]. destruct file as [f|]; simpl; [|by split; eauto].
  split.
  - split_and!; [done|done|]. cbn [upload_handler fst with_sounds_settings sounds settings].
    rewrite sounds_some_push. apply orb_true_intro.
    first [left; exact Hs | right; apply String.eqb_refl].
  - exists (rest ++ [uploaded_sound (date_now e) f])%list. rewrite Hsnd. split; [done|].
    apply Forall_app. split; [done|]. repeat constructor; by eexists.
Qed.

Lemma select_handler_wf body s : state_wf s -> state_wf (select_handler body s).1.
Proof.
  intros [Hwf Hsnd]. unfold select_handler.
  pose proof (select_sound_wf (sounds s) body (settings s) Hwf) as Hw.
  destruct (select_sound _ _ _) as [st' []]; simpl in *; by split.
Qed.

Lemma detection_handler_wf e body s : state_wf s -> state_wf (detection_handler e body s).1.
Proof. unfold detection_handler. by destruct (record_detection _ _ _ _). Qed.

Lemma handle_wf e ep req s :
  request_wf req -> state_wf s -> state_wf (handle e ep req s).1.
Proof.
  intros Hreq Hs. destruct ep; unfold handle; try done.
  - destruct (req_upload req); [apply upload_handler_wf..|]; done.
  - by apply select_handler_wf.
  - by apply detection_handler_wf.
  - destruct Hs as [Hwf Hsnd]. split; [|done]. simpl.
    apply update_settings_wf; [by apply request_wf_body|done].
Qed.

Lemma step_wf e req s : request_wf req -> state_wf s -> state_wf (step e req s).1.
Proof.
  intros Hreq Hs. unfold step.
  destruct (req_method req); try done;
    destruct (req_body req); try done;
    destruct (route _ _); try done; by apply handle_wf.
Qed.

Lemma reachable_wf s : reachable s -> state_wf s.
Proof.
  induction 1 as [|e req s Hreq _ IH].
  - apply initial_state_wf.
  - by apply step_wf.
Qed.

(** C1: every state the server can reach from its startup state, by any
    sequence of requests, is well formed: the selected sound id names a
    sound of the catalog, the confidence threshold lies in [[0,1]], the
    volume in [[0,100]], and the catalog is the built-in sound followed
    by uploaded sounds that all carry a file name and a timestamp id. *)
Theorem reachable_state_wf s : reachable s -> state_wf s.
Proof. apply reachable_wf. Qed.
End Reachability.

#[export] Hint Constructors reachable : farm.

(** ** Behaviour of one step *)

(** The handler the middleware chain hands a request to, if any. *)
Definition dispatch (req : request) : option endpoint :=
  match req_method req, req_body req with
  | OPTIONS, _ | _, MalformedJson => None
  | m, _ => route m (req_path req)
  end.

Section StepBehaviour.
Context `{JsCoercion}.

Lemma step_dispatch e req s ep :
  dispatch req = Some ep -> step e req s = strip_head (req_method req) (handle e ep req s).
Proof.
  unfold dispatch, step. intros Hd.
  destruct (req_method req); destruct (req_body req); try done; by rewrite Hd.
Qed.

Lemma step_no_dispatch e req s : dispatch req = None -> (step e req s).1 = s.
Proof.
  unfold dispatch, step. intros Hd.
  destruct (req_method req); destruct (req_body req); try done; by rewrite Hd.
Qed.

Lemma step_post e req s ep :
  req_method req = POST -> dispatch req = Some ep -> step e req s = handle e ep req s.
Proof. intros Hm Hd. rewrite (step_dispatch e req s ep Hd), Hm. done. Qed.

(** C3: [POST /sounds/select] with a [soundId] naming a sound of the
    catalog answers 200 [{ status: "selected", selectedSoundId }] and
    makes that sound the selected one; nothing else changes. *)
Theorem step_select_known e req s i :
  req_method req = POST -> dispatch req = Some EpSelect ->
  get_prop (Some (body_or_empty (req_json req))) "soundId" = Some (JStr i) ->
  i ∈ sound_ids (sounds s) ->
  step e req s =
    (mk_state (alerts s) (sounds s) (set_selectedSoundId i (settings s)),
     json_response 200 (JObj [("status", JStr "selected"); ("selectedSoundId", JStr i)])).
Proof.
  intros Hm Hd Hg Hi. rewrite (step_post e req s EpSelect Hm Hd). simpl.
  unfold select_handler.
  rewrite (select_sound_found (C:=list sound) (sounds s) (req_json req) (settings s) i);
    [done|done|]. apply sounds_some_spec. eauto.
Qed.

(** C4: [POST /sounds/select] with a [soundId] that names no sound (or
    is not a string) answers 404 [{ error: "Sound not found" }] and
    leaves the state unchanged. *)
Theorem step_select_unknown e req s :
  req_method req = POST -> dispatch req = Some EpSelect ->
  (forall i, get_prop (Some (body_or_empty (req_json req))) "soundId" = Some (JStr i) ->
             i ∉ sound_ids (sounds s)) ->
  step e req s = (s, json_response 404 (JObj [("error", JStr "Sound not found")])).
Proof.
  intros Hm Hd Hn. rewrite (step_post e req s EpSelect Hm Hd). simpl.
  unfold select_handler. rewrite (select_sound_unknown (C:=list sound)); [done|].
  apply not_true_iff_false. simpl. rewrite sounds_some_spec.
  intros (i & Hg & Hi). by apply (Hn i).
Qed.

(** C5: a stored upload appends exactly one sound to the catalog, with
    id [String(Date.now())], the client's name, multer's file name and
    source ["uploaded"], selects it, answers 200 with the new sound, and
    changes neither the alerts nor the other settings. *)
Theorem step_upload_stored e req s t name :
  req_method req = POST -> dispatch req = Some EpUpload -> req_upload req = FileStored t name ->
  let snd := mk_sound (date_string (date_now e)) name (Some (multer_filename t name)) Uploaded in
  step e req s =
    (mk_state (alerts s) (sounds s ++ [snd])%list
              (set_selectedSoundId (date_string (date_now e)) (settings s)),
     json_response 200 (JObj [("status", JStr "uploaded"); ("sound", sound_to_json snd);
                              ("selectedSoundId", JStr (date_string (date_now e)))])) /\
  length (sounds (step e req s).1) = S (length (sounds s)).
Proof.
  intros Hm Hd Hu snd. rewrite (step_post e req s EpUpload Hm Hd). simpl. rewrite Hu.
  split; [done|]. cbn [fst sounds with_sounds_settings]. unfold sounds_push.
  rewrite length_app. simpl. lia.
Qed.

(** C6: an upload request without a file answers 400
    [{ error: "No file uploaded" }], and one where multer fails answers
    500; in both cases neither the catalog nor the settings nor the
    alerts change. *)
Theorem step_upload_failed e req s :
  req_method req = POST -> dispatch req = Some EpUpload ->
  (req_upload req = NoFile ->
     step e req s = (s, json_response 400 (JObj [("error", JStr "No file uploaded")]))) /\
  (req_upload req = MulterFailed -> step e req s = (s, mk_response 500 RErrorPage)).
Proof.
  intros Hm Hd. rewrite (step_post e req s EpUpload Hm Hd). simpl.
  split; intros ->; done.
Qed.

(** C7: [POST /device/detection] records the alert [record_detection]
    builds and answers 200 [{ status: "received" }], or, when
    [Number(..)] throws, answers 500 and records nothing; the catalog and
    the settings never change. *)
Theorem step_detection e req s :
  req_method req = POST -> dispatch req = Some EpDetection ->
  match record_detection (date_now e) (locale_time e) (req_json req) (alerts s) with
  | Normal al => step e req s = (mk_state al (sounds s) (settings s),
                                 json_response 200 (JObj [("status", JStr "received")]))
  | ThrowTypeError => step e req s = (s, mk_response 500 RErrorPage)
  end.
Proof.
  intros Hm Hd. rewrite (step_post e req s EpDetection Hm Hd). simpl.
  unfold detection_handler. by destruct (record_detection _ _ _ _).
Qed.
End StepBehaviour.

Section Frame.
Context `{JsCoercion}.

Lemma strip_head_fst m r : (strip_head m r).1 = r.1.
Proof. by destruct m. Qed.

Lemma strip_head_status m r : res_status (strip_head m r).2 = res_status r.2.
Proof. by destruct m. Qed.

(** What a step does to the catalog: only a stored upload appends. *)
Lemma step_sounds e req s :
  sounds (step e req s).1 =
    match dispatch req, req_upload req with
    | Some EpUpload, FileStored t n =>
        (sounds s ++ [mk_sound (date_string (date_now e)) n (Some (multer_filename t n)) Uploaded])%list
    | _, _ => sounds s
    end.
Proof.
  destruct (dispatch req) as [ep|] eqn:Hd; [|by rewrite step_no_dispatch].
  rewrite (step_dispatch e req s ep Hd), strip_head_fst.
  destruct ep; unfold handle; try by destruct (req_upload req).
  - unfold select_handler. destruct (select_sound _ _ _) as [? []]; by destruct (req_upload req).
  - unfold detection_handler. destruct (record_detection _ _ _ _); by destruct (req_upload req).
Qed.

(** C8: each request changes at most the stores of its handler: a
    request that reaches no handler or a read-only handler changes
    nothing, a detection changes only the alerts, an upload only the
    catalog and the settings, and a select or a settings update only the
    settings. *)
Theorem step_frame e req s :
  let s' := (step e req s).1 in
  s' = s \/
  (dispatch req = Some EpDetection /\ sounds s' = sounds s /\ settings s' = settings s) \/
  (dispatch req = Some EpUpload /\ alerts s' = alerts s) \/
  ((dispatch req = Some EpSelect \/ dispatch req = Some EpPutSettings) /\
   alerts s' = alerts s /\ sounds s' = sounds s).
Proof.
  simpl. destruct (dispatch req) as [ep|] eqn:Hd; [|left; by apply step_no_dispatch].
  rewrite (step_dispatch e req s ep Hd), strip_head_fst.
  destruct ep; unfold handle; try (left; done).
  - destruct (req_upload req); [left; done| |left; done].
    right; right; left. by split.
  - unfold select_handler. destruct (select_sound _ _ _) as [? []]; [|by left].
    right; right; right. split; [by left|done].
  - unfold detection_handler. destruct (record_detection _ _ _ _); [|by left].
    right; left. done.
  - right; right; right. split; [by right|done].
Qed.
End Frame.


(** ** Identifiers over a sequence of requests *)

(** A sequence of requests, each with its clock, run from a state. *)
Fixpoint run `{JsCoercion} (trace : list (env * request)) (s : state) : state * list response :=
  match trace with
  | [] => (s, [])
  | (e, req) :: rest =>
      let r := step e req s in
      let rr := run rest r.1 in
      (rr.1, r.2 :: rr.2)
  end.

(** The clock strictly increases along the sequence, from [b] on. *)
Fixpoint clock_from (b : N) (trace : list (env * request)) : Prop :=
  match trace with
  | [] => True
  | (e, _) :: rest => (b <= date_now e)%N /\ clock_from (date_now e + 1) rest
  end.

Definition alert_ids (s : state) : list string := map alert_id (alerts s).

(** A request the chain hands to the detection handler. *)
Definition is_detection (req : request) : bool :=
  match dispatch req with Some EpDetection => true | _ => false end.

(** The ids [String(Date.now())] of the detections of a sequence that were
    answered 200, in the order they arrived. *)
Fixpoint accepted_detections (trace : list (env * request)) (rs : list response) : list string :=
  match trace, rs with
  | (e, req) :: tr, r :: rs' =>
      ((if is_detection req && (res_status r =? 200)%N then [date_string (date_now e)] else []) ++
       accepted_detections tr rs')%list
  | _, _ => []
  end.

(** Every id in the stores is distinct, and every timestamp id is below [b]. *)
Definition ids_fresh (b : N) (s : state) : Prop :=
  NoDup (sound_ids (sounds s)) /\ NoDup (alert_ids s) /\
  Forall (fun i => i = "default" \/ exists t, (t < b)%N /\ i = date_string t) (sound_ids (sounds s)) /\
  Forall (fun i => exists t, (t < b)%N /\ i = date_string t) (alert_ids s).

Lemma date_string_not_default t : date_string t <> "default".
Proof. intros Hd. pose proof (date_string_digits t) as Hg. rewrite Hd in Hg. discriminate. Qed.

Section Identifiers.
Context `{JsCoercion}.

(** A step appends at most the id [String(Date.now())] to the catalog and
    prepends at most that id to the alerts. *)
Lemma step_ids e req s :
  let s' := (step e req s).1 in
  (sound_ids (sounds s') = sound_ids (sounds s) \/
   sound_ids (sounds s') = (sound_ids (sounds s) ++ [date_string (date_now e)])%list) /\
  (alert_ids s' = alert_ids s \/ alert_ids s' = date_string (date_now e) :: alert_ids s).
Proof.
  simpl. destruct (dispatch req) as [ep|] eqn:Hd;
    [|rewrite step_no_dispatch by done; by split; left].
  rewrite (step_dispatch e req s ep Hd), strip_head_fst.
  destruct ep; unfold handle; try (split; left; done).
  - destruct (req_upload req); try (split; left; done).
    split; [right|left; done]. simpl. unfold sound_ids, sounds_push. by rewrite map_app.
  - unfold select_handler. destruct (select_sound _ _ _) as [? []]; split; left; done.
  - unfold detection_handler. destruct (record_detection _ _ _ _) as [l|] eqn:Hr;
      [|split; left; done].
    destruct (record_detection_cons _ _ _ _ _ Hr) as (a & -> & Hid & _).
    split; [left; done|right]. unfold alert_ids. simpl. by rewrite Hid.
Qed.

(** A step prepends the id of its detection to the alerts when it answers
    it 200, and leaves them alone otherwise. *)
Lemma step_alert_ids e req s :
  alert_ids (step e req s).1 =
    ((if is_detection req && (res_status (step e req s).2 =? 200)%N then [date_string (date_now e)]
     else []) ++ alert_ids s)%list.
Proof.
  unfold is_detection. destruct (dispatch req) as [ep|] eqn:Hd; [|by rewrite step_no_dispatch].
  rewrite (step_dispatch e req s ep Hd), strip_head_fst, strip_head_status.
  destruct ep; unfold handle; try done.
  - by destruct (req_upload req).
  - unfold select_handler. by destruct (select_sound _ _ _) as [? []].
  - unfold detection_handler. destruct (record_detection _ _ _ _) as [l|] eqn:Hr; [|done].
    destruct (record_detection_cons _ _ _ _ _ Hr) as (a & -> & Hid & _).
    unfold alert_ids. simpl. by rewrite Hid.
Qed.

(** C34: along any sequence of requests, the alert log lists exactly the
    detections that were answered 200, newest first, each under the id
    [String(Date.now())] of its request, in front of the log it started
    from: a detection answered 500 leaves no trace, no other request
    touches the log, and [unshift] orders it by arrival, not by the
    client's [time] field. *)
Theorem run_alert_log trace s :
  alert_ids (run trace s).1 = (rev (accepted_detections trace (run trace s).2) ++ alert_ids s)%list.
Proof.
  revert s. induction trace as [|[e req] tr IH]; intros s; [done|].
  cbn [run fst snd accepted_detections]. rewrite IH, step_alert_ids.
  destruct (_ && _); simpl; [by rewrite <- app_assoc|done].
Qed.

Lemma fresh_new_id b t (l : list string) :
  (b <= t)%N -> Forall (fun i => i = "default" \/ exists t', (t' < b)%N /\ i = date_string t') l ->
  date_string t ∉ l.
Proof.
  intros Hb Hl Hin. eapply Forall_forall in Hl; [|exact Hin].
  destruct Hl as [Hd|(t' & Ht' & Heq)].
  - by apply (date_string_not_default t).
  - apply date_string_inj in Heq. lia.
Qed.

Lemma fresh_mono (P : string -> Prop) b b' l :
  (b <= b')%N -> Forall (fun i => P i \/ exists t, (t < b)%N /\ i = date_string t) l ->
  Forall (fun i => P i \/ exists t, (t < b')%N /\ i = date_string t) l.
Proof.
  intros Hb Hl. eapply Forall_impl; [exact Hl|]. intros i [Hi|(t & Ht & ->)]; [by left|right].
  exists t. split; [lia|done].
Qed.

Lemma step_ids_fresh e req s b :
  (b <= date_now e)%N -> ids_fresh b s -> ids_fresh (date_now e + 1) (step e req s).1.
Proof.
  intros Hb (Hns & Hna & Hfs & Hfa).
  assert (Hfa' : Forall (fun i => False \/ exists t, (t < b)%N /\ i = date_string t) (alert_ids s)).
  { eapply Forall_impl; [apply Hfa|]. by right. }
  destruct (step_ids e req s) as [Hs Ha].
  split_and!.
  - destruct Hs as [->| ->]; [done|]. apply NoDup_app. split_and!; [done| |by apply NoDup_singleton].
    intros i Hi ->%list_elem_of_singleton. by apply (fresh_new_id b (date_now e) (sound_ids (sounds s))).
  - destruct Ha as [->| ->]; [done|]. constructor; [|done].
    eapply fresh_new_id; [done|]. eapply Forall_impl; [apply Hfa'|]. intros i [[]|?]. by right.
  - destruct Hs as [->| ->]; [apply (fresh_mono (fun i => i = "default") b); [lia|done]|].
    apply Forall_app. split; [apply (fresh_mono (fun i => i = "default") b); [lia|done]|].
    constructor; [|constructor]. right. exists (date_now e). split; [lia|done].
  - destruct Ha as [->| ->].
    + eapply Forall_impl; [apply (fresh_mono (fun _ => False) b (date_now e + 1)); [lia|done]|].
      intros i [[]|?]. done.
    + constructor; [exists (date_now e); split; [lia|done]|].
      eapply Forall_impl; [apply (fresh_mono (fun _ => False) b (date_now e + 1)); [lia|done]|].
      intros i [[]|?]. done.
Qed.

Lemma run_ids_fresh trace : forall b s,
  ids_fresh b s -> clock_from b trace -> exists b', ids_fresh b' (run trace s).1.
Proof.
  induction trace as [|[e req] rest IH]; intros b s Hf Hc; simpl; [by exists b|].
  destruct Hc as [Hb Hc]. eapply IH; [|apply Hc]. by apply (step_ids_fresh e req s b).
Qed.

(** C9: when the clock strictly increases from request to request, every
    sound of the catalog and every alert of the log has its own id, after
    any sequence of requests from the startup state. *)
Theorem run_ids_unique trace :
  clock_from 0 trace ->
  NoDup (sound_ids (sounds (run trace initial_state).1)) /\
  NoDup (alert_ids (run trace initial_state).1).
Proof.
  intros Hc. destruct (run_ids_fresh trace 0 initial_state) as (b & Hns & Hna & _).
  - split_and!; cbn; repeat constructor. intros Hin. inversion Hin.
  - done.
  - by split.
Qed.
End Identifiers.

(** ** The route table *)

#[export] Instance http_method_eq_dec : EqDecision http_method.
Proof. solve_decision. Defined.

#[export] Instance endpoint_eq_dec : EqDecision endpoint.
Proof. solve_decision. Defined.

Definition all_methods : list http_method := [GET; HEAD; POST; PUT; DELETE; PATCH; OPTIONS].

(** Two route entries can serve a common method. *)
Definition methods_overlap (m1 m2 : http_method) : bool :=
  existsb (fun m => method_matches m1 m && method_matches m2 m) all_methods.

(** Two route paths are never matched by one request path: neither is the
    other followed by one or two slashes. *)
Definition paths_apart (r1 r2 : string) : bool :=
  negb (String.eqb r1 r2 || String.eqb r1 (r2 ++ "/") || String.eqb r2 (r1 ++ "/") ||
        String.eqb r1 (r2 ++ "//") || String.eqb r2 (r1 ++ "//")).

(** Entries for different handlers either serve disjoint methods or have
    paths apart. *)
Definition routes_separated (rs : list (http_method * string * endpoint)) : bool :=
  forallb (fun r1 => forallb (fun r2 =>
    bool_decide (r1.2 = r2.2) || negb (methods_overlap r1.1.1 r2.1.1) || paths_apart r1.1.2 r2.1.2)
    rs) rs.

Lemma routes_separated_table : routes_separated routes = true.
Proof. vm_compute. reflexivity. Qed.

Lemma path_matches_spec rp p :
  path_matches rp p = true <->
  lower p = rp \/ lower p = (rp ++ "/") \/ (lower p ++ "/") = rp.
Proof. unfold path_matches. rewrite !orb_true_iff, !String.eqb_eq. tauto. Qed.

Lemma methods_overlap_intro m1 m2 m :
  method_matches m1 m = true -> method_matches m2 m = true -> methods_overlap m1 m2 = true.
Proof.
  intros H1 H2. apply existsb_exists. exists m. rewrite H1, H2.
  split; [destruct m; simpl; tauto|done].
Qed.

(** Two route paths matched by one request path are equal or differ by a
    trailing one or two slashes. *)
Lemma matched_paths_close r1 r2 q :
  (q = r1 \/ q = (r1 ++ "/") \/ (q ++ "/") = r1) ->
  (q = r2 \/ q = (r2 ++ "/") \/ (q ++ "/") = r2) ->
  r1 = r2 \/ r1 = (r2 ++ "/") \/ r2 = (r1 ++ "/") \/ r1 = (r2 ++ "//") \/ r2 = (r1 ++ "//").
Proof.
  intros [->|[->| <-]] [H|[H| <-]]; subst; rewrite ?string_app_assoc; simpl; try tauto;
    left; by eapply string_app_inv_r.
Qed.

Lemma paths_apart_spec r1 r2 :
  paths_apart r1 r2 = true ->
  ~ (r1 = r2 \/ r1 = (r2 ++ "/") \/ r2 = (r1 ++ "/") \/ r1 = (r2 ++ "//") \/ r2 = (r1 ++ "//")).
Proof.
  unfold paths_apart. rewrite negb_true_iff, !orb_false_iff, !String.eqb_neq. tauto.
Qed.

Section Routing.
Context `{JsCoercion}.

(** C23: Express's first-match routing never has to choose: for any method
    and request path, every route entry that matches leads to the same
    handler, so the registration order of lines 38-130 does not matter. *)
Theorem route_unambiguous m p rm1 rp1 ep1 rm2 rp2 ep2 :
  (rm1, rp1, ep1) ∈ routes -> (rm2, rp2, ep2) ∈ routes ->
  method_matches rm1 m && path_matches rp1 p = true ->
  method_matches rm2 m && path_matches rp2 p = true ->
  ep1 = ep2.
Proof.
  intros H1 H2 [Hm1 Hp1]%andb_prop [Hm2 Hp2]%andb_prop.
  pose proof routes_separated_table as Hsep. unfold routes_separated in Hsep.
  rewrite forallb_forall in Hsep. specialize (Hsep _ (proj1 (list_elem_of_In _ _) H1)).
  rewrite forallb_forall in Hsep. specialize (Hsep _ (proj1 (list_elem_of_In _ _) H2)).
  simpl in Hsep. apply orb_true_iff in Hsep as [[He|Ho]%orb_true_iff|Ha].
  - by apply bool_decide_eq_true in He.
  - by rewrite (methods_overlap_intro rm1 rm2 m Hm1 Hm2) in Ho.
  - exfalso. apply (paths_apart_spec rp1 rp2 Ha).
    apply (matched_paths_close rp1 rp2 (lower p)); by apply path_matches_spec.
Qed.

(** C22: only [POST] and [PUT] requests can change the state: a [GET],
    [HEAD], [OPTIONS], [DELETE] or [PATCH] request leaves every store as
    it was. *)
Theorem step_read_only e req s :
  req_method req <> POST -> req_method req <> PUT -> (step e req s).1 = s.
Proof.
  intros Hpost Hput. destruct (dispatch req) as [ep|] eqn:Hd; [|by apply step_no_dispatch].
  rewrite (step_dispatch e req s ep Hd), strip_head_fst.
  unfold dispatch, route in Hd.
  destruct (req_method req); try congruence; destruct (req_body req); simpl in Hd;
    repeat case_match; simplify_eq; done.
Qed.
End Routing.

(** ** Scenarios of the specification *)

Definition get_request (p : string) : request := mk_request GET p NoJsonBody NoFile.

Definition post_request (p : string) (fields : list (string * json)) : request :=
  mk_request POST p (JsonBody (JObj fields)) NoFile.

Definition put_settings_request (fields : list (string * json)) : request :=
  mk_request PUT "/settings" (JsonBody (JObj fields)) NoFile.

Definition upload_request (t : N) (name : string) : request :=
  mk_request POST "/sounds/upload" NoJsonBody (FileStored t name).

Section Scenarios.
Context `{JsCoercion}.

(** C19: after [POST /device/detection { confidence: q }] with a non-zero
    [q], [GET /alerts] lists first the new alert, with confidence [q],
    the id [String(Date.now())] and the server's locale time. *)
Theorem scenario_detection_then_alerts e1 e2 s q :
  ~ q == 0 ->
  exists rest,
    (step e2 (get_request "/alerts")
       (step e1 (post_request "/device/detection" [("confidence", JNum (Fin q))]) s).1).2 =
    json_response 200
      (JObj [("alerts", JArr (alert_to_json (mk_alert (date_string (date_now e1))
                                               (JStr (locale_time e1)) (Fin q)) :: rest))]).
Proof.
  intros Hq. exists (map alert_to_json (alerts s)).
  rewrite (step_post e1 _ s EpDetection) by reflexivity.
  rewrite (step_dispatch e2 _ _ EpAlerts) by reflexivity.
  simpl. destruct (Qeq_bool q 0) eqn:E; [apply Qeq_bool_iff in E; contradiction|].
  reflexivity.
Qed.

(** C20: a confidence that overflows to [Infinity] (the JSON literal
    [1e999]) is recorded as it is, and [GET /alerts] then serves it as
    [null]: the confidence is never range-checked. *)
Theorem scenario_infinite_confidence e1 e2 s :
  exists rest,
    (step e2 (get_request "/alerts")
       (step e1 (post_request "/device/detection" [("confidence", JNum PosInf)]) s).1).2 =
    mk_response 200
      (RJson (JObj [("alerts", JArr (JObj [("id", JStr (date_string (date_now e1)));
                                            ("time", JStr (locale_time e1));
                                            ("confidence", JNull)] :: rest))])).
Proof.
  exists (map serialize (map alert_to_json (alerts s))).
  rewrite (step_post e1 _ s EpDetection) by reflexivity.
  rewrite (step_dispatch e2 _ _ EpAlerts) by reflexivity.
  reflexivity.
Qed.

(** C21: two uploads in the same millisecond give two catalog entries with
    the same id. *)
Theorem same_millisecond_uploads_share_id e t1 t2 n1 n2 :
  ~ NoDup (sound_ids (sounds (run [(e, upload_request t1 n1); (e, upload_request t2 n2)]
                                 initial_state).1)).
Proof.
  cbn. intros Hnd. apply NoDup_cons in Hnd as [_ Hnd]. apply NoDup_cons in Hnd as [Hn _].
  apply Hn. by apply list_elem_of_singleton.
Qed.
End Scenarios.

(** ** Witnesses *)

Definition witness_env : env := mk_env 1700000000000 "10:00:00 AM".

Lemma reachable_state_wf_witness :
  state_wf (step witness_env (upload_request 1699999999999 "my song.mp3") initial_state).1.
Proof.
  apply reachable_state_wf. apply reachable_step; [simpl; exact I|apply reachable_init].
Defined.

Lemma step_select_known_witness :
  step witness_env (post_request "/sounds/select" [("soundId", JStr "default")]) initial_state =
    (mk_state [] initial_sounds (set_selectedSoundId "default" initial_settings),
     json_response 200 (JObj [("status", JStr "selected"); ("selectedSoundId", JStr "default")])).
Proof. apply step_select_known; [reflexivity|reflexivity|reflexivity|left]. Defined.

Lemma step_select_unknown_witness :
  step witness_env (post_request "/sounds/select" [("soundId", JStr "nope")]) initial_state =
    (initial_state, json_response 404 (JObj [("error", JStr "Sound not found")])).
Proof.
  apply step_select_unknown; [reflexivity|reflexivity|].
  simpl. intros i [= <-] Hi. apply elem_of_cons in Hi as [Hi|Hi]; [discriminate|inversion Hi].
Defined.

Lemma step_upload_stored_witness :
  let snd := mk_sound (date_string 1700000000000) "my song.mp3"
               (Some (multer_filename 1699999999999 "my song.mp3")) Uploaded in
  step witness_env (upload_request 1699999999999 "my song.mp3") initial_state =
    (mk_state [] (initial_sounds ++ [snd])%list
       (set_selectedSoundId (date_string 1700000000000) initial_settings),
     json_response 200 (JObj [("status", JStr "uploaded"); ("sound", sound_to_json snd);
                              ("selectedSoundId", JStr (date_string 1700000000000))])) /\
  length (sounds (step witness_env (upload_request 1699999999999 "my song.mp3") initial_state).1) =
    S (length initial_sounds).
Proof. apply step_upload_stored; reflexivity. Defined.

Lemma step_upload_failed_witness :
  (req_upload (mk_request POST "/sounds/upload" NoJsonBody NoFile) = NoFile ->
   step witness_env (mk_request POST "/sounds/upload" NoJsonBody NoFile) initial_state =
     (initial_state, json_response 400 (JObj [("error", JStr "No file uploaded")]))) /\
  (req_upload (mk_request POST "/sounds/upload" NoJsonBody NoFile) = MulterFailed ->
   step witness_env (mk_request POST "/sounds/upload" NoJsonBody NoFile) initial_state =
     (initial_state, mk_response 500 RErrorPage)).
Proof. apply step_upload_failed; reflexivity. Defined.

Lemma step_detection_witness :
  step witness_env (post_request "/device/detection" [("confidence", JNum (Fin (93#100)))])
       initial_state =
    (mk_state [mk_alert (date_string 1700000000000) (JStr "10:00:00 AM") (Fin (93#100))]
              initial_sounds initial_settings,
     json_response 200 (JObj [("status", JStr "received")])).
Proof.
  apply (step_detection witness_env
           (post_request "/device/detection" [("confidence", JNum (Fin (93#100)))])
           initial_state); reflexivity.
Defined.

Lemma run_ids_unique_witness :
  NoDup (sound_ids (sounds (run [(witness_env, upload_request 1 "a");
                                 (mk_env 1700000000001 "10:00:01 AM", upload_request 2 "b")]
                               initial_state).1)) /\
  NoDup (alert_ids (run [(witness_env, upload_request 1 "a");
                         (mk_env 1700000000001 "10:00:01 AM", upload_request 2 "b")]
                       initial_state).1).
Proof. apply run_ids_unique. simpl. lia. Defined.

Lemma scenario_detection_then_alerts_witness :
  exists rest,
    (step witness_env (get_request "/alerts")
       (step witness_env (post_request "/device/detection" [("confidence", JNum (Fin (93#100)))])
          initial_state).1).2 =
    json_response 200
      (JObj [("alerts", JArr (alert_to_json (mk_alert (date_string 1700000000000)
                                               (JStr "10:00:00 AM") (Fin (93#100))) :: rest))]).
Proof.
  apply (scenario_detection_then_alerts witness_env witness_env initial_state (93#100)).
  intros Hq. vm_compute in Hq. discriminate.
Defined.

Lemma route_unambiguous_witness :
  method_matches PUT PUT && path_matches "/settings" "/Settings/" = true /\
  EpPutSettings = EpPutSettings.
Proof.
  split; [vm_compute; reflexivity|].
  apply (route_unambiguous PUT "/Settings/" PUT "/settings" EpPutSettings PUT "/settings" EpPutSettings);
    [apply (bool_decide_unpack _); vm_compute; reflexivity
    |apply (bool_decide_unpack _); vm_compute; reflexivity
    |vm_compute; reflexivity|vm_compute; reflexivity].
Defined.

Lemma step_read_only_witness :
  (step witness_env (get_request "/alerts") initial_state).1 = initial_state.
Proof. apply step_read_only; simpl; discriminate. Defined.

Lemma run_alert_log_witness :
  let tr := [(witness_env, post_request "/device/detection" [("confidence", JNum (Fin (93#100)))]);
             (mk_env 1700000000001 "10:00:01 AM", get_request "/alerts");
             (mk_env 1700000000002 "10:00:02 AM",
              post_request "/device/detection" [("confidence", JObj [("toString", JNull)])]);
             (mk_env 1700000000003 "10:00:03 AM", post_request "/device/detection" [])] in
  alert_ids (run tr initial_state).1 =
    (rev (accepted_detections tr (run tr initial_state).2) ++ alert_ids initial_state)%list.
Proof. apply run_alert_log. Defined.
