(* ===== verification/System.v ===== *)
(** * The whole system: the server, multer and the disk

    The upload route is [app.post("/sounds/upload", upload.single("file"),
    handler)] (line 50): multer runs, on that route only, before the
    handler, and its outcome is what the handler finds in [req.file].
    [sys_step] composes the multer middleware ([multer_single], on the
    storage of [Storage]) with the server's [step]; [boot] is the startup
    code of lines 12-15 followed by the initial stores of lines 26-36,
    and [start] adds [app.listen] (lines 132-135): the port and the line
    its callback prints.

    multer's [upload.single(name)] first drops every file part whose
    base name (busboy's [basename] of the client's name) is empty, as
    [if (!filename) return fileStream.resume()] does; of the parts left it
    accepts at most one, in the field [name].  A file part in another field, or a second one, aborts
    the request with [LIMIT_UNEXPECTED_FILE]; multer then removes the
    files it has already written ([storage._removeFile]).  The text
    fields of the form do not matter: the handler does not read
    [req.body]. *)

From stdpp Require Import base tactics list strings gmap.
From Stdlib Require Import QArith String NArith.
From S2P Require Import Prelude JsNumber Json Naming Catalog Storage Settings Alerts Server.

Local Open Scope string_scope.

Record sys_state : Type := mk_sys {
  srv : state;
  disk_of : disk
}.

(** A file part of a [multipart/form-data] body: its form field, the file
    name the client sent and the bytes. *)
Record file_part : Type := mk_file_part {
  fieldname : string;
  part_filename : string;
  part_data : list Byte.byte
}.

Record sys_request : Type := mk_sys_request {
  sreq_method : http_method;
  sreq_path : string;
  sreq_body : body_input;
  sreq_files : list file_part
}.

(** The clock as the handler reads it, and [Date.now()] when multer calls
    the [filename] callback. *)
Record sys_env : Type := mk_sys_env {
  handler_env : env;
  multer_now : N
}.

(** [fs.unlink(path)] of the disk storage's [_removeFile]. *)
Definition remove_file (p : string) (d : disk) : disk := mk_disk (dirs d) (delete p (files d)).

(** A file part multer attaches: busboy gives its base name, and multer
    drops a part whose name is empty ([if (!filename) return
    fileStream.resume()]), before any other check. *)
Definition named_part (p : file_part) : bool :=
  negb (String.eqb (busboy_basename (part_filename p)) "").

(** [upload.single(field)] on the storage [ds]: the first attached part
    must be in [field] and is written; a second attached part aborts the
    request with [LIMIT_UNEXPECTED_FILE], and multer removes the file it
    wrote. *)
Definition multer_single (ds : disk_storage) (field : string) (t : N) (parts : list file_part)
    (d : disk) : disk * multer_outcome :=
  match List.filter named_part parts with
  | [] => (d, NoFile)
  | p :: rest =>
      let name := busboy_basename (part_filename p) in
      if negb (String.eqb (fieldname p) field) then (d, MulterFailed)
      else
        match store_file ds t name (part_data p) d with
        | None => (d, MulterFailed)
        | Some (d', fname) =>
            match rest with
            | [] => (d', FileStored t name)
            | _ :: _ => (remove_file (path_join (destination ds) fname) d', MulterFailed)
            end
        end
  end.

Definition with_upload (r : sys_request) (u : multer_outcome) : request :=
  mk_request (sreq_method r) (sreq_path r) (sreq_body r) u.

Section System.
Context `{JsCoercion}.

(** One request: multer runs when the router hands the request to the
    upload route. *)
Definition sys_step (dirname : string) (e : sys_env) (r : sys_request) (σ : sys_state)
    : sys_state * response :=
  match dispatch (with_upload r NoFile) with
  | Some EpUpload =>
      let mu := multer_single (storage dirname) "file" (multer_now e) (sreq_files r) (disk_of σ) in
      let res := step (handler_env e) (with_upload r mu.2) (srv σ) in
      (mk_sys res.1 mu.1, res.2)
  | _ =>
      let res := step (handler_env e) (with_upload r NoFile) (srv σ) in
      (mk_sys res.1 (disk_of σ), res.2)
  end.
End System.

(** [const PORT = process.env.PORT || 5000] (line 132): [env_port] is
    the environment variable when it is set; an empty value is falsy. *)
Definition listen_port (env_port : option string) : json :=
  js_or (option_map JStr env_port) (JNum (Fin 5000)).

(** Startup: lines 12-15, then the stores. *)
Definition boot (dirname : string) (d : disk) : option sys_state :=
  option_map (mk_sys initial_state) (ensure_uploads_dir dirname d).

(** The callback of [app.listen] (line 134): one line on the console,
    the template literal [`${PORT}`] being [ToString(PORT)]. *)
Definition listen_message `{JsCoercion} (port : json) : list string :=
  match json_to_string port with
  | Normal p => ["Server running on port " ++ p]
  | ThrowTypeError => []
  end.

(** The process from the top of the file to [app.listen] (lines 12-36
    and 132-135): the startup code, the stores, the port and what the
    listening callback prints; [None] is the exception that stops the
    process before it listens. *)
Definition start `{JsCoercion} (dirname : string) (env_port : option string) (d : disk)
    : option (sys_state * json * list string) :=
  option_map (fun σ => (σ, listen_port env_port, listen_message (listen_port env_port))) (boot dirname d).

(** ** Reachable states of the system *)

(** The disk the server starts on: nothing where the uploads directory
    goes but possibly that directory, and no directory inside it. *)
Definition boot_disk_ok (dirname : string) (d : disk) : Prop :=
  files d !! uploads_dir dirname = None /\
  forall f, path_component f = true -> path_join (uploads_dir dirname) f ∉ dirs d.

(** [sys_reachable dirname b σ]: [σ] is reached from a startup on a good
    disk by requests where multer's clock strictly increases; [b] bounds
    every time multer has read so far. *)
Inductive sys_reachable `{JsCoercion} (dirname : string) : N -> sys_state -> Prop :=
  | sys_reachable_boot b d σ :
      boot_disk_ok dirname d -> boot dirname d = Some σ -> sys_reachable dirname b σ
  | sys_reachable_step b e r σ :
      request_wf (with_upload r NoFile) -> (b <= multer_now e)%N ->
      sys_reachable dirname b σ -> sys_reachable dirname (multer_now e + 1) (sys_step dirname e r σ).1.

(** An entry of the catalog whose file is on the disk: its stored name
    is one that multer made before [b], and a file is there. *)
Definition file_on_disk (dirname : string) (b : N) (d : disk) (snd : sound) : Prop :=
  forall fn, sound_filename snd = Some fn ->
    (exists t n, fn = multer_filename t n /\ (t < b)%N /\ path_component fn = true) /\
    is_Some (files d !! path_join (uploads_dir dirname) fn).

Definition sys_wf (dirname : string) (b : N) (σ : sys_state) : Prop :=
  state_wf (srv σ) /\
  uploads_dir dirname ∈ dirs (disk_of σ) /\
  (forall f, path_component f = true -> path_join (uploads_dir dirname) f ∉ dirs (disk_of σ)) /\
  Forall (file_on_disk dirname b (disk_of σ)) (sounds (srv σ)).

(** ** Lemmas *)

Lemma path_join_inj dir f1 f2 : path_join dir f1 = path_join dir f2 -> f1 = f2.
Proof.
  unfold path_join. case_match; [intros [= ?]; done|]. intros Heq. apply string_app_inv_l in Heq. by simplify_eq.
Qed.

(** The three things [upload.single] can do to the disk: nothing, write
    one file, or write one file and remove it again. *)
Lemma multer_single_cases ds field t parts d :
  let P name := path_join (destination ds) (storage_filename ds t name) in
  (multer_single ds field t parts d = (d, NoFile) \/
   multer_single ds field t parts d = (d, MulterFailed)) \/
  (exists p rest, List.filter named_part parts = p :: rest /\
     let name := busboy_basename (part_filename p) in
     let d' := mk_disk (dirs d) (<[P name := part_data p]> (files d)) in
     bool_decide (destination ds ∈ dirs d) = true /\ bool_decide (P name ∈ dirs d) = false /\
     ((rest = [] /\ multer_single ds field t parts d = (d', FileStored t name)) \/
      multer_single ds field t parts d = (remove_file (P name) d', MulterFailed))).
Proof.
  cbv zeta. unfold multer_single. destruct (List.filter named_part parts) as [|p rest]; [by left; left|].
  destruct (String.eqb (fieldname p) field); simpl; [|by left; right].
  rewrite store_file_spec.
  destruct (bool_decide (destination ds ∈ dirs d)) eqn:Hd; simpl; [|by left; right].
  destruct (bool_decide (path_join _ _ ∈ dirs d)) eqn:Hp; simpl; [by left; right|].
  right. exists p, rest. split_and!; try done. destruct rest; [left|right]; done.
Qed.

Lemma sys_step_other `{JsCoercion} dirname e r σ :
  dispatch (with_upload r NoFile) <> Some EpUpload ->
  sys_step dirname e r σ = (mk_sys (step (handler_env e) (with_upload r NoFile) (srv σ)).1 (disk_of σ),
                            (step (handler_env e) (with_upload r NoFile) (srv σ)).2).
Proof. unfold sys_step. destruct (dispatch _) as [[]|]; done. Qed.

Lemma sys_step_upload `{JsCoercion} dirname e r σ :
  dispatch (with_upload r NoFile) = Some EpUpload ->
  let mu := multer_single (storage dirname) "file" (multer_now e) (sreq_files r) (disk_of σ) in
  sys_step dirname e r σ = (mk_sys (step (handler_env e) (with_upload r mu.2) (srv σ)).1 mu.1,
                            (step (handler_env e) (with_upload r mu.2) (srv σ)).2).
Proof. unfold sys_step. by intros ->. Qed.

Lemma dispatch_with_upload r u : dispatch (with_upload r u) = dispatch (with_upload r NoFile).
Proof. done. Qed.

Section SystemProofs.
Context `{JsCoercion}.

Lemma file_on_disk_keep dirname b b' d d' snd :
  (b <= b')%N ->
  (forall t n, (t < b)%N ->
     is_Some (files d !! path_join (uploads_dir dirname) (multer_filename t n)) ->
     is_Some (files d' !! path_join (uploads_dir dirname) (multer_filename t n))) ->
  file_on_disk dirname b d snd -> file_on_disk dirname b' d' snd.
Proof.
  intros Hb Hkeep Hf fn Hfn. destruct (Hf fn Hfn) as ((t & n & -> & Ht & Hc) & Hs).
  split; [exists t, n; split_and!; [done|lia|done]|by apply Hkeep].
Qed.

(** A stored name read before [b] is not the one multer makes at [t >= b]. *)
Lemma uploads_path_fresh dirname t n t' n' :
  (t < t')%N ->
  path_join (uploads_dir dirname) (multer_filename t' n') <>
  path_join (uploads_dir dirname) (multer_filename t n).
Proof. intros Ht Heq. apply path_join_inj, multer_filename_inj in Heq as [-> _]. lia. Qed.

Lemma sys_step_wf dirname b e r σ :
  request_wf (with_upload r NoFile) -> (b <= multer_now e)%N -> sys_wf dirname b σ ->
  sys_wf dirname (multer_now e + 1) (sys_step dirname e r σ).1.
Proof.
  intros Hreq Hb (Hs & Hu & Hin & Hall).
  destruct (decide (dispatch (with_upload r NoFile) = Some EpUpload)) as [Hd|Hd].
  2: { rewrite sys_step_other by done. unfold sys_wf; cbn [fst srv disk_of].
       split_and!; [by apply step_wf|done|done|].
       rewrite step_sounds. cbn [with_upload req_upload].
       destruct (dispatch (with_upload r NoFile)) as [[]|];
         (eapply Forall_impl; [exact Hall|]; intros snd; apply file_on_disk_keep; [lia|auto]). }
  rewrite sys_step_upload by done. cbv zeta.
  destruct (multer_single_cases (storage dirname) "file" (multer_now e) (sreq_files r) (disk_of σ))
    as [[Hm|Hm]|(p & rest & Hp & Hdest & Hnd & [[-> Hm]|Hm])]; rewrite Hm;
    unfold sys_wf; cbn [fst snd srv disk_of remove_file dirs files];
    (split_and!; [by apply step_wf|done|done|]);
    rewrite step_sounds; rewrite ?dispatch_with_upload; rewrite Hd;
    cbn [with_upload req_upload storage destination storage_filename].
  - eapply Forall_impl; [exact Hall|]. intros snd. apply file_on_disk_keep; [lia|auto].
  - eapply Forall_impl; [exact Hall|]. intros snd. apply file_on_disk_keep; [lia|auto].
  - apply Forall_app. split.
    + eapply Forall_impl; [exact Hall|]. intros snd. apply file_on_disk_keep; [lia|].
      intros t n _ Hsome. cbn [files]. by apply lookup_insert_is_Some'; right.
    + constructor; [|constructor]. intros fn [= <-]. split.
      * eexists _, _. split_and!; [done|lia|].
        apply multer_filename_component, busboy_basename_no_sep.
      * cbn [files]. rewrite lookup_insert_eq. by eexists.
  - eapply Forall_impl; [exact Hall|]. intros snd. apply file_on_disk_keep; [lia|].
    intros t n Ht Hsome. cbn [files remove_file]. rewrite lookup_delete_ne, lookup_insert_ne; [done| |];
      apply uploads_path_fresh; lia.
Qed.

Lemma boot_wf dirname b d σ : boot_disk_ok dirname d -> boot dirname d = Some σ -> sys_wf dirname b σ.
Proof.
  intros [Hf Hin] Hb. unfold boot in Hb.
  destruct (ensure_uploads_dir dirname d) as [d'|] eqn:He; [|done]. injection Hb as <-.
  destruct (ensure_uploads_dir_dir _ _ _ Hf He) as (Hu & _ & _).
  split_and!; simpl; [apply initial_state_wf|done|by eapply ensure_uploads_dir_inside|].
  constructor; [|constructor]. intros fn Hfn. discriminate.
Qed.

Lemma sys_reachable_wf dirname b σ : sys_reachable dirname b σ -> sys_wf dirname b σ.
Proof.
  induction 1 as [b d σ Hd Hb|b e r σ Hreq Hle _ IH]; [by eapply boot_wf|by apply (sys_step_wf dirname b)].
Qed.
End SystemProofs.

Lemma dispatch_upload_post req : dispatch req = Some EpUpload -> req_method req = POST.
Proof.
  unfold dispatch, route. intros Hd.
  destruct (req_method req), (req_body req); simpl in Hd; repeat case_match; simplify_eq; done.
Qed.

Section SystemUploads.
Context `{JsCoercion}.

(** multer stores a single file part of the field [file] on a disk where
    the uploads directory is ready. *)
Lemma multer_single_stored dirname t parts p d :
  List.filter named_part parts = [p] -> fieldname p = "file" -> uploads_dir dirname ∈ dirs d ->
  (forall f, path_component f = true -> path_join (uploads_dir dirname) f ∉ dirs d) ->
  multer_single (storage dirname) "file" t parts d =
    (mk_disk (dirs d) (<[path_join (uploads_dir dirname)
                          (multer_filename t (busboy_basename (part_filename p))) := part_data p]>
                       (files d)),
     FileStored t (busboy_basename (part_filename p))).
Proof.
  intros Hp Hf Hu Hin. unfold multer_single. rewrite Hp, Hf, String.eqb_refl. simpl.
  rewrite store_file_spec. simpl. rewrite bool_decide_eq_true_2 by done.
  rewrite bool_decide_eq_false_2; [done|].
  apply Hin, multer_filename_component, busboy_basename_no_sep.
Qed.

(** The server's answer to a stored upload. *)
Lemma step_upload_file e req s t name :
  dispatch req = Some EpUpload -> req_upload req = FileStored t name ->
  step e req s = upload_handler e (Some (mk_uploaded_file name (multer_filename t name))) s.
Proof.
  intros Hd Hu. rewrite (step_post e req s EpUpload (dispatch_upload_post req Hd) Hd). simpl.
  by rewrite Hu.
Qed.
Lemma step_upload_multer_failed e req s :
  dispatch req = Some EpUpload -> req_upload req = MulterFailed ->
  step e req s = (s, mk_response 500 RErrorPage).
Proof.
  intros Hd Hu. rewrite (step_post e req s EpUpload (dispatch_upload_post req Hd) Hd). simpl.
  by rewrite Hu.
Qed.

Lemma filter_unnamed parts :
  Forall (fun p => busboy_basename (part_filename p) = "") parts -> List.filter named_part parts = [].
Proof. induction 1 as [|p l Hp _ IH]; [done|]. simpl. unfold named_part. by rewrite Hp. Qed.

(** One upload of a single file part on a ready disk. *)
Lemma sys_step_single_file dirname e r σ p :
  uploads_dir dirname ∈ dirs (disk_of σ) ->
  (forall f, path_component f = true -> path_join (uploads_dir dirname) f ∉ dirs (disk_of σ)) ->
  dispatch (with_upload r NoFile) = Some EpUpload -> List.filter named_part (sreq_files r) = [p] ->
  fieldname p = "file" ->
  let name := busboy_basename (part_filename p) in
  let fname := multer_filename (multer_now e) name in
  let res := upload_handler (handler_env e) (Some (mk_uploaded_file name fname)) (srv σ) in
  sys_step dirname e r σ =
    (mk_sys res.1 (mk_disk (dirs (disk_of σ))
                     (<[path_join (uploads_dir dirname) fname := part_data p]> (files (disk_of σ)))),
     res.2).
Proof.
  intros Hu Hin Hd Hp Hf. cbv zeta. rewrite sys_step_upload by done. cbv zeta.
  rewrite (multer_single_stored dirname _ _ p _ Hp Hf Hu Hin). cbn [fst snd].
  rewrite (step_upload_file _ _ _ (multer_now e) (busboy_basename (part_filename p)));
    [done|by rewrite dispatch_with_upload|done].
Qed.
End SystemUploads.

(** ** Properties *)

Section SystemProperties.
Context `{JsCoercion}.

(** C24: in every state the system reaches, the server's stores are well
    formed, the uploads directory is there, and every uploaded sound of
    the catalog names a file that is on the disk, directly in the
    uploads directory: a failed upload removes only the file it wrote
    itself, never an earlier sound's, because multer's clock has moved
    on. *)
Theorem sys_reachable_files_stored dirname b σ :
  sys_reachable dirname b σ ->
  state_wf (srv σ) /\ uploads_dir dirname ∈ dirs (disk_of σ) /\
  forall snd fn, snd ∈ sounds (srv σ) -> sound_filename snd = Some fn ->
    path_component fn = true /\ is_Some (files (disk_of σ) !! path_join (uploads_dir dirname) fn).
Proof.
  intros Hr. destruct (sys_reachable_wf _ _ _ Hr) as (Hs & Hu & _ & Hall).
  split_and!; [done|done|]. intros snd fn Hin Hfn.
  rewrite Forall_forall in Hall. destruct (Hall snd Hin fn Hfn) as ((t & n & _ & _ & Hc) & Hf).
  done.
Qed.

(** C25: whatever the history, an upload with one attached file part
    (parts with an empty base name are not attached) in the field [file]
    succeeds: multer writes the bytes under
    [`${Date.now()}-${safeName}`], the sound is appended and selected,
    and the answer is 200. *)
Theorem sys_upload_succeeds dirname b σ e r p :
  sys_reachable dirname b σ ->
  dispatch (with_upload r NoFile) = Some EpUpload -> List.filter named_part (sreq_files r) = [p] ->
  fieldname p = "file" ->
  let name := busboy_basename (part_filename p) in
  let fname := multer_filename (multer_now e) name in
  let id := date_string (date_now (handler_env e)) in
  let res := sys_step dirname e r σ in
  res_status res.2 = 200%N /\
  files (disk_of res.1) !! path_join (uploads_dir dirname) fname = Some (part_data p) /\
  sounds (srv res.1) = (sounds (srv σ) ++ [mk_sound id name (Some fname) Uploaded])%list /\
  selectedSoundId (settings (srv res.1)) = id.
Proof.
  intros Hr Hd Hp Hf. destruct (sys_reachable_wf _ _ _ Hr) as (_ & Hu & Hin & _).
  cbv zeta. rewrite (sys_step_single_file dirname e r σ p Hu Hin Hd Hp Hf).
  cbn [fst snd srv disk_of files]. split_and!; try done. apply lookup_insert_eq.
Qed.

(** C26: two uploads in the same millisecond of multer's clock, each
    with one attached part in the field [file], whose names sanitise alike are stored under one file name: the second write
    replaces the first file, so the first sound stays in the catalog
    naming a file that now holds the second upload's bytes. *)
Theorem same_millisecond_uploads_overwrite dirname b σ e1 e2 r1 r2 p1 p2 :
  sys_reachable dirname b σ ->
  dispatch (with_upload r1 NoFile) = Some EpUpload -> dispatch (with_upload r2 NoFile) = Some EpUpload ->
  List.filter named_part (sreq_files r1) = [p1] -> List.filter named_part (sreq_files r2) = [p2] ->
  fieldname p1 = "file" -> fieldname p2 = "file" ->
  multer_now e1 = multer_now e2 ->
  safe_name (busboy_basename (part_filename p1)) = safe_name (busboy_basename (part_filename p2)) ->
  let σ2 := (sys_step dirname e2 r2 (sys_step dirname e1 r1 σ).1).1 in
  let fname := multer_filename (multer_now e1) (busboy_basename (part_filename p1)) in
  (exists snd, snd ∈ sounds (srv σ2) /\ sound_filename snd = Some fname /\
               sound_name snd = busboy_basename (part_filename p1)) /\
  files (disk_of σ2) !! path_join (uploads_dir dirname) fname = Some (part_data p2).
Proof.
  intros Hr Hd1 Hd2 Hp1 Hp2 Hf1 Hf2 Ht Hn. destruct (sys_reachable_wf _ _ _ Hr) as (_ & Hu & Hin & _).
  cbv zeta. rewrite (sys_step_single_file dirname e1 r1 σ p1 Hu Hin Hd1 Hp1 Hf1). cbn [fst].
  rewrite (sys_step_single_file dirname e2 r2 (mk_sys _ (mk_disk (dirs (disk_of σ)) _)) p2
    Hu Hin Hd2 Hp2 Hf2).
  cbn [fst srv disk_of files sounds upload_handler with_sounds_settings sounds_push].
  assert (Hname : multer_filename (multer_now e2) (busboy_basename (part_filename p2)) =
                  multer_filename (multer_now e1) (busboy_basename (part_filename p1)))
    by (unfold multer_filename; by rewrite Ht, Hn).
  rewrite Hname, lookup_insert_eq. split; [|done].
  eexists. split.
  - unfold sounds_push. apply elem_of_app; left. apply elem_of_app; right. by left.
  - by split.
Qed.

(** C28: multer attaches no part whose base name is empty ([..], [.],
    [dir/]), in whatever field: when every file part of an upload has
    such a name, [req.file] is unset, the server answers 400
    [{ error: "No file uploaded" }], and neither the stores nor the disk
    change. *)
Theorem sys_upload_unnamed_parts dirname σ e r :
  dispatch (with_upload r NoFile) = Some EpUpload ->
  Forall (fun p => busboy_basename (part_filename p) = "") (sreq_files r) ->
  let res := sys_step dirname e r σ in
  res = (σ, json_response 400 (JObj [("error", JStr "No file uploaded")])).
Proof.
  intros Hd Hp. apply filter_unnamed in Hp. cbv zeta. rewrite sys_step_upload by done. cbv zeta.
  unfold multer_single. rewrite Hp. cbn [fst snd].
  rewrite (step_post _ _ _ EpUpload); [|apply dispatch_upload_post in Hd; done|rewrite ?dispatch_with_upload; done].
  simpl. by destruct σ.
Qed.

(** C27: an upload request with more than one attached file part is
    answered 500
    and changes none of the server's stores; multer leaves the disk as it
    was, except that when it had already written the first file it
    removes it again. *)
Theorem sys_upload_two_files dirname σ e r p q rest :
  dispatch (with_upload r NoFile) = Some EpUpload ->
  List.filter named_part (sreq_files r) = p :: q :: rest ->
  let res := sys_step dirname e r σ in
  let fname := multer_filename (multer_now e) (busboy_basename (part_filename p)) in
  res_status res.2 = 500%N /\ srv res.1 = srv σ /\
  (disk_of res.1 = disk_of σ \/
   disk_of res.1 = remove_file (path_join (uploads_dir dirname) fname) (disk_of σ)).
Proof.
  intros Hd Hp. cbv zeta. rewrite sys_step_upload by done. cbv zeta.
  unfold multer_single; cbv zeta. rewrite Hp.
  destruct (String.eqb _ _); cbn [negb].
  - destruct (store_file _ _ _ _ _) as [[d' fname]|] eqn:Hs.
    + rewrite store_file_spec in Hs. case_match; simplify_eq. cbn [fst snd srv disk_of].
      rewrite step_upload_multer_failed; [|by rewrite dispatch_with_upload|done].
      split_and!; [done|done|right]. unfold remove_file. cbn [files dirs].
      by rewrite delete_insert_eq.
    + cbn [fst snd srv disk_of].
      rewrite step_upload_multer_failed; [|by rewrite dispatch_with_upload|done]. by split_and!; [..|left].
  - cbn [fst snd srv disk_of].
    rewrite step_upload_multer_failed; [|by rewrite dispatch_with_upload|done]. by split_and!; [..|left].
Qed.
End SystemProperties.

Section Startup.
Context `{JsCoercion}.

(** C30: starting the process either listens with the initial stores on
    a disk where [uploads] exists, with the files it had, on [PORT] (the
    environment's value when it is set and not empty, [5000] otherwise),
    printing exactly [Server running on port PORT]; or, when [uploads] is
    missing and it or one of its ancestors is a file, [fs.mkdirSync]
    throws and the process stops before listening. *)
Theorem start_spec dirname env_port d :
  match start dirname env_port d with
  | Some (σ, port, log) =>
      srv σ = initial_state /\ port = listen_port env_port /\
      log = ["Server running on port " ++
             match env_port with
             | Some p => if String.eqb p "" then number_to_string (Fin 5000) else p
             | None => number_to_string (Fin 5000)
             end] /\
      exists_sync (uploads_dir dirname) (disk_of σ) = true /\ files (disk_of σ) = files d
  | None =>
      exists_sync (uploads_dir dirname) d = false /\
      List.Exists (fun q => is_Some (files d !! q)) (uploads_dir dirname :: ancestors (uploads_dir dirname))
  end.
Proof.
  pose proof (ensure_uploads_dir_cases dirname d) as Hc. cbv zeta in Hc.
  unfold start, boot. destruct (ensure_uploads_dir dirname d) as [d'|]; [|done].
  destruct Hc as (He & Hf & _). cbn [option_map srv disk_of]. split_and!; try done.
  unfold listen_message, listen_port, js_or.
  destruct env_port as [p|]; [|done]. cbn [option_map json_truthy].
  by destruct (String.eqb p "") eqn:E; [apply String.eqb_eq in E as ->|destruct p].
Qed.
End Startup.

(** ** Witnesses *)

Lemma app_disk_ok : boot_disk_ok "/app" app_disk.
Proof.
  split; [vm_compute; reflexivity|]. intros f _ Hin. unfold path_join, uploads_dir in Hin. simpl in Hin.
  apply elem_of_union in Hin as [Hin|Hin]; apply elem_of_singleton in Hin; discriminate.
Qed.

Definition app_state : sys_state := default (mk_sys initial_state app_disk) (boot "/app" app_disk).

Lemma app_state_boot : boot "/app" app_disk = Some app_state.
Proof. vm_compute. reflexivity. Qed.

Lemma app_state_reachable `{JsCoercion} b : sys_reachable "/app" b app_state.
Proof. eapply sys_reachable_boot; [apply app_disk_ok|apply app_state_boot]. Qed.

Definition song_part (name : string) (data : list Byte.byte) : file_part := mk_file_part "file" name data.

Definition upload_of (parts : list file_part) : sys_request :=
  mk_sys_request POST "/sounds/upload" NoJsonBody parts.

Definition sys_witness_env : sys_env := mk_sys_env witness_env 1700000000000.

Lemma sys_reachable_files_stored_witness :
  let σ := (sys_step "/app" sys_witness_env
              (upload_of [song_part "C:\fakepath\my song.mp3" [Byte.x49; Byte.x44; Byte.x33]])
              app_state).1 in
  state_wf (srv σ) /\ uploads_dir "/app" ∈ dirs (disk_of σ) /\
  forall snd fn, snd ∈ sounds (srv σ) -> sound_filename snd = Some fn ->
    path_component fn = true /\ is_Some (files (disk_of σ) !! path_join (uploads_dir "/app") fn).
Proof.
  apply (sys_reachable_files_stored "/app" (multer_now sys_witness_env + 1)).
  apply (sys_reachable_step "/app" 0); [exact I|lia|apply app_state_reachable].
Defined.

Lemma sys_upload_succeeds_witness :
  let p := song_part "C:\fakepath\my song.mp3" [Byte.x49; Byte.x44; Byte.x33] in
  let name := busboy_basename (part_filename p) in
  let fname := multer_filename (multer_now sys_witness_env) name in
  let id := date_string (date_now (handler_env sys_witness_env)) in
  let res := sys_step "/app" sys_witness_env (upload_of [p]) app_state in
  res_status res.2 = 200%N /\
  files (disk_of res.1) !! path_join (uploads_dir "/app") fname = Some (part_data p) /\
  sounds (srv res.1) = (sounds (srv app_state) ++ [mk_sound id name (Some fname) Uploaded])%list /\
  selectedSoundId (settings (srv res.1)) = id.
Proof.
  apply (sys_upload_succeeds "/app" 0); [apply app_state_reachable|vm_compute; reflexivity..].
Defined.

Lemma same_millisecond_uploads_overwrite_witness :
  let p1 := song_part "my song.mp3" [Byte.x31] in
  let p2 := song_part "my  song.mp3" [Byte.x32] in
  let σ2 := (sys_step "/app" sys_witness_env (upload_of [p2])
               (sys_step "/app" sys_witness_env (upload_of [p1]) app_state).1).1 in
  let fname := multer_filename (multer_now sys_witness_env) (busboy_basename (part_filename p1)) in
  (exists snd, snd ∈ sounds (srv σ2) /\ sound_filename snd = Some fname /\
               sound_name snd = busboy_basename (part_filename p1)) /\
  files (disk_of σ2) !! path_join (uploads_dir "/app") fname = Some (part_data p2).
Proof.
  apply (same_millisecond_uploads_overwrite "/app" 0);
    [apply app_state_reachable|vm_compute; reflexivity..].
Defined.

Lemma sys_upload_two_files_witness :
  let p := song_part "a.mp3" [Byte.x31] in
  let res := sys_step "/app" sys_witness_env (upload_of [p; song_part "b.mp3" [Byte.x32]]) app_state in
  let fname := multer_filename (multer_now sys_witness_env) (busboy_basename (part_filename p)) in
  res_status res.2 = 500%N /\ srv res.1 = srv app_state /\
  (disk_of res.1 = disk_of app_state \/
   disk_of res.1 = remove_file (path_join (uploads_dir "/app") fname) (disk_of app_state)).
Proof.
  apply (sys_upload_two_files "/app" app_state sys_witness_env _ _ (song_part "b.mp3" [Byte.x32]) []);
    vm_compute; reflexivity.
Defined.

(** The process on the example disk, with [PORT] unset. *)
Lemma start_app_example :
  start "/app" None app_disk = Some (app_state, JNum (Fin 5000), ["Server running on port 5000"]).
Proof. vm_compute. reflexivity. Qed.

Lemma sys_upload_unnamed_parts_witness :
  let r := upload_of [song_part ".." [Byte.x31]; mk_file_part "other" "C:\fakepath\dir/" [Byte.x32]] in
  (dispatch (with_upload r NoFile) = Some EpUpload /\
   Forall (fun p => busboy_basename (part_filename p) = "") (sreq_files r)) /\
  sys_step "/app" sys_witness_env r app_state =
    (app_state, json_response 400 (JObj [("error", JStr "No file uploaded")])).
Proof.
  cbv zeta. assert (Hd : dispatch (with_upload (upload_of [song_part ".." [Byte.x31];
    mk_file_part "other" "C:\fakepath\dir/" [Byte.x32]]) NoFile) = Some EpUpload) by reflexivity.
  assert (Hp : Forall (fun p => busboy_basename (part_filename p) = "") (sreq_files (upload_of
    [song_part ".." [Byte.x31]; mk_file_part "other" "C:\fakepath\dir/" [Byte.x32]])))
    by (repeat constructor).
  split; [done|]. exact (sys_upload_unnamed_parts "/app" app_state sys_witness_env _ Hd Hp).
Defined.
