(* ===== verification/Refinement.v ===== *)
(** * The contract of the specification and the refinement theorem

    Section 4 of the specification describes the stores by operations and
    their outcomes, leaving the code room: a settings update may leave a
    field as it was or put any in-range value there, a detection puts some
    truthy confidence in front of the log.  [Contract.contract_step] is that
    contract as a relation over an abstract state, with the two error
    kinds of section 7 ([MissingInput], answered 400, and [NotFound],
    answered 404).  [step_refines] shows that every request the server
    handles is a step of the contract with the matching status, or is
    answered by the framework (preflight, unparsable body, unknown route,
    an exception) without any change.  [sys_step_refines] extends it to
    the server with its disk: the contract then also sees the blob store
    of section 4.4 ([blobs], the files of the uploads directory by name),
    which only a successful upload changes.  [Contract.reachable] is the
    closure of the contract's steps from startup; [sys_reachable_contract]
    carries the contract's invariant to every reachable state of the
    system along the refinement. *)

From stdpp Require Import base tactics list strings gmap.
From Stdlib Require Import QArith String NArith.
From S2P Require Import Prelude JsNumber Json Naming Catalog Storage Settings Alerts Server System.

Local Open Scope string_scope.

Module Contract.

Record astate : Type := mk_astate {
  catalog : list sound;
  config : Settings.settings;
  log : list alert
}.

Inductive outcome : Type := Ok | MissingInput | NotFound.

Definition status_of (o : outcome) : N :=
  match o with Ok => 200 | MissingInput => 400 | NotFound => 404 end.

(** The operations of section 4, with the data a caller supplies. *)
Inductive op : Type :=
  | ListSounds | ListAlerts | GetSettings | Command
  | Upload (file : option (string * string))   (* original and stored name *)
  | Select (soundId : option json)
  | Update
  | RecordDetection.

(** A field of an update keeps its value or takes one allowed for it. *)
Definition kept_or {A} (P : A -> Prop) (old new : A) : Prop := new = old \/ P new.

Inductive contract_step : astate -> op -> outcome -> astate -> Prop :=
  | step_read a o :
      (o = ListSounds \/ o = ListAlerts \/ o = GetSettings \/ o = Command) ->
      contract_step a o Ok a
  | step_upload a name stored id :
      contract_step a (Upload (Some (name, stored))) Ok
        (mk_astate (catalog a ++ [mk_sound id name (Some stored) Uploaded])%list
                   (set_selectedSoundId id (config a)) (log a))
  | step_upload_missing a : contract_step a (Upload None) MissingInput a
  | step_select a i :
      i ∈ sound_ids (catalog a) ->
      contract_step a (Select (Some (JStr i))) Ok
        (mk_astate (catalog a) (set_selectedSoundId i (config a)) (log a))
  | step_select_missing a v :
      (forall i, v = Some (JStr i) -> i ∉ sound_ids (catalog a)) ->
      contract_step a (Select v) NotFound a
  | step_update a cfg' :
      kept_or (in_range 0 1) (confidenceThreshold (config a)) (confidenceThreshold cfg') ->
      kept_or (in_range 0 100) (volume (config a)) (volume cfg') ->
      kept_or (fun i => i ∈ sound_ids (catalog a)) (selectedSoundId (config a))
              (selectedSoundId cfg') ->
      contract_step a Update Ok (mk_astate (catalog a) cfg' (log a))
  | step_detect a al :
      number_truthy (alert_confidence al) = true ->
      contract_step a RecordDetection Ok (mk_astate (catalog a) (config a) (al :: log a)).

(** The contract keeps the selected id in the catalog. *)
Definition selected_valid (a : astate) : Prop :=
  selectedSoundId (config a) ∈ sound_ids (catalog a).

(** The stores at startup (section 4): the built-in sound, selected, and
    an empty log. *)
Definition initial : astate := mk_astate initial_sounds initial_settings [].

(** The states the contract reaches from startup by any sequence of its
    steps. *)
Inductive reachable : astate -> Prop :=
  | reach_init : reachable initial
  | reach_step a o r a' : reachable a -> contract_step a o r a' -> reachable a'.

Lemma step_selected_valid a o r a' :
  contract_step a o r a' -> selected_valid a -> selected_valid a'.
Proof.
  unfold selected_valid. intros Hs Hv. inversion Hs; subst; simpl; try done.
  - unfold sound_ids. rewrite map_app. apply elem_of_app. right. by left.
  - match goal with H : kept_or _ _ _ |- _ => destruct H as [->|?] end; done.
Qed.

Lemma reachable_selected_valid a : reachable a -> selected_valid a.
Proof.
  induction 1 as [|a o r a' _ IH Hs]; [by left|by eapply step_selected_valid].
Qed.
End Contract.

(** The abstraction of the server state. *)
Definition abs (s : state) : Contract.astate :=
  Contract.mk_astate (sounds s) (settings s) (alerts s).

(** The operation a handler performs, from the request it received. *)
Definition op_of (ep : endpoint) (req : request) : Contract.op :=
  match ep with
  | EpRoot | EpSounds => Contract.ListSounds
  | EpAlerts => Contract.ListAlerts
  | EpGetSettings => Contract.GetSettings
  | EpCommand => Contract.Command
  | EpUpload =>
      Contract.Upload
        (match req_upload req with
         | FileStored t name => Some (name, multer_filename t name)
         | _ => None
         end)
  | EpSelect => Contract.Select (get_prop (Some (body_or_empty (req_json req))) "soundId")
  | EpPutSettings => Contract.Update
  | EpDetection => Contract.RecordDetection
  end.

Section Refinement.
Context `{JsCoercion}.

Lemma select_handler_refines body s :
  let r := select_handler body s in
  exists o, Contract.contract_step (abs s) (Contract.Select (get_prop (Some (body_or_empty body)) "soundId"))
              o (abs r.1) /\ res_status r.2 = Contract.status_of o.
Proof.
  cbv zeta. unfold select_handler.
  destruct (sounds_some (sounds s) (get_prop (Some (body_or_empty body)) "soundId")) eqn:E.
  - apply sounds_some_spec in E as (i & Hg & Hi).
    rewrite (select_sound_found (C:=list sound) (sounds s) body (settings s) i Hg)
      by (apply sounds_some_spec; eauto).
    exists Contract.Ok. rewrite Hg. split; [by constructor|done].
  - rewrite (select_sound_unknown (C:=list sound)) by done.
    exists Contract.NotFound. split; [|done]. constructor.
    intros i Hg Hi. rewrite Hg in E. apply not_true_iff_false in E. apply E.
    apply sounds_some_spec. eauto.
Qed.

Lemma put_settings_refines body s :
  body_parsed body = true -> state_wf s ->
  Contract.contract_step (abs s) Contract.Update Contract.Ok (abs (put_settings_handler body s).1).
Proof.
  intros Hp [Hwf _].
  destruct (update_settings_wf (C:=list sound) (sounds s) body (settings s) Hp Hwf)
    as (Hc & Hv & Hs).
  apply sounds_some_spec in Hs as (i & Hi & Hin). injection Hi as Hi.
  unfold put_settings_handler, abs. simpl.
  constructor; right; simpl; [done|done|]. by rewrite Hi.
Qed.

Lemma handle_refines e ep req s :
  request_wf req -> state_wf s ->
  let r := handle e ep req s in
  (exists o, Contract.contract_step (abs s) (op_of ep req) o (abs r.1) /\
             res_status r.2 = Contract.status_of o) \/
  (r.1 = s /\ res_status r.2 = 500%N).
Proof.
  intros Hreq Hs. destruct ep; simpl;
    try (left; exists Contract.Ok; split; [apply Contract.step_read; tauto|done]).
  - destruct (req_upload req) as [|t name|]; [| |right; by split].
    + left. exists Contract.MissingInput. split; [constructor|done].
    + left. exists Contract.Ok. split; [constructor|done].
  - left. apply select_handler_refines.
  - unfold detection_handler.
    destruct (record_detection _ _ _ _) as [l|] eqn:Hr; [|right; by split].
    destruct (record_detection_cons _ _ _ _ _ Hr) as (a & -> & _ & Ht).
    left. exists Contract.Ok. split; [by constructor|done].
  - left. exists Contract.Ok. split; [|done].
    apply put_settings_refines; [by apply request_wf_body|done].
Qed.

(** One step of the server, seen by the contract: it changes nothing or
    it is one step of the contract. *)
Lemma step_contract e req s :
  request_wf req -> state_wf s ->
  (step e req s).1 = s \/ exists o r, Contract.contract_step (abs s) o r (abs (step e req s).1).
Proof.
  intros Hreq Hs. destruct (dispatch req) as [ep|] eqn:Hd; [|left; by apply step_no_dispatch].
  rewrite (step_dispatch e req s ep Hd), strip_head_fst.
  destruct (handle_refines e ep req s Hreq Hs) as [(o & Ho & _)|[-> _]]; [right; eauto|by left].
Qed.

(** C2: the server refines the contract of the specification: for a
    well-formed state and a parsed request, a request the middleware
    chain answers itself changes nothing, and a request that reaches a
    handler either performs one step of the contract, answered with the
    status of its outcome (200, 400 for a missing file, 404 for an
    unknown sound), or fails with 500 and changes nothing. *)
Theorem step_refines e req s :
  request_wf req -> state_wf s ->
  let r := step e req s in
  match dispatch req with
  | None => r.1 = s
  | Some ep =>
      (exists o, Contract.contract_step (abs s) (op_of ep req) o (abs r.1) /\
                 res_status r.2 = Contract.status_of o) \/
      (r.1 = s /\ res_status r.2 = 500%N)
  end.
Proof.
  intros Hreq Hs. simpl. destruct (dispatch req) as [ep|] eqn:Hd; [|by apply step_no_dispatch].
  rewrite (step_dispatch e req s ep Hd), strip_head_fst, strip_head_status.
  by apply handle_refines.
Qed.
End Refinement.

(** ** The system: the contract and the blob store *)

(** The blob store of the specification: the files of the uploads
    directory, by name. *)
Definition blobs (dirname : string) (d : disk) (f : string) : option (list Byte.byte) :=
  files d !! path_join (uploads_dir dirname) f.

(** What a step of the contract does to the blob store: an upload that
    succeeds stores the bytes under the stored name, every other step
    leaves the store as it was. *)
Definition blob_step (o : Contract.op) (out : Contract.outcome) (data : option (list Byte.byte))
    (bl bl' : string -> option (list Byte.byte)) : Prop :=
  match o, out with
  | Contract.Upload (Some (_, stored)), Contract.Ok =>
      bl' stored = data /\ forall f, f <> stored -> bl' f = bl f
  | _, _ => forall f, bl' f = bl f
  end.

(** What a failed request may do to the blob store: nothing, or remove
    the one blob multer wrote for it, under a name made at its time [t];
    every other blob is kept. *)
Definition blobs_undone (t : N) (bl bl' : string -> option (list Byte.byte)) : Prop :=
  (forall f, bl' f = bl f) \/
  exists n, bl' (multer_filename t n) = None /\ forall f, f <> multer_filename t n -> bl' f = bl f.

Section SystemRefinement.
Context `{JsCoercion}.

Lemma state_eta (σ : sys_state) : mk_sys (srv σ) (disk_of σ) = σ.
Proof. by destruct σ. Qed.

(** A step that does not reach multer, seen by the contract. *)
Lemma sys_step_other_refines dirname e r σ ep data :
  request_wf (with_upload r NoFile) -> state_wf (srv σ) ->
  dispatch (with_upload r NoFile) = Some ep -> ep <> EpUpload ->
  let res := sys_step dirname e r σ in
  (exists o, Contract.contract_step (abs (srv σ)) (op_of ep (with_upload r NoFile)) o (abs (srv res.1)) /\
             res_status res.2 = Contract.status_of o /\
             blob_step (op_of ep (with_upload r NoFile)) o data (blobs dirname (disk_of σ))
               (blobs dirname (disk_of res.1))) \/
  (srv res.1 = srv σ /\ res_status res.2 = 500%N /\ disk_of res.1 = disk_of σ).
Proof.
  intros Hreq Hs Hd Hne. cbv zeta. rewrite sys_step_other by congruence. cbn [fst snd srv disk_of].
  rewrite (step_dispatch _ _ _ ep Hd), strip_head_fst, strip_head_status.
  destruct (handle_refines (handler_env e) ep (with_upload r NoFile) (srv σ) Hreq Hs)
    as [(o & Ho & Hst)|[Hsame Hst]]; [left|right; done].
  exists o. split_and!; [done|done|]. destruct ep; try done; simpl; by destruct o.
Qed.

(** The upload route: multer's four outcomes, seen by the contract. *)
Lemma sys_step_upload_refines dirname b e r σ :
  sys_wf dirname b σ -> dispatch (with_upload r NoFile) = Some EpUpload ->
  let mu := multer_single (storage dirname) "file" (multer_now e) (sreq_files r) (disk_of σ) in
  let res := sys_step dirname e r σ in
  (exists o, Contract.contract_step (abs (srv σ)) (op_of EpUpload (with_upload r mu.2)) o (abs (srv res.1)) /\
             res_status res.2 = Contract.status_of o /\
             blob_step (op_of EpUpload (with_upload r mu.2)) o (option_map part_data (head (List.filter named_part (sreq_files r))))
               (blobs dirname (disk_of σ)) (blobs dirname (disk_of res.1))) \/
  (srv res.1 = srv σ /\ res_status res.2 = 500%N /\
   blobs_undone (multer_now e) (blobs dirname (disk_of σ)) (blobs dirname (disk_of res.1))).
Proof.
  intros (Hs & Hu & Hin & _) Hd. cbv zeta. rewrite sys_step_upload by done. cbv zeta.
  cbn [fst snd srv disk_of].
  rewrite (step_post _ _ _ EpUpload) by (done || (rewrite dispatch_with_upload; done) ||
                                          (apply dispatch_upload_post in Hd; done)).
  destruct (multer_single_cases (storage dirname) "file" (multer_now e) (sreq_files r) (disk_of σ))
    as [[Hm|Hm]|(p & rest & Hp & Hdest & Hnd & [[-> Hm]|Hm])]; rewrite Hm;
    cbn [fst snd handle with_upload req_upload upload_handler op_of].
  - left. exists Contract.MissingInput. split_and!; [constructor|done|done].
  - right. split_and!; [done|done|by left].
  - left. exists Contract.Ok. split_and!; [constructor|done|]. rewrite Hp. cbn [head option_map].
    unfold blobs. cbn [disk_of files storage destination storage_filename]. split.
    + by rewrite lookup_insert_eq.
    + intros f Hf. rewrite lookup_insert_ne; [done|]. intros Heq. by apply path_join_inj in Heq.
  - right. split_and!; [done|done|]. right. exists (busboy_basename (part_filename p)). unfold blobs.
    cbn [disk_of files remove_file storage destination storage_filename]. split.
    + apply lookup_delete_eq.
    + intros f Hf. rewrite lookup_delete_ne, lookup_insert_ne; [done| |];
        intros Heq; by apply path_join_inj in Heq.
Qed.

(** C32: the whole system refines the contract of the specification with
    its blob store.  In every reachable state, a request the middleware
    chain answers itself changes nothing; a request that reaches a
    handler either performs one step of the contract, answered with the
    status of its outcome, where an upload that succeeds stores exactly
    the uploaded bytes under the stored name and every other step leaves
    the blobs alone; or it fails with 500, changes neither the catalog,
    nor the settings, nor the alerts, and either keeps every blob or
    removes exactly one, the one multer wrote for it under a name made at
    this request's time ([blobs_undone]), keeping every other blob:
    registration happens only after the write. *)
Theorem sys_step_refines dirname b e r σ :
  sys_reachable dirname b σ -> request_wf (with_upload r NoFile) ->
  let mu := multer_single (storage dirname) "file" (multer_now e) (sreq_files r) (disk_of σ) in
  let res := sys_step dirname e r σ in
  let bl := blobs dirname (disk_of σ) in
  let bl' := blobs dirname (disk_of res.1) in
  match dispatch (with_upload r NoFile) with
  | None => res.1 = σ
  | Some ep =>
      let req := with_upload r (if ep is EpUpload then mu.2 else NoFile) in
      (exists o, Contract.contract_step (abs (srv σ)) (op_of ep req) o (abs (srv res.1)) /\
                 res_status res.2 = Contract.status_of o /\
                 blob_step (op_of ep req) o (option_map part_data (head (List.filter named_part (sreq_files r)))) bl bl') \/
      (srv res.1 = srv σ /\ res_status res.2 = 500%N /\ blobs_undone (multer_now e) bl bl')
  end.
Proof.
  intros Hr Hreq. pose proof (sys_reachable_wf _ _ _ Hr) as Hwf. cbv zeta.
  destruct (dispatch (with_upload r NoFile)) as [ep|] eqn:Hd.
  - destruct (decide (ep = EpUpload)) as [->|Hne].
    + by apply (sys_step_upload_refines dirname b).
    + destruct (sys_step_other_refines dirname e r σ ep (option_map part_data (head (List.filter named_part (sreq_files r))))
                  Hreq (proj1 Hwf) Hd Hne) as [Hl|(Hsame & Hst & Hdisk)].
      * left. by destruct ep.
      * right. split_and!; [done|done|]. left. intros f. by rewrite Hdisk.
  - rewrite sys_step_other by congruence. cbn [fst srv disk_of].
    rewrite step_no_dispatch by done. apply state_eta.
Qed.

(** The server part of a system step is a server step, on the request
    with multer's outcome or without a file. *)
Lemma sys_step_srv dirname e r σ :
  exists u, srv (sys_step dirname e r σ).1 = (step (handler_env e) (with_upload r u) (srv σ)).1.
Proof.
  destruct (decide (dispatch (with_upload r NoFile) = Some EpUpload)) as [Hd|Hd].
  - rewrite sys_step_upload by done. eexists. reflexivity.
  - rewrite sys_step_other by done. by exists NoFile.
Qed.

(** C35: every state the server with its disk reaches is, seen through
    [abs], a state the contract of the specification reaches from
    startup by its own steps, so the contract's invariant holds there:
    the selected id names a sound of the catalog.  The invariant is
    proved once, on the contract, and carried to the code by the
    refinement. *)
Theorem sys_reachable_contract dirname b σ :
  sys_reachable dirname b σ ->
  Contract.reachable (abs (srv σ)) /\ Contract.selected_valid (abs (srv σ)).
Proof.
  intros Hr. enough (Ha : Contract.reachable (abs (srv σ))).
  { split; [done|by apply Contract.reachable_selected_valid]. }
  induction Hr as [b d σ Hd Hb|b e r σ Hreq Hle Hr IH].
  - unfold boot in Hb. destruct (ensure_uploads_dir dirname d); [|done].
    injection Hb as <-. apply Contract.reach_init.
  - destruct (sys_step_srv dirname e r σ) as [u ->].
    destruct (step_contract (handler_env e) (with_upload r u) (srv σ))
      as [->|(o & out & Ho)]; [done|by apply (proj1 (sys_reachable_wf _ _ _ Hr))|done|].
    exact (Contract.reach_step _ o out _ IH Ho).
Qed.
End SystemRefinement.

(** ** Witnesses *)

Lemma step_refines_witness :
  let req := post_request "/sounds/select" [("soundId", JStr "default")] in
  let r := step witness_env req initial_state in
  match dispatch req with
  | None => r.1 = initial_state
  | Some ep =>
      (exists o, Contract.contract_step (abs initial_state) (op_of ep req) o (abs r.1) /\
                 res_status r.2 = Contract.status_of o) \/
      (r.1 = initial_state /\ res_status r.2 = 500%N)
  end.
Proof. apply step_refines; [simpl; reflexivity|apply initial_state_wf]. Defined.

Lemma sys_step_refines_witness :
  let r := upload_of [song_part "my song.mp3" [Byte.x31]] in
  let mu := multer_single (storage "/app") "file" (multer_now sys_witness_env) (sreq_files r)
              (disk_of app_state) in
  let res := sys_step "/app" sys_witness_env r app_state in
  let bl := blobs "/app" (disk_of app_state) in
  let bl' := blobs "/app" (disk_of res.1) in
  match dispatch (with_upload r NoFile) with
  | None => res.1 = app_state
  | Some ep =>
      let req := with_upload r (if ep is EpUpload then mu.2 else NoFile) in
      (exists o, Contract.contract_step (abs (srv app_state)) (op_of ep req) o (abs (srv res.1)) /\
                 res_status res.2 = Contract.status_of o /\
                 blob_step (op_of ep req) o (option_map part_data (head (List.filter named_part (sreq_files r)))) bl bl') \/
      (srv res.1 = srv app_state /\ res_status res.2 = 500%N /\ blobs_undone (multer_now sys_witness_env) bl bl')
  end.
Proof. apply (sys_step_refines "/app" 0); [apply app_state_reachable|exact I]. Defined.

Lemma sys_reachable_contract_witness :
  let σ := (sys_step "/app" sys_witness_env (upload_of [song_part "my song.mp3" [Byte.x31]]) app_state).1 in
  Contract.reachable (abs (srv σ)) /\ Contract.selected_valid (abs (srv σ)).
Proof.
  apply (sys_reachable_contract "/app" (multer_now sys_witness_env + 1)).
  apply (sys_reachable_step "/app" 0); [exact I|lia|apply app_state_reachable].
Defined.
